(** * GlobalProtect authentication (auth-globalprotect.c)

    A shallow embedding of the login-response parser, the prelogin form
    builder, the portal response parser, the login loop and the logout
    request of [auth-globalprotect.c], with the properties the
    specification states about them.

    Conventions of the embedding:
    - a [char *] that the code tests against [NULL] is a [cstr]
      ([option string]); [NULL] is [None];
    - an [xmlNode *] used as a cursor over siblings is the list of the node
      and its following siblings ([->next] is the tail, [NULL] is [[]]);
    - [vpn_progress] appends a structured message to a log;
    - helpers of the client that live in other files (XML accessors, text
      buffers, URL decoding, the transport, the form collector, the token
      generator) are variables of the section, so every theorem holds for
      any implementation of them;
    - memory allocation ([calloc], [strdup], [asprintf]) succeeds. *)

From Stdlib Require Import String Ascii List ZArith Bool Lia Arith.
From Equations Require Import Equations.
Import ListNotations.

Local Open Scope string_scope.
Local Open Scope Z_scope.
Local Open Scope list_scope.

(** ** C strings and errno values *)

Definition cstr := option string.

Definition EPERM : Z := 1.
Definition ENOENT : Z := 2.
Definition EAGAIN : Z := 11.
Definition ENOMEM : Z := 12.
Definition EACCES : Z := 13.
Definition EEXIST : Z := 17.
Definition EINVAL : Z := 22.

(** Keeps the equation of a case analysis for the termination proofs. *)
Definition inspect {A : Type} (x : A) : {y : A | x = y} := exist _ x eq_refl.

(** [!strcmp(a, b)] *)
Definition streq (a b : string) : bool := String.eqb a b.

(** ** libxml2 trees, as far as the code reads them *)

Inductive xmlElementType :=
| XML_ELEMENT_NODE
| XML_TEXT_NODE
| XML_COMMENT_NODE.

#[warnings="-register-all"]
Inductive xmlNode :=
| XmlNode (type : xmlElementType) (name : string)
          (properties : list (string * string))
          (content : string) (children : list xmlNode).

Definition xml_type (n : xmlNode) : xmlElementType :=
  match n with XmlNode t _ _ _ _ => t end.
Definition xml_name (n : xmlNode) : string :=
  match n with XmlNode _ s _ _ _ => s end.
Definition xml_properties (n : xmlNode) : list (string * string) :=
  match n with XmlNode _ _ p _ _ => p end.
Definition xml_content (n : xmlNode) : string :=
  match n with XmlNode _ _ _ c _ => c end.
Definition xml_children (n : xmlNode) : list xmlNode :=
  match n with XmlNode _ _ _ _ c => c end.

Definition is_element (n : xmlNode) : bool :=
  match xml_type n with XML_ELEMENT_NODE => true | _ => false end.

(** [while (xml_node && xml_node->type != XML_ELEMENT_NODE)
       xml_node = xml_node->next;] *)
Fixpoint skip_non_elements (xml_node : list xmlNode) : list xmlNode :=
  match xml_node with
  | [] => []
  | n :: next => if is_element n then xml_node else skip_non_elements next
  end.

(** ** Text buffers

    [struct oc_text_buf] as the code uses it: the text and a sticky error
    status.  [buf_error] reads the status and [buf_free] releases the buffer
    and returns it.  The functions that append are variables of the sections
    below. *)

Record oc_text_buf := { buf_data : cstr; buf_status : Z }.

Definition buf_error (b : oc_text_buf) : Z := buf_status b.
Definition buf_free (b : oc_text_buf) : Z := buf_error b.

(** An argument of a [printf]-style call. *)
Inductive fmt_arg :=
| Arg_s (s : cstr)
| Arg_d (d : Z).

(** ** Session records *)

Inductive oc_form_opt_type :=
| OC_FORM_OPT_UNSET
| OC_FORM_OPT_TEXT
| OC_FORM_OPT_PASSWORD
| OC_FORM_OPT_SELECT
| OC_FORM_OPT_HIDDEN
| OC_FORM_OPT_TOKEN.

Record oc_choice := { choice_name : cstr; choice_label : cstr }.

(** [struct oc_form_opt] and [struct oc_form_opt_select]; [->next] is the
    tail of the list that holds the option. *)
Record oc_form_opt := {
  opt_type : oc_form_opt_type;
  opt_name : cstr;
  opt_label : cstr;
  opt_value : cstr;
  opt_choices : list oc_choice
}.

Record oc_auth_form := {
  form_message : cstr;
  form_auth_id : cstr;
  form_action : cstr;
  form_opts : list oc_form_opt
}.

Record login_context := {
  username : cstr;
  alt_secret : cstr;
  portal_userauthcookie : cstr;
  portal_prelogonuserauthcookie : cstr;
  form : option oc_auth_form
}.

(** The fields of [struct openconnect_info] that this file touches. *)
Record openconnect_info := {
  cookie : cstr;
  localname : cstr;
  hostname : cstr;
  port : Z;
  urlpath : cstr;
  platname : string;
  authgroup : cstr;
  redirect_url : cstr;
  trojan_interval : Z;
  token_bypassed : bool;
  disable_ipv6 : bool;
  ip_info_addr : cstr;
  ip_info_addr6 : cstr;
  has_write_new_config : bool
}.

Definition set_cookie (v : openconnect_info) (c : cstr) : openconnect_info :=
  {| cookie := c; localname := localname v; hostname := hostname v;
     port := port v; urlpath := urlpath v; platname := platname v;
     authgroup := authgroup v; redirect_url := redirect_url v;
     trojan_interval := trojan_interval v;
     token_bypassed := token_bypassed v; disable_ipv6 := disable_ipv6 v;
     ip_info_addr := ip_info_addr v; ip_info_addr6 := ip_info_addr6 v;
     has_write_new_config := has_write_new_config v |}.

Definition set_urlpath (v : openconnect_info) (p : cstr) : openconnect_info :=
  {| cookie := cookie v; localname := localname v; hostname := hostname v;
     port := port v; urlpath := p; platname := platname v;
     authgroup := authgroup v; redirect_url := redirect_url v;
     trojan_interval := trojan_interval v;
     token_bypassed := token_bypassed v; disable_ipv6 := disable_ipv6 v;
     ip_info_addr := ip_info_addr v; ip_info_addr6 := ip_info_addr6 v;
     has_write_new_config := has_write_new_config v |}.

Definition set_authgroup (v : openconnect_info) (g : cstr) : openconnect_info :=
  {| cookie := cookie v; localname := localname v; hostname := hostname v;
     port := port v; urlpath := urlpath v; platname := platname v;
     authgroup := g; redirect_url := redirect_url v;
     trojan_interval := trojan_interval v;
     token_bypassed := token_bypassed v; disable_ipv6 := disable_ipv6 v;
     ip_info_addr := ip_info_addr v; ip_info_addr6 := ip_info_addr6 v;
     has_write_new_config := has_write_new_config v |}.

Definition set_redirect_url (v : openconnect_info) (u : cstr) : openconnect_info :=
  {| cookie := cookie v; localname := localname v; hostname := hostname v;
     port := port v; urlpath := urlpath v; platname := platname v;
     authgroup := authgroup v; redirect_url := u;
     trojan_interval := trojan_interval v;
     token_bypassed := token_bypassed v; disable_ipv6 := disable_ipv6 v;
     ip_info_addr := ip_info_addr v; ip_info_addr6 := ip_info_addr6 v;
     has_write_new_config := has_write_new_config v |}.

Definition set_trojan_interval (v : openconnect_info) (t : Z) : openconnect_info :=
  {| cookie := cookie v; localname := localname v; hostname := hostname v;
     port := port v; urlpath := urlpath v; platname := platname v;
     authgroup := authgroup v; redirect_url := redirect_url v;
     trojan_interval := t;
     token_bypassed := token_bypassed v; disable_ipv6 := disable_ipv6 v;
     ip_info_addr := ip_info_addr v; ip_info_addr6 := ip_info_addr6 v;
     has_write_new_config := has_write_new_config v |}.

Definition set_token_bypassed (v : openconnect_info) (t : bool) : openconnect_info :=
  {| cookie := cookie v; localname := localname v; hostname := hostname v;
     port := port v; urlpath := urlpath v; platname := platname v;
     authgroup := authgroup v; redirect_url := redirect_url v;
     trojan_interval := trojan_interval v;
     token_bypassed := t; disable_ipv6 := disable_ipv6 v;
     ip_info_addr := ip_info_addr v; ip_info_addr6 := ip_info_addr6 v;
     has_write_new_config := has_write_new_config v |}.

Definition set_username (c : login_context) (u : cstr) : login_context :=
  {| username := u; alt_secret := alt_secret c;
     portal_userauthcookie := portal_userauthcookie c;
     portal_prelogonuserauthcookie := portal_prelogonuserauthcookie c;
     form := form c |}.

Definition set_form (c : login_context) (f : option oc_auth_form) : login_context :=
  {| username := username c; alt_secret := alt_secret c;
     portal_userauthcookie := portal_userauthcookie c;
     portal_prelogonuserauthcookie := portal_prelogonuserauthcookie c;
     form := f |}.

Definition set_portal_userauthcookie (c : login_context) (k : cstr) : login_context :=
  {| username := username c; alt_secret := alt_secret c;
     portal_userauthcookie := k;
     portal_prelogonuserauthcookie := portal_prelogonuserauthcookie c;
     form := form c |}.

Definition set_portal_prelogonuserauthcookie (c : login_context) (k : cstr)
  : login_context :=
  {| username := username c; alt_secret := alt_secret c;
     portal_userauthcookie := portal_userauthcookie c;
     portal_prelogonuserauthcookie := k;
     form := form c |}.

Definition set_opt_type (o : oc_form_opt) (t : oc_form_opt_type) : oc_form_opt :=
  {| opt_type := t; opt_name := opt_name o; opt_label := opt_label o;
     opt_value := opt_value o; opt_choices := opt_choices o |}.

Definition set_opt_value (o : oc_form_opt) (v : cstr) : oc_form_opt :=
  {| opt_type := opt_type o; opt_name := opt_name o; opt_label := opt_label o;
     opt_value := v; opt_choices := opt_choices o |}.

Definition set_opt_label (o : oc_form_opt) (l : cstr) : oc_form_opt :=
  {| opt_type := opt_type o; opt_name := opt_name o; opt_label := l;
     opt_value := opt_value o; opt_choices := opt_choices o |}.

Definition OC_FORM_RESULT_CANCELLED : Z := 1.

(** ** Progress messages *)

Inductive progress_level := PRG_ERR | PRG_INFO | PRG_DEBUG | PRG_TRACE.

Inductive progress_msg :=
(* parse_login_xml *)
| Msg_unexpected_arg (argn : nat) (value : string)
| Msg_arg_mismatch (opt value : cstr) (expected : string)
| Msg_arg_missing (opt : cstr)
| Msg_arg_returned (opt : cstr) (value : string)
| Msg_please_report (unknown_args fatal_args : Z)
(* parse_prelogin_xml *)
| Msg_bad_base64 (s : string)
| Msg_saml_using_portal_userauthcookie
| Msg_saml_using_portal_prelogonuserauthcookie
| Msg_saml_field_specified (alt_secret : string) (saml_method : cstr)
| Msg_saml_required_via (saml_method saml_path : cstr)
| Msg_saml_required_external (saml_method : cstr)
| Msg_saml_append_field_name
| Msg_prelogin_form (form : oc_auth_form)
(* challenge_cb *)
| Msg_challenge_form (form : oc_auth_form) (inputStr : string)
(* parse_portal_xml *)
| Msg_hip_interval_ignored (portal_minutes set_minutes : Z)
| Msg_hip_interval_set (minutes : Z)
| Msg_gateways_available (n : Z)
| Msg_gateway (label name : cstr)
| Msg_no_gateways
(* gpst_login *)
| Msg_tokencode_failed
(* gpst_obtain_cookie *)
| Msg_neither_portal_nor_gateway
(* gpst_bye *)
| Msg_logout_failed
| Msg_logout_successful.

Definition progress := (progress_level * progress_msg)%type.

(** ** The login-response schema *)

Record gp_login_arg := {
  opt : cstr;
  save : bool;
  show : bool;
  warn_missing : bool;
  err_missing : bool;
  unknown : bool;
  check : cstr
}.

(** A designated initializer leaves every other member zero. *)
Definition arg0 : gp_login_arg :=
  {| opt := None; save := false; show := false; warn_missing := false;
     err_missing := false; unknown := false; check := None |}.

Definition with_opt (s : string) (a : gp_login_arg) : gp_login_arg :=
  {| opt := Some s; save := save a; show := show a;
     warn_missing := warn_missing a; err_missing := err_missing a;
     unknown := unknown a; check := check a |}.
Definition with_save (a : gp_login_arg) : gp_login_arg :=
  {| opt := opt a; save := true; show := show a;
     warn_missing := warn_missing a; err_missing := err_missing a;
     unknown := unknown a; check := check a |}.
Definition with_show (a : gp_login_arg) : gp_login_arg :=
  {| opt := opt a; save := save a; show := true;
     warn_missing := warn_missing a; err_missing := err_missing a;
     unknown := unknown a; check := check a |}.
Definition with_warn_missing (a : gp_login_arg) : gp_login_arg :=
  {| opt := opt a; save := save a; show := show a;
     warn_missing := true; err_missing := err_missing a;
     unknown := unknown a; check := check a |}.
Definition with_err_missing (a : gp_login_arg) : gp_login_arg :=
  {| opt := opt a; save := save a; show := show a;
     warn_missing := warn_missing a; err_missing := true;
     unknown := unknown a; check := check a |}.
Definition with_unknown (a : gp_login_arg) : gp_login_arg :=
  {| opt := opt a; save := save a; show := show a;
     warn_missing := warn_missing a; err_missing := err_missing a;
     unknown := true; check := check a |}.
Definition with_check (s : string) (a : gp_login_arg) : gp_login_arg :=
  {| opt := opt a; save := save a; show := show a;
     warn_missing := warn_missing a; err_missing := err_missing a;
     unknown := unknown a; check := Some s |}.

Definition gp_login_args : list gp_login_arg := [
  with_unknown arg0;
  with_opt "authcookie" (with_save (with_err_missing arg0));
  with_opt "persistent-cookie" (with_warn_missing arg0);
  with_opt "portal" (with_save (with_warn_missing arg0));
  with_opt "user" (with_save (with_err_missing arg0));
  with_opt "authentication-source" (with_show arg0);
  with_opt "configuration" (with_warn_missing arg0);
  with_opt "domain" (with_save (with_warn_missing arg0));
  with_unknown arg0;
  with_unknown arg0;
  with_unknown arg0;
  with_unknown arg0;
  with_opt "connection-type" (with_err_missing (with_check "tunnel" arg0));
  with_opt "password-expiration-days" (with_show arg0);
  with_opt "clientVer" (with_err_missing (with_check "4100" arg0));
  with_opt "preferred-ip" (with_save arg0);
  with_opt "portal-userauthcookie" (with_show arg0);
  with_opt "portal-prelogonuserauthcookie" (with_show arg0);
  with_opt "preferred-ipv6" (with_save arg0);
  with_opt "usually-equals-4" (with_show arg0);
  with_opt "usually-equals-unknown" (with_show arg0)
]%list.

Definition gp_login_nargs : nat := length gp_login_args.

(** [(argn < gp_login_nargs) ? argn : 0] *)
Definition arg_index (argn : nat) : nat :=
  if (argn <? gp_login_nargs)%nat then argn else 0%nat.

(** [!value[0] || !strcmp(value, "(null)") || !strcmp(value, "-1")] *)
Definition null_value (value : string) : bool :=
  streq value "" || streq value "(null)" || streq value "-1".

(** The state the argument loop of [parse_login_xml] carries. *)
Record login_loop := {
  ll_cookie : oc_text_buf;
  ll_unknown_args : Z;
  ll_fatal_args : Z;
  ll_log : list progress
}.

Inductive loop_exit :=
| Loop_done (st : login_loop)
| Loop_err_out (st : login_loop)
| Loop_out_of_bounds.

(** What a response callback hands back: its return value, the session and
    the callback data as it leaves them, and what it reported. *)
Record cb_result (C : Type) := {
  cb_ret : Z;
  cb_vpninfo : openconnect_info;
  cb_data : C;
  cb_log : list progress
}.
Arguments cb_ret {C}.
Arguments cb_vpninfo {C}.
Arguments cb_data {C}.
Arguments cb_log {C}.

(** ** The login loop: control points, events and states *)

Inductive http_flags := HTTP_REDIRECT | HTTP_NO_FLAGS.

(** What [gpst_xml_or_error] finds a response body to be. *)
Inductive response_kind :=
| Resp_error (e : Z)
| Resp_xml (root : xmlNode)
| Resp_challenge (prompt inputStr : string).

(** The labels of [gpst_login]: the top of the [for (;;)] body, [got_form:],
    [replay_form:], [out:] with the value returned, and a dereference of a
    null pointer. *)
Inductive login_pc :=
| At_prelogin
| At_got_form
| At_replay_form
| At_out (result : Z)
| At_crash.

(** What the loop does that the outside can see, and the two assignments
    the specification speaks of. *)
Inductive login_event :=
| Ev_prelogin (portal : bool)
| Ev_collect (form : option oc_auth_form)
| Ev_submit (portal blind_retry : bool)
| Ev_blind_retry
| Ev_username (u : string).

Definition set_form_opts (f : oc_auth_form) (opts : list oc_form_opt)
  : oc_auth_form :=
  {| form_message := form_message f; form_auth_id := form_auth_id f;
     form_action := form_action f; form_opts := opts |}.

(** [strrchr(s, ':')], as the text before the last colon and the text after
    it. *)
Fixpoint strrchr_colon (s : string) : option (string * string) :=
  match s with
  | EmptyString => None
  | String c r =>
      match strrchr_colon r with
      | Some (a, b) => Some (String c a, b)
      | None => if Ascii.eqb c ":"%char then Some (EmptyString, r) else None
      end
  end.

(** Lines 584-589: the path ends with [.esp], possibly followed by a query
    string. *)
Definition keep_urlpath (urlpath : cstr) : bool :=
  match urlpath with
  | Some p =>
      match String.index 0 ".esp" p with
      | Some i =>
          match String.get (i + 4) p with
          | None => true
          | Some c => Ascii.eqb c "?"%char
          end
      | None => false
      end
  | None => false
  end.

(** Translate platform names (derived from AnyConnect) into the values known
    to be emitted by GlobalProtect clients. *)
Definition gpst_os_name (vpninfo : openconnect_info) : string :=
  if streq (platname vpninfo) "mac-intel" || streq (platname vpninfo) "apple-ios"
  then "Mac"
  else if streq (platname vpninfo) "linux-64" || streq (platname vpninfo) "linux"
          || streq (platname vpninfo) "android"
  then "Linux"
  else "Windows".

(** ** Sample helpers

  Simple implementations of the helpers, used to run the model on concrete
  documents. *)
Module Sample.

Definition xmlnode_is_named (n : xmlNode) (s : string) : bool :=
  streq (xml_name n) s.

Definition xmlnode_get_val (n : xmlNode) (s : string) : option string :=
  if xmlnode_is_named n s then Some (xml_content n) else None.

Fixpoint lookup_prop (p : list (string * string)) (s : string) : option string :=
  match p with
  | [] => None
  | (k, v) :: p' => if streq k s then Some v else lookup_prop p' s
  end.

Definition xmlnode_get_prop (n : xmlNode) (s : string) : option string :=
  lookup_prop (xml_properties n) s.

(** Decodes nothing. *)
Definition urldecode_inplace (s : string) : string := s.

Definition text_of (c : cstr) : string :=
  match c with Some s => s | None => "" end.

Definition append_text (b : oc_text_buf) (s : cstr) : oc_text_buf :=
  {| buf_data := Some (text_of (buf_data b) ++ text_of s)%string;
     buf_status := buf_status b |}.

(** Joins [name=value] pairs with [&], without encoding. *)
Definition append_opt (b : oc_text_buf) (k v : cstr) : oc_text_buf :=
  {| buf_data :=
       Some (match buf_data b with
             | Some "" | None => ""
             | Some d => d ++ "&"
             end ++ text_of k ++ "=" ++ text_of v)%string;
     buf_status := buf_status b |}.

Definition buf_alloc : oc_text_buf := {| buf_data := None; buf_status := 0 |}.

Definition elem (name : string) (content : string) (children : list xmlNode)
  : xmlNode :=
  XmlNode XML_ELEMENT_NODE name [] content children.

Definition text (content : string) : xmlNode :=
  XmlNode XML_TEXT_NODE "text" [] content [].

Definition argument (content : string) : xmlNode := elem "argument" content [].

Definition jnlp (args : list xmlNode) : xmlNode :=
  elem "jnlp" "" [text " "; elem "application-desc" "" args].

Definition vpninfo0 : openconnect_info :=
  {| cookie := None; localname := Some "laptop"; hostname := Some "vpn.example.com";
     port := 443; urlpath := None; platname := "linux-64";
     authgroup := None; redirect_url := None; trojan_interval := 0;
     token_bypassed := false; disable_ipv6 := false;
     ip_info_addr := None; ip_info_addr6 := None;
     has_write_new_config := false |}.

Definition ctx0 : login_context :=
  {| username := None; alt_secret := None; portal_userauthcookie := None;
     portal_prelogonuserauthcookie := None; form := None |}.

(** The login response of the specification's scenario. *)
Definition scenario_args : list string :=
  [""; "abc123"; "deadbeef"; "Acme"; "alice"; "LDAP-auth"; "vsys1"; "corp";
   ""; ""; ""; ""; "tunnel"; "-1"; "4100"; "10.0.0.5"; ""; ""; ""; ""; ""]%list.


(** The collaborators: the server answers from a script, the user types the
    same credentials every time. *)
Definition world := list (Z * cstr).

Definition EIO : Z := 5.

Definition do_https_request (w : world) (vpninfo : openconnect_info)
           (method : string) (body_type : cstr) (body : option oc_text_buf)
           (xml_buf : cstr) (flags : http_flags) : Z * cstr * world :=
  match w with
  | (result, response) :: w' => (result, response, w')
  | [] => (- EIO, xml_buf, [])
  end.

Definition openconnect_close_https (w : world) (vpninfo : openconnect_info)
  : world := w.

Definition fill_opt (o : oc_form_opt) : oc_form_opt :=
  match opt_type o, opt_value o with
  | OC_FORM_OPT_TEXT, None => set_opt_value o (Some "alice")
  | OC_FORM_OPT_PASSWORD, None => set_opt_value o (Some "secret")
  | OC_FORM_OPT_TOKEN, None => set_opt_value o (Some "123456")
  | _, _ => o
  end.

Definition process_auth_form (w : world) (vpninfo : openconnect_info)
           (f : option oc_auth_form)
  : Z * openconnect_info * option oc_auth_form * world :=
  (0, vpninfo,
   option_map (fun f => {| form_message := form_message f;
                           form_auth_id := form_auth_id f;
                           form_action := form_action f;
                           form_opts := map fill_opt (form_opts f) |}) f,
   w).

Definition do_gen_tokencode (w : world) (vpninfo : openconnect_info)
           (f : option oc_auth_form) : Z * option oc_auth_form * world :=
  (0, f, w).

Definition nuke_opt_values (opts : list oc_form_opt) : list oc_form_opt :=
  map (fun o => match opt_type o with
                | OC_FORM_OPT_TEXT | OC_FORM_OPT_PASSWORD | OC_FORM_OPT_TOKEN =>
                    set_opt_value o None
                | _ => o
                end) opts.

Definition append_form_opts (vpninfo : openconnect_info) (f : oc_auth_form)
           (b : oc_text_buf) : oc_text_buf :=
  fold_left (fun b o => append_opt b (opt_name o) (opt_value o)) (form_opts f) b.

Definition buf_truncate (b : oc_text_buf) : oc_text_buf :=
  {| buf_data := Some ""; buf_status := buf_status b |}.

(** Prints the string argument of a one-[%s] call, and the format of any
    other call. *)
Definition buf_append (b : oc_text_buf) (fmt : string) (args : list fmt_arg)
  : oc_text_buf :=
  match args with
  | [Arg_s s] => append_text b s
  | _ => append_text b (Some fmt)
  end.

Definition buf_append_xmlescaped (b : oc_text_buf) (s : cstr) : oc_text_buf :=
  append_text b s.

Definition write_new_config (w : world) (b : oc_text_buf) : Z * world := (0, w).

Definition handle_redirect (w : world) (vpninfo : openconnect_info)
  : Z * openconnect_info * world := (0, vpninfo, w).

Definition atoi (s : string) : Z := 0.

(** Rejects ["!!!"] and decodes nothing else. *)
Definition openconnect_base64_decode (s : string) : option string :=
  if streq s "!!!" then None else Some s.

(** A token generator that answers for every field: 0 is its success. *)
Definition can_gen_tokencode (vpninfo : openconnect_info) (f : oc_auth_form)
           (o : oc_form_opt) : Z := 0.

(** A session without a token generator: [can_gen_tokencode] fails. *)
Definition cannot_gen_tokencode (vpninfo : openconnect_info) (f : oc_auth_form)
           (o : oc_form_opt) : Z := - EINVAL.

Definition prelogin_response (children : list xmlNode) : xmlNode :=
  elem "prelogin-response" "" children.

Definition plain_prelogin : xmlNode :=
  prelogin_response [elem "status" "Success" [];
                     elem "username-label" "User ID" [];
                     elem "password-label" "Password" []].

Definition gateway_entry (host label : string) : xmlNode :=
  XmlNode XML_ELEMENT_NODE "entry" [("name", host)] ""
          [elem "description" label []].

Definition policy (cookie : string) : xmlNode :=
  elem "policy" ""
       [elem "portal-name" "Acme" [];
        elem "portal-userauthcookie" cookie [];
        elem "gateways" ""
             [elem "external" ""
                   [elem "list" ""
                         [gateway_entry "gw1.example.com" "East";
                          text " ";
                          gateway_entry "gw2.example.com:8443" "West"]]]].

(** What the scripted server's bodies are taken to be. *)
Definition gpst_classify (response : cstr) : response_kind :=
  match response with
  | Some "prelogin" => Resp_xml plain_prelogin
  | Some "config" => Resp_xml (policy "empty")
  | Some "config-with-cookie" => Resp_xml (policy "c00k1e")
  | Some "login" => Resp_xml (jnlp (map argument scenario_args))
  | Some "challenge" => Resp_challenge "Enter the code" "continuation"
  | Some "denied" => Resp_error (- EACCES)
  | Some "logged-out" => Resp_xml (XmlNode XML_ELEMENT_NODE "response"
                                           [("status", "success")] "" [])
  | _ => Resp_error (- EINVAL)
  end.


(** Sample documents, sessions and scripts. *)

Definition scenario_login : xmlNode := jnlp (map argument scenario_args).

(** The scenario's response with connection type ["ssl"]. *)
Definition ssl_login : xmlNode :=
  jnlp (map argument
            [""; "abc123"; "deadbeef"; "Acme"; "alice"; "LDAP-auth"; "vsys1";
             "corp"; ""; ""; ""; ""; "ssl"; "-1"; "4100"; "10.0.0.5"]).

(** The scenario's response with both portal cookies and two arguments more
    than the schema has. *)
Definition long_login : list string :=
  [""; "abc123"; "deadbeef"; "Acme"; "alice"; "LDAP-auth"; "vsys1"; "corp";
   ""; ""; ""; ""; "tunnel"; "-1"; "4100"; "10.0.0.5"; "pc1"; "pc2"; ""; "4";
   "unknown"; "extra"; ""].

Definition saml_prelogin : xmlNode :=
  prelogin_response [elem "saml-auth-method" "REDIRECT" [];
                     elem "saml-request" "aHR0cHM6Ly9pZHAuZXhhbXBsZS5jb20v" []].

Definition bad_saml_prelogin : xmlNode :=
  prelogin_response [elem "saml-auth-method" "REDIRECT" [];
                     elem "saml-request" "!!!" []].

Definition token_prelogin : xmlNode :=
  prelogin_response [elem "username-label" "User ID" [];
                     elem "password-label" "Passcode" []].

Definition ctx_alt_secret : login_context :=
  {| username := None; alt_secret := Some "prelogin-cookie";
     portal_userauthcookie := None; portal_prelogonuserauthcookie := None;
     form := None |}.

Definition ctx_alice : login_context :=
  {| username := Some "alice"; alt_secret := None;
     portal_userauthcookie := None; portal_prelogonuserauthcookie := None;
     form := None |}.

Definition vpninfo_gateway : openconnect_info :=
  set_urlpath vpninfo0 (Some "gateway").

Definition vpninfo_connected : openconnect_info :=
  set_cookie vpninfo0 (Some "authcookie=abc123&portal=Acme&user=alice&computer=laptop").

(** A portal login that yields a portal cookie, a gateway that rejects the
    credentials retried blindly, then a gateway login that succeeds. *)
Definition rejected_retry_script : world :=
  [(0, Some "prelogin"); (0, Some "config-with-cookie"); (0, Some "denied");
   (0, Some "prelogin"); (0, Some "login")].

(** A gateway that answers the login request with a challenge, then accepts
    the code. *)
Definition challenge_script : world :=
  [(0, Some "prelogin"); (0, Some "challenge"); (0, Some "login")].

(** A logout answered with junk. *)
Definition junk_logout_script : world := [(0, Some "<html>junk")].

(** The scenario's login response without the text node before
    [application-desc]. *)
Definition bare_login : xmlNode :=
  elem "jnlp" "" [elem "application-desc" "" (map argument scenario_args)].

(** A portal configuration that only sets the HIP report interval. *)
Definition hip_policy : xmlNode :=
  elem "policy" ""
       [elem "hip-collection" "" [elem "hip-report-interval" "600" []]].

(** A portal configuration whose only gateway has no [name] attribute. *)
Definition nameless_policy : xmlNode :=
  elem "policy" ""
       [elem "gateways" ""
             [elem "external" ""
                   [elem "list" "" [elem "entry" "" [elem "description" "East" []]]]]].

Definition vpninfo_hip : openconnect_info := set_trojan_interval vpninfo0 3600.

Definition vpninfo_field : openconnect_info :=
  set_urlpath vpninfo0 (Some "gateway:prelogin-cookie").

(** A gateway that accepts the first login. *)
Definition gateway_script : world := [(0, Some "prelogin"); (0, Some "login")].

End Sample.

(** ** Parse gateway login response (POST /ssl-vpn/login.esp) *)

Section GlobalProtect.

(** [xmlnode_is_named], [xmlnode_get_val] ([Some] is a zero return with
    the node's content stored), [urldecode_inplace] and [append_opt] are
    defined in other files of the client. *)
Variable xmlnode_is_named : xmlNode -> string -> bool.
Variable xmlnode_get_val : xmlNode -> string -> option string.
Variable urldecode_inplace : string -> string.
Variable append_opt : oc_text_buf -> cstr -> cstr -> oc_text_buf.
Variable buf_alloc : oc_text_buf.

(** Lines 324-336: the value left in [value] once [xmlnode_get_val] has
    stored the argument's content [s]. *)
Definition arg_value (arg : gp_login_arg) (s : string) : cstr :=
  if null_value s then None
  else if save arg then Some (urldecode_inplace s)
  else Some s.

Definition count_unexpected (fatal : Z) (m : progress) (st : login_loop)
  : login_loop :=
  {| ll_cookie := ll_cookie st;
     ll_unknown_args := ll_unknown_args st + 1;
     ll_fatal_args := ll_fatal_args st + fatal;
     ll_log := ll_log st ++ [m] |}.

Definition report (m : progress) (st : login_loop) : login_loop :=
  {| ll_cookie := ll_cookie st;
     ll_unknown_args := ll_unknown_args st;
     ll_fatal_args := ll_fatal_args st;
     ll_log := ll_log st ++ [m] |}.

(** [arg->check && (!value || strcmp(value, arg->check))] *)
Definition check_fails (arg : gp_login_arg) (value : cstr) : bool :=
  match check arg, value with
  | Some c, Some v => negb (streq v c)
  | Some _, None => true
  | None, _ => false
  end.

(** Lines 341-362. *)
Definition classify_arg (argn : nat) (arg : gp_login_arg) (value : cstr)
           (st : login_loop) : login_loop :=
  match unknown arg, value with
  | true, Some v => count_unexpected 0 (PRG_ERR, Msg_unexpected_arg argn v) st
  | _, _ =>
    if check_fails arg value then
      count_unexpected (Z.b2z (err_missing arg))
        (PRG_ERR, Msg_arg_mismatch (opt arg) value
                    (match check arg with Some c => c | None => "" end)) st
    else if (err_missing arg || warn_missing arg)
            && match value with None => true | Some _ => false end then
      count_unexpected (Z.b2z (err_missing arg))
        (PRG_ERR, Msg_arg_missing (opt arg)) st
    else
      match value with
      | Some v =>
          if show arg then report (PRG_INFO, Msg_arg_returned (opt arg) v) st
          else st
      | None => st
      end
  end.

(** Lines 364-365. *)
Definition save_arg (arg : gp_login_arg) (value : cstr) (st : login_loop)
  : login_loop :=
  match value with
  | Some v =>
      if save arg then
        {| ll_cookie := append_opt (ll_cookie st) (opt arg) (Some v);
           ll_unknown_args := ll_unknown_args st;
           ll_fatal_args := ll_fatal_args st;
           ll_log := ll_log st |}
      else st
  | None => st
  end.

(** Lines 341-368: what one iteration does with its entry and value. *)
Definition login_arg_step (argn : nat) (arg : gp_login_arg) (value : cstr)
           (st : login_loop) : login_loop :=
  save_arg arg value (classify_arg argn arg value st).

Lemma skip_non_elements_length (l : list xmlNode) :
  (length (skip_non_elements l) <= length l)%nat.
Proof.
  induction l as [|n l IH]; simpl; [lia|].
  destruct (is_element n); simpl; lia.
Qed.

Definition more_to_do (argn : nat) (xml_node : list xmlNode) : bool :=
  (argn <? gp_login_nargs)%nat
  || match xml_node with [] => false | _ :: _ => true end.

Lemma loop_measure_missing (argn : nat) (xml_node : list xmlNode) :
  more_to_do argn xml_node = true ->
  (gp_login_nargs - S argn + length (@nil xmlNode)
   < gp_login_nargs - argn + length xml_node)%nat.
Proof.
  unfold more_to_do. intros Hmore.
  destruct xml_node as [|n l]; simpl length.
  - rewrite orb_false_r in Hmore. apply Nat.ltb_lt in Hmore. lia.
  - lia.
Qed.

Lemma loop_measure_next (argn : nat) (xml_node : list xmlNode) x next :
  skip_non_elements xml_node = x :: next ->
  (gp_login_nargs - S argn + length next
   < gp_login_nargs - argn + length xml_node)%nat.
Proof.
  intros Hskip. pose proof (skip_non_elements_length xml_node) as Hl.
  rewrite Hskip in Hl. simpl in Hl. lia.
Qed.

(** Lines 314-369: [for (argn = 0; argn < gp_login_nargs || xml_node;
    argn++)].  A read of [gp_login_args] outside the table ends the walk in
    [Loop_out_of_bounds]. *)
Equations? login_args_loop (argn : nat) (xml_node : list xmlNode)
           (st : login_loop) : loop_exit
  by wf (gp_login_nargs - argn + length xml_node)%nat lt :=
  login_args_loop argn xml_node st with inspect (more_to_do argn xml_node) := {
    | exist _ false _ => Loop_done st
    | exist _ true Hmore with nth_error gp_login_args (arg_index argn) := {
      | None => Loop_out_of_bounds
      | Some arg with inspect (skip_non_elements xml_node) := {
        | exist _ nil Hskip =>
            login_args_loop (S argn) [] (login_arg_step argn arg None st)
        | exist _ (cons x next) Hskip with xmlnode_get_val x "argument" := {
          | Some s =>
              login_args_loop (S argn) next
                (login_arg_step argn arg (arg_value arg s) st)
          | None => Loop_err_out st } } } }.
Proof.
  - exact (loop_measure_missing argn xml_node Hmore).
  - exact (loop_measure_next argn xml_node x next Hskip).
Qed.

Definition login_loop_init : login_loop :=
  {| ll_cookie := buf_alloc; ll_unknown_args := 0; ll_fatal_args := 0;
     ll_log := [] |}.

(** Lines 372-385, once the loop is over and [computer] is appended.  The
    two counters are bounded by the number of iterations, far below
    [INT_MAX]. *)
Definition login_finish (vpninfo : openconnect_info) (ctx : login_context)
           (st : login_loop) : cb_result login_context :=
  let cookie := append_opt (ll_cookie st) (Some "computer") (localname vpninfo) in
  let log :=
    if ll_unknown_args st =? 0 then ll_log st
    else ll_log st ++ [(PRG_ERR, Msg_please_report (ll_unknown_args st)
                                                   (ll_fatal_args st))] in
  if negb (ll_fatal_args st =? 0) then
    {| cb_ret := - EPERM; cb_vpninfo := vpninfo; cb_data := ctx;
       cb_log := log |}
  else if buf_error cookie =? 0 then
    {| cb_ret := buf_free cookie;
       cb_vpninfo := set_cookie vpninfo (buf_data cookie);
       cb_data := ctx; cb_log := log |}
  else
    {| cb_ret := buf_free cookie; cb_vpninfo := vpninfo; cb_data := ctx;
       cb_log := log |}.

(** [err_out:] *)
Definition login_err_out (vpninfo : openconnect_info) (ctx : login_context)
           (log : list progress) : cb_result login_context :=
  {| cb_ret := - EINVAL; cb_vpninfo := vpninfo; cb_data := ctx;
     cb_log := log |}.

(** Lines 301-311: the children of [application-desc], or [None] for
    [goto err_out]. *)
Definition application_desc (xml_node : xmlNode) : option (list xmlNode) :=
  if negb (xmlnode_is_named xml_node "jnlp") then None
  else
    match skip_non_elements (xml_children xml_node) with
    | [] => None
    | app :: _ =>
        if negb (xmlnode_is_named app "application-desc") then None
        else Some (xml_children app)
    end.

(** [parse_login_xml]; [None] is a read outside [gp_login_args]. *)
Definition parse_login_xml (vpninfo : openconnect_info) (xml_node : xmlNode)
           (ctx : login_context) : option (cb_result login_context) :=
  match application_desc xml_node with
  | None => Some (login_err_out vpninfo ctx [])
  | Some arguments =>
      match login_args_loop 0 arguments login_loop_init with
      | Loop_out_of_bounds => None
      | Loop_err_out st => Some (login_err_out vpninfo ctx (ll_log st))
      | Loop_done st => Some (login_finish vpninfo ctx st)
      end
  end.

(** *** The walk, as the specification words it

    The schema and the argument list are paired position by position; a
    position past the end of the argument list has no value, and a position
    past the end of the schema is governed by the always-unknown entry. *)

Definition always_unknown : gp_login_arg := with_unknown arg0.

Definition schema_entry (argn : nat) : gp_login_arg :=
  nth argn gp_login_args always_unknown.

Fixpoint lockstep (argn : nat) (values : list string)
  : list (nat * option string) :=
  match values with
  | s :: values' => (argn, Some s) :: lockstep (S argn) values'
  | [] => map (fun i => (i, None)) (seq argn (gp_login_nargs - argn))
  end.

(** The contents of the element nodes of an argument list, in order; [None]
    when one of them is not an [argument] with content. *)
Fixpoint element_values (xml_node : list xmlNode) : option (list string) :=
  match xml_node with
  | [] => Some []
  | x :: next =>
      if is_element x then
        match xmlnode_get_val x "argument", element_values next with
        | Some s, Some values => Some (s :: values)
        | _, _ => None
        end
      else element_values next
  end.

Definition position_value (arg : gp_login_arg) (s : option string) : cstr :=
  match s with
  | Some s => arg_value arg s
  | None => None
  end.

Definition position_step (st : login_loop) (row : nat * option string)
  : login_loop :=
  login_arg_step (fst row) (schema_entry (fst row))
                 (position_value (schema_entry (fst row)) (snd row)) st.

(** What the policy of an entry asks for at a position that has no value:
    an entry that asks for an exact value, or that has the [err_missing] or
    the [warn_missing] policy, counts one unexpected value, a fatal one under
    [err_missing], and reports it; under any other entry nothing happens. *)
Definition missing_position (st : login_loop) (argn : nat) : login_loop :=
  let arg := schema_entry argn in
  match check arg with
  | Some c =>
      count_unexpected (if err_missing arg then 1 else 0)
        (PRG_ERR, Msg_arg_mismatch (opt arg) None c) st
  | None =>
      if err_missing arg || warn_missing arg then
        count_unexpected (if err_missing arg then 1 else 0)
          (PRG_ERR, Msg_arg_missing (opt arg)) st
      else st
  end.

(** What the always-unknown policy does with an argument past the end of the
    schema: its content is counted and reported as unexpected, unless it is
    empty, ["(null)"] or ["-1"], which the validator reads as no value. *)
Definition surplus_position (st : login_loop) (row : nat * string) : login_loop :=
  if null_value (snd row) then st
  else count_unexpected 0 (PRG_ERR, Msg_unexpected_arg (fst row) (snd row)) st.

(** The positions that have both a schema entry and an argument. *)
Definition supplied_positions (values : list string) : list (nat * option string) :=
  map (fun row => (fst row, Some (snd row)))
      (combine (seq 0 gp_login_nargs) (firstn gp_login_nargs values)).

(** The positions of the schema past the end of the argument list. *)
Definition missing_positions (values : list string) : list nat :=
  seq (length values) (gp_login_nargs - length values).

(** The arguments past the end of the schema, with their positions. *)
Definition surplus_positions (values : list string) : list (nat * string) :=
  combine (seq gp_login_nargs (length values - gp_login_nargs))
          (skipn gp_login_nargs values).

(** The pairs a cookie is made of: the fields with the save policy whose
    value is present, URL-decoded, in schema order. *)
Fixpoint saved_fields (args : list gp_login_arg) (values : list string)
  : list (cstr * cstr) :=
  match args, values with
  | arg :: args', s :: values' =>
      if save arg && negb (null_value s)
      then (opt arg, Some (urldecode_inplace s)) :: saved_fields args' values'
      else saved_fields args' values'
  | _, _ => []
  end.

Definition append_fields (b : oc_text_buf) (fields : list (cstr * cstr))
  : oc_text_buf :=
  fold_left (fun b kv => append_opt b (fst kv) (snd kv)) fields b.

(** A schema entry with the [err_missing] policy is violated at a position:
    its value is absent, or differs from the exact value the entry asks
    for. *)
Definition violated (arg : gp_login_arg) (s : option string) : bool :=
  err_missing arg
  && match s with
     | None => true
     | Some s =>
         null_value s
         || match check arg with
            | Some c => negb (streq s c)
            | None => false
            end
     end.

(** The expected shape of a login response: a [jnlp] root whose first
    element child is [application-desc], holding [argument] elements; the
    result is their contents. *)
Definition login_response_values (xml_node : xmlNode) : option (list string) :=
  match application_desc xml_node with
  | Some arguments => element_values arguments
  | None => None
  end.

(** The positions of a response where an [err_missing] entry is violated. *)
Definition violations (values : list string) : list nat :=
  filter (fun i => violated (schema_entry i) (nth_error values i))
         (seq 0 gp_login_nargs).

(** No always-unknown entry is [err_missing], and no entry with an exact
    value is saved (so the value compared is the one received). *)
Definition consistent_entry (arg : gp_login_arg) : bool :=
  (negb (unknown arg) || negb (err_missing arg))
  && match check arg with
     | Some _ => negb (save arg)
     | None => true
     end.

(** The buffer a response assembles. *)
Definition assembled_cookie (vpninfo : openconnect_info) (values : list string)
  : oc_text_buf :=
  append_fields buf_alloc
    (saved_fields gp_login_args values ++ [(Some "computer", localname vpninfo)]).

(** ** Parse pre-login response ({POST,GET} /{global-protect,ssl-vpn}/pre-login.esp) *)

(** [openconnect_base64_decode] ([None] is a negative length) and
    [can_gen_tokencode] are defined in other files of the client.  The
    latter returns an [int], which the code tests with [!]. *)
Variable openconnect_base64_decode : string -> option string.
Variable can_gen_tokencode : openconnect_info -> oc_auth_form -> oc_form_opt -> Z.

(** The locals the scan of the children fills in. *)
Record prelogin_scan := {
  prompt : cstr;
  username_label : cstr;
  password_label : cstr;
  saml_method : cstr;
  saml_path : cstr
}.

Definition prelogin_scan_init : prelogin_scan :=
  {| prompt := None; username_label := None; password_label := None;
     saml_method := None; saml_path := None |}.

(** [xmlnode_get_val(xml_node, name, &var)]: [var] changes on success only. *)
Definition get_val_into (xml_node : xmlNode) (name : string) (var : cstr) : cstr :=
  match xmlnode_get_val xml_node name with
  | Some s => Some s
  | None => var
  end.

(** Lines 88-114; [inl s] is the exit through the base64 failure on [s]. *)
Fixpoint scan_prelogin (xml_node : list xmlNode) (sc : prelogin_scan)
  : string + prelogin_scan :=
  match xml_node with
  | [] => inr sc
  | x :: next =>
      match xmlnode_get_val x "saml-request" with
      | Some s =>
          match openconnect_base64_decode s with
          | None => inl s
          | Some path =>
              scan_prelogin next
                {| prompt := prompt sc; username_label := username_label sc;
                   password_label := password_label sc;
                   saml_method := saml_method sc; saml_path := Some path |}
          end
      | None =>
          scan_prelogin next
            {| prompt := get_val_into x "authentication-message" (prompt sc);
               username_label := get_val_into x "username-label" (username_label sc);
               password_label := get_val_into x "password-label" (password_label sc);
               saml_method := get_val_into x "saml-auth-method" (saml_method sc);
               saml_path := saml_path sc |}
      end
  end.

(** Lines 117-140: [inl] is what is reported when the gate lets the flow
    through, [inr] what is reported when it answers [-EPERM]. *)
Definition saml_gate (ctx : login_context) (sc : prelogin_scan)
  : list progress + list progress :=
  match saml_method sc, saml_path sc with
  | None, None => inl []
  | _, _ =>
      match portal_userauthcookie ctx with
      | Some _ => inl [(PRG_DEBUG, Msg_saml_using_portal_userauthcookie)]
      | None =>
          match portal_prelogonuserauthcookie ctx with
          | Some _ => inl [(PRG_DEBUG, Msg_saml_using_portal_prelogonuserauthcookie)]
          | None =>
              match alt_secret ctx with
              | Some a => inl [(PRG_DEBUG, Msg_saml_field_specified a (saml_method sc))]
              | None =>
                  inr [(PRG_ERR,
                        match saml_method sc with
                        | Some m =>
                            if streq m "REDIRECT"
                            then Msg_saml_required_via (saml_method sc) (saml_path sc)
                            else Msg_saml_required_external (saml_method sc)
                        | None => Msg_saml_required_external (saml_method sc)
                        end);
                       (PRG_ERR, Msg_saml_append_field_name)]
              end
          end
      end
  end.

(** [a ? : b] *)
Definition or_else (a : cstr) (b : string) : string :=
  match a with Some s => s | None => b end.

(** Lines 155-167: the username field. *)
Definition prelogin_user_opt (ctx : login_context) (sc : prelogin_scan)
  : oc_form_opt :=
  {| opt_type := match username ctx with
                 | None => OC_FORM_OPT_TEXT
                 | Some _ => OC_FORM_OPT_HIDDEN
                 end;
     opt_name := Some "user";
     opt_label := Some (or_else (username_label sc) "Username" ++ ": ")%string;
     opt_value := username ctx;
     opt_choices := [] |}.

(** Lines 170-175: the secret field before its type is chosen. *)
Definition prelogin_secret_opt (ctx : login_context) (sc : prelogin_scan)
  : oc_form_opt :=
  {| opt_type := OC_FORM_OPT_UNSET;
     opt_name := Some (or_else (alt_secret ctx) "passwd");
     opt_label :=
       Some (or_else (alt_secret ctx) (or_else (password_label sc) "Password")
             ++ ": ")%string;
     opt_value := None;
     opt_choices := [] |}.

Definition is_null (c : cstr) : bool :=
  match c with None => true | Some _ => false end.

(** Lines 185-189. *)
Definition prelogin_secret_type (vpninfo : openconnect_info)
           (ctx : login_context) (sc : prelogin_scan) (form : oc_auth_form)
           (opt2 : oc_form_opt) : oc_form_opt_type :=
  if (can_gen_tokencode vpninfo form opt2 =? 0)
     && is_null (alt_secret ctx)
     && match password_label sc with
        | Some l => negb (streq l "Password")
        | None => false
        end
  then OC_FORM_OPT_TOKEN
  else OC_FORM_OPT_PASSWORD.

(** Lines 143-194: the form built once the gate is passed. *)
Definition prelogin_form (vpninfo : openconnect_info) (ctx : login_context)
           (sc : prelogin_scan) : oc_auth_form :=
  let opt := prelogin_user_opt ctx sc in
  let opt2 := prelogin_secret_opt ctx sc in
  let form :=
    {| form_message :=
         Some (or_else (prompt sc) "Please enter your username and password");
       form_auth_id := Some "_login";
       form_action := None;
       form_opts := [opt; opt2] |} in
  {| form_message := form_message form;
     form_auth_id := form_auth_id form;
     form_action := form_action form;
     form_opts :=
       [opt; set_opt_type opt2 (prelogin_secret_type vpninfo ctx sc form opt2)] |}.

Definition parse_prelogin_xml (vpninfo : openconnect_info) (xml_node : xmlNode)
           (ctx : login_context) : cb_result login_context :=
  if negb (xmlnode_is_named xml_node "prelogin-response") then
    {| cb_ret := 0; cb_vpninfo := vpninfo; cb_data := ctx; cb_log := [] |}
  else
    match scan_prelogin (xml_children xml_node) prelogin_scan_init with
    | inl s =>
        {| cb_ret := - EINVAL; cb_vpninfo := vpninfo; cb_data := ctx;
           cb_log := [(PRG_ERR, Msg_bad_base64 s)] |}
    | inr sc =>
        match saml_gate ctx sc with
        | inr log =>
            {| cb_ret := - EPERM; cb_vpninfo := vpninfo; cb_data := ctx;
               cb_log := log |}
        | inl log =>
            let form := prelogin_form vpninfo ctx sc in
            {| cb_ret := 0; cb_vpninfo := vpninfo;
               cb_data := set_username (set_form ctx (Some form)) None;
               cb_log := log ++ [(PRG_TRACE, Msg_prelogin_form form)] |}
        end
    end.

(** ** Callback function to create a new form from a challenge *)

(** Lines 233-236. *)
Definition challenge_secret_type (vpninfo : openconnect_info)
           (form : oc_auth_form) (opt2 : oc_form_opt) : oc_form_opt_type :=
  if (can_gen_tokencode vpninfo form opt2 =? 0)
     && match opt_type opt2 with OC_FORM_OPT_PASSWORD => true | _ => false end
  then OC_FORM_OPT_TOKEN
  else OC_FORM_OPT_PASSWORD.

(** [challenge_cb]; [None] is a dereference of a null form or field. *)
Definition challenge_cb (vpninfo : openconnect_info) (prompt inputStr : string)
           (ctx : login_context) : option (cb_result login_context) :=
  match form ctx with
  | Some f =>
      match form_opts f with
      | opt :: opt2 :: rest =>
          let opt := set_opt_type opt OC_FORM_OPT_HIDDEN in
          let opt2 := set_opt_label (set_opt_value opt2 None) None in
          let freed :=
            {| form_message := None; form_auth_id := None; form_action := None;
               form_opts := opt :: opt2 :: rest |} in
          let opt2 := set_opt_type opt2 (challenge_secret_type vpninfo freed opt2) in
          let f' :=
            {| form_message := Some prompt;
               form_auth_id := Some "_challenge";
               form_action := Some inputStr;
               form_opts := opt :: set_opt_label opt2 (Some "Challenge: ") :: rest |} in
          Some {| cb_ret := - EAGAIN; cb_vpninfo := vpninfo;
                  cb_data := set_form ctx (Some f');
                  cb_log := [(PRG_TRACE, Msg_challenge_form f' inputStr)] |}
      | _ => None
      end
  | None => None
  end.

(** ** Parse portal login/config response (POST /ssl-vpn/getconfig.esp) *)

(** The collaborators of the portal parser and of the login loop act on the
    outside world: the user, the server, the configuration store.  [world] is
    its state; each collaborator takes it and returns it.  They are defined in
    other files of the client. *)
Variable world : Type.
Variable xmlnode_get_prop : xmlNode -> string -> option string.
Variable atoi : string -> Z.
Variable buf_append : oc_text_buf -> string -> list fmt_arg -> oc_text_buf.
Variable buf_append_xmlescaped : oc_text_buf -> cstr -> oc_text_buf.
Variable write_new_config : world -> oc_text_buf -> Z * world.
Variable process_auth_form :
  world -> openconnect_info -> option oc_auth_form ->
  Z * openconnect_info * option oc_auth_form * world.
Variable handle_redirect : world -> openconnect_info -> Z * openconnect_info * world.

Record portal_scan := {
  ps_gateways : option xmlNode;
  ps_portal : cstr;
  ps_hip_interval : cstr;
  ps_vpninfo : openconnect_info;
  ps_ctx : login_context;
  ps_log : list progress
}.

(** Lines 438-442. *)
Definition scan_external (gateways : option xmlNode) (x2 : xmlNode)
  : option xmlNode :=
  if xmlnode_is_named x2 "external" then
    fold_left (fun g x3 => if xmlnode_is_named x3 "list" then Some x3 else g)
              (xml_children x2) gateways
  else gateways.

(** Lines 445-455; [sec - 60] and [sec / 60] are taken on integers that
    [atoi] returned, without overflow. *)
Definition scan_hip (sc : portal_scan) (x2 : xmlNode) : portal_scan :=
  match xmlnode_get_val x2 "hip-report-interval" with
  | Some h =>
      let sec := atoi h in
      let vpninfo := ps_vpninfo sc in
      if negb (trojan_interval vpninfo =? 0) then
        {| ps_gateways := ps_gateways sc; ps_portal := ps_portal sc;
           ps_hip_interval := Some h; ps_vpninfo := vpninfo;
           ps_ctx := ps_ctx sc;
           ps_log := ps_log sc
                     ++ [(PRG_INFO,
                          Msg_hip_interval_ignored
                            (Z.quot sec 60) (Z.quot (trojan_interval vpninfo) 60))] |}
      else
        {| ps_gateways := ps_gateways sc; ps_portal := ps_portal sc;
           ps_hip_interval := Some h;
           ps_vpninfo := set_trojan_interval vpninfo (sec - 60);
           ps_ctx := ps_ctx sc;
           ps_log := ps_log sc ++ [(PRG_INFO, Msg_hip_interval_set (Z.quot sec 60))] |}
  | None => sc
  end.

(** [!*cookie || !strcmp(cookie, "empty")] *)
Definition empty_cookie (c : string) : bool := streq c "" || streq c "empty".

(** Lines 459-464 and 465-470: a cookie field of the context. *)
Definition scan_cookie (x : xmlNode) (name : string) (old : cstr) : cstr :=
  match xmlnode_get_val x name with
  | Some c => if empty_cookie c then None else Some c
  | None => old
  end.

(** Lines 437-471: one child of [policy]. *)
Definition scan_policy_child (sc : portal_scan) (x : xmlNode) : portal_scan :=
  if xmlnode_is_named x "gateways" then
    {| ps_gateways := fold_left scan_external (xml_children x) (ps_gateways sc);
       ps_portal := ps_portal sc; ps_hip_interval := ps_hip_interval sc;
       ps_vpninfo := ps_vpninfo sc; ps_ctx := ps_ctx sc; ps_log := ps_log sc |}
  else if xmlnode_is_named x "hip-collection" then
    fold_left scan_hip (xml_children x) sc
  else
    let ctx := ps_ctx sc in
    let ctx :=
      set_portal_userauthcookie ctx
        (scan_cookie x "portal-userauthcookie" (portal_userauthcookie ctx)) in
    let ctx :=
      set_portal_prelogonuserauthcookie ctx
        (scan_cookie x "portal-prelogonuserauthcookie"
                     (portal_prelogonuserauthcookie ctx)) in
    {| ps_gateways := ps_gateways sc;
       ps_portal := get_val_into x "portal-name" (ps_portal sc);
       ps_hip_interval := ps_hip_interval sc;
       ps_vpninfo := ps_vpninfo sc; ps_ctx := ctx; ps_log := ps_log sc |}.

(** Lines 435-473. *)
Definition scan_portal (vpninfo : openconnect_info) (xml_node : xmlNode)
           (ctx : login_context) : portal_scan :=
  let sc :=
    {| ps_gateways := None; ps_portal := None; ps_hip_interval := None;
       ps_vpninfo := vpninfo; ps_ctx := ctx; ps_log := [] |} in
  if xmlnode_is_named xml_node "policy" then
    fold_left scan_policy_child (xml_children xml_node) sc
  else sc.

(** Lines 480-491: the head of the generated server list. *)
Definition config_head (vpninfo : openconnect_info) (portal : cstr)
  : oc_text_buf :=
  let buf := buf_append buf_alloc "<GPPortal>\n  <ServerList>\n" [] in
  match portal with
  | Some _ =>
      let buf := buf_append buf "      <HostEntry><HostName>" [] in
      let buf := buf_append_xmlescaped buf portal in
      let buf := buf_append buf "</HostName><HostAddress>%s" [Arg_s (hostname vpninfo)] in
      let buf := if negb (port vpninfo =? 443)
                 then buf_append buf ":%d" [Arg_d (port vpninfo)] else buf in
      buf_append buf "/global-protect</HostAddress></HostEntry>\n" []
  | None => buf
  end.

(** Lines 515-523: the [description] children of an entry. *)
Definition scan_description (write : bool) (name : cstr)
           (acc : cstr * oc_text_buf) (x2 : xmlNode) : cstr * oc_text_buf :=
  match xmlnode_get_val x2 "description" with
  | Some label =>
      (Some label,
       if write then
         let buf := buf_append (snd acc) "      <HostEntry><HostName>" [] in
         let buf := buf_append_xmlescaped buf (Some label) in
         buf_append buf "</HostName><HostAddress>%s/ssl-vpn</HostAddress></HostEntry>\n"
                    [Arg_s name]
       else snd acc)
  | None => acc
  end.

Record gateway_list := {
  gl_choices : list oc_choice;
  gl_buf : oc_text_buf;
  gl_log : list progress
}.

(** Lines 507-528: one child of the gateway list. *)
Definition scan_entry (write : bool) (gl : gateway_list) (x : xmlNode)
  : gateway_list :=
  if xmlnode_is_named x "entry" then
    let name := xmlnode_get_prop x "name" in
    let '(label, buf) :=
      fold_left (scan_description write name) (xml_children x) (None, gl_buf gl) in
    {| gl_choices := gl_choices gl ++ [{| choice_name := name; choice_label := label |}];
       gl_buf := buf;
       gl_log := gl_log gl ++ [(PRG_INFO, Msg_gateway label name)] |}
  else gl.

(** Lines 493-496. *)
Definition count_entries (gateways : xmlNode) : nat :=
  length (filter (fun x => xmlnode_is_named x "entry") (xml_children gateways)).

Definition portal_select_opt (choices : list oc_choice) : oc_form_opt :=
  {| opt_type := OC_FORM_OPT_SELECT; opt_name := Some "gateway";
     opt_label := Some "GATEWAY:"; opt_value := None; opt_choices := choices |}.

(** Lines 411-426 and 525: the gateway-selection form. *)
Definition portal_form (choices : list oc_choice) : oc_auth_form :=
  {| form_message := Some "Please select GlobalProtect gateway.";
     form_auth_id := Some "_portal";
     form_action := None;
     form_opts := [portal_select_opt choices] |}.

Definition portal_out (ret : Z) (vpninfo : openconnect_info)
           (ctx : login_context) (log : list progress) (w : world)
  : option (cb_result login_context * world) :=
  Some ({| cb_ret := ret; cb_vpninfo := vpninfo; cb_data := ctx; cb_log := log |}, w).

(** Lines 547-558: let the user pick a gateway, then redirect to it. *)
Definition portal_select (w : world) (vpninfo : openconnect_info)
           (ctx : login_context) (log : list progress) (form : oc_auth_form)
  : option (cb_result login_context * world) :=
  let '(result, vpninfo, _, w) := process_auth_form w vpninfo (Some form) in
  if (result =? OC_FORM_RESULT_CANCELLED) || (result <? 0) then
    portal_out result vpninfo ctx log w
  else
    let vpninfo :=
      set_redirect_url vpninfo
        (Some ("https://" ++ or_else (authgroup vpninfo) "(null)")%string) in
    let '(result, vpninfo, w) := handle_redirect w vpninfo in
    portal_out result vpninfo ctx log w.

(** Lines 530-545, with the choices in hand. *)
Definition portal_present (w : world) (vpninfo : openconnect_info)
           (ctx : login_context) (gl : gateway_list)
  : option (cb_result login_context * world) :=
  match gl_choices gl with
  | [] =>
      portal_out (- EINVAL) vpninfo ctx (gl_log gl ++ [(PRG_ERR, Msg_no_gateways)]) w
  | first :: _ =>
      match (match authgroup vpninfo with
             | Some _ => Some vpninfo
             | None =>
                 match choice_name first with
                 | Some n => Some (set_authgroup vpninfo (Some n))
                 | None => None
                 end
             end) with
      | None => None
      | Some vpninfo =>
          let form := portal_form (gl_choices gl) in
          if has_write_new_config vpninfo then
            let buf := buf_append (gl_buf gl) "  </ServerList>\n</GPPortal>\n" [] in
            if negb (buf_error buf =? 0) then
              portal_out (buf_error buf) vpninfo ctx (gl_log gl) w
            else
              let '(result, w) := write_new_config w buf in
              if negb (result =? 0) then
                portal_out result vpninfo ctx (gl_log gl) w
              else portal_select w vpninfo ctx (gl_log gl) form
          else portal_select w vpninfo ctx (gl_log gl) form
      end
  end.

(** Lines 493-528: the choices of a gateway list. *)
Definition gateway_entries (vpninfo : openconnect_info) (sc : portal_scan)
           (gateways : xmlNode) : gateway_list :=
  fold_left (scan_entry (has_write_new_config vpninfo)) (xml_children gateways)
    {| gl_choices := [];
       gl_buf := if has_write_new_config vpninfo
                 then config_head vpninfo (ps_portal sc) else buf_alloc;
       gl_log := ps_log sc
                 ++ [(PRG_INFO,
                      Msg_gateways_available (Z.of_nat (count_entries gateways)))] |}.

(** [parse_portal_xml]; [None] is [strdup] of a null choice name. *)
Definition parse_portal_xml (w : world) (vpninfo : openconnect_info)
           (xml_node : xmlNode) (ctx : login_context)
  : option (cb_result login_context * world) :=
  let sc := scan_portal vpninfo xml_node ctx in
  match ps_gateways sc with
  | None => portal_out (- EINVAL) (ps_vpninfo sc) (ps_ctx sc) (ps_log sc) w
  | Some gateways =>
      portal_present w (ps_vpninfo sc) (ps_ctx sc)
                     (gateway_entries (ps_vpninfo sc) sc gateways)
  end.

(** ** Main login entry point *)

Variable do_https_request :
  world -> openconnect_info -> string -> cstr -> option oc_text_buf -> cstr ->
  http_flags -> Z * cstr * world.
Variable openconnect_close_https : world -> openconnect_info -> world.
Variable do_gen_tokencode :
  world -> openconnect_info -> option oc_auth_form ->
  Z * option oc_auth_form * world.
Variable nuke_opt_values : list oc_form_opt -> list oc_form_opt.
Variable append_form_opts :
  openconnect_info -> oc_auth_form -> oc_text_buf -> oc_text_buf.
Variable buf_truncate : oc_text_buf -> oc_text_buf.
Variable gpst_classify : cstr -> response_kind.

(** Modelled from the spec: [gpst_xml_or_error] is defined in another file of
    the client.  It is the response classifier: "given a raw HTTPS response
    body, decides whether it is a protocol-relevant XML document, a
    JavaScript-embedded challenge payload, or an error, and dispatches to the
    right parser".  The decision is the variable [gpst_classify]; an error is
    returned as it is, a document goes to [xml_cb] and a challenge to
    [challenge_cb]. *)
Definition gpst_xml_or_error {C : Type} (w : world) (vpninfo : openconnect_info)
           (response : cstr)
           (xml_cb : option (world -> openconnect_info -> xmlNode -> C ->
                             option (cb_result C * world)))
           (challenge_cb : option (openconnect_info -> string -> string -> C ->
                                   option (cb_result C)))
           (cb_data : C) : option (cb_result C * world) :=
  match gpst_classify response with
  | Resp_error e =>
      Some ({| cb_ret := e; cb_vpninfo := vpninfo; cb_data := cb_data;
               cb_log := [] |}, w)
  | Resp_xml root =>
      match xml_cb with
      | Some cb => cb w vpninfo root cb_data
      | None =>
          Some ({| cb_ret := 0; cb_vpninfo := vpninfo; cb_data := cb_data;
                   cb_log := [] |}, w)
      end
  | Resp_challenge prompt inputStr =>
      match challenge_cb with
      | Some cb =>
          match cb vpninfo prompt inputStr cb_data with
          | Some r => Some (r, w)
          | None => None
          end
      | None =>
          Some ({| cb_ret := - EINVAL; cb_vpninfo := vpninfo; cb_data := cb_data;
                   cb_log := [] |}, w)
      end
  end.

(** The callbacks that do not touch the world, as [gpst_xml_or_error] takes
    them. *)
Definition prelogin_cb (w : world) (vpninfo : openconnect_info)
           (xml_node : xmlNode) (ctx : login_context)
  : option (cb_result login_context * world) :=
  Some (parse_prelogin_xml vpninfo xml_node ctx, w).

Definition login_cb (w : world) (vpninfo : openconnect_info)
           (xml_node : xmlNode) (ctx : login_context)
  : option (cb_result login_context * world) :=
  match parse_login_xml vpninfo xml_node ctx with
  | Some r => Some (r, w)
  | None => None
  end.

(** The session, the callback data and the locals of [gpst_login], with the
    log and the events so far. *)
Record login_state := {
  ls_vpninfo : openconnect_info;
  ls_ctx : login_context;
  ls_world : world;
  ls_portal : bool;
  ls_blind_retry : bool;
  ls_request_body : oc_text_buf;
  ls_xml_buf : cstr;
  ls_log : list progress;
  ls_trace : list login_event
}.

(** Lines 583-608: the prelogin request and its form. *)
Definition login_prelogin (st : login_state) : login_pc * login_state :=
  let vpninfo := ls_vpninfo st in
  let keep := keep_urlpath (urlpath vpninfo) in
  let orig_path := urlpath vpninfo in
  let vpninfo :=
    if keep then vpninfo
    else set_urlpath vpninfo
           (Some ((if ls_portal st then "global-protect" else "ssl-vpn")
                  ++ "/prelogin.esp?tmp=tmp&clientVer=4100&clientos="
                  ++ gpst_os_name vpninfo)%string) in
  let '(result, xml_buf, w) :=
    do_https_request (ls_world st) vpninfo "POST" None None (ls_xml_buf st)
                     HTTP_REDIRECT in
  let vpninfo := if keep then vpninfo else set_urlpath vpninfo orig_path in
  let trace := ls_trace st ++ [Ev_prelogin (ls_portal st)] in
  if result >=? 0 then
    match gpst_xml_or_error w vpninfo xml_buf (Some prelogin_cb) None (ls_ctx st) with
    | Some (r, w) =>
        (if cb_ret r =? 0 then At_got_form else At_out (cb_ret r),
         {| ls_vpninfo := cb_vpninfo r; ls_ctx := cb_data r; ls_world := w;
            ls_portal := ls_portal st; ls_blind_retry := ls_blind_retry st;
            ls_request_body := ls_request_body st; ls_xml_buf := xml_buf;
            ls_log := ls_log st ++ cb_log r; ls_trace := trace |})
    | None =>
        (At_crash,
         {| ls_vpninfo := vpninfo; ls_ctx := ls_ctx st; ls_world := w;
            ls_portal := ls_portal st; ls_blind_retry := ls_blind_retry st;
            ls_request_body := ls_request_body st; ls_xml_buf := xml_buf;
            ls_log := ls_log st; ls_trace := trace |})
    end
  else
    (At_out result,
     {| ls_vpninfo := vpninfo; ls_ctx := ls_ctx st; ls_world := w;
        ls_portal := ls_portal st; ls_blind_retry := ls_blind_retry st;
        ls_request_body := ls_request_body st; ls_xml_buf := xml_buf;
        ls_log := ls_log st; ls_trace := trace |}).

(** Lines 610-614: [got_form:]. *)
Definition login_got_form (st : login_state) : login_pc * login_state :=
  let '(result, vpninfo, form', w) :=
    process_auth_form (ls_world st) (ls_vpninfo st) (form (ls_ctx st)) in
  (if result =? 0 then At_replay_form else At_out result,
   {| ls_vpninfo := vpninfo; ls_ctx := set_form (ls_ctx st) form'; ls_world := w;
      ls_portal := ls_portal st; ls_blind_retry := ls_blind_retry st;
      ls_request_body := ls_request_body st; ls_xml_buf := ls_xml_buf st;
      ls_log := ls_log st;
      ls_trace := ls_trace st ++ [Ev_collect (form (ls_ctx st))] |}).

Definition append_opt_if (b : oc_text_buf) (name : string) (value : cstr)
  : oc_text_buf :=
  match value with
  | Some _ => append_opt b (Some name) value
  | None => b
  end.

(** Lines 626-644: the body of the login or getconfig request. *)
Definition login_request_body (vpninfo : openconnect_info) (ctx : login_context)
           (f : oc_auth_form) (request_body : oc_text_buf) : oc_text_buf :=
  let b := buf_truncate request_body in
  let b := buf_append b
             "jnlpReady=jnlpReady&ok=Login&direct=yes&clientVer=4100&prot=https:" [] in
  let b := append_opt b (Some "ipv6-support")
             (Some (if disable_ipv6 vpninfo then "no" else "yes")) in
  let b := append_opt b (Some "clientos") (Some (gpst_os_name vpninfo)) in
  let b := append_opt b (Some "os-version") (Some (platname vpninfo)) in
  let b := append_opt b (Some "server") (hostname vpninfo) in
  let b := append_opt b (Some "computer") (localname vpninfo) in
  let b := append_opt_if b "portal-userauthcookie" (portal_userauthcookie ctx) in
  let b := append_opt_if b "portal-prelogonuserauthcookie"
             (portal_prelogonuserauthcookie ctx) in
  let b := append_opt_if b "preferred-ip" (ip_info_addr vpninfo) in
  let b := match ip_info_addr6 vpninfo with
           | Some _ => append_opt b (Some "preferred-ipv6") (ip_info_addr vpninfo)
           | None => b
           end in
  let b := append_opt_if b "inputStr" (form_action f) in
  append_form_opts vpninfo f b.

(** Lines 669-670: [if (!ctx->username) ctx->username =
    strdup(ctx->form->opts->_value);]; [None] when there is no form, the form
    has no field or the field no value. *)
Definition save_username (ctx : login_context)
  : option (login_context * list login_event) :=
  match username ctx with
  | Some _ => Some (ctx, [])
  | None =>
      match form ctx with
      | Some f =>
          match form_opts f with
          | o :: _ =>
              match opt_value o with
              | Some u => Some (set_username ctx (Some u), [Ev_username u])
              | None => None
              end
          | [] => None
          end
      | None => None
      end
  end.

(** Lines 680-681; [None] is a null form, or [strcmp] on a null [auth_id]. *)
Definition may_retry_blindly (ctx : login_context) : option bool :=
  match portal_userauthcookie ctx, portal_prelogonuserauthcookie ctx with
  | None, None =>
      match form ctx with
      | Some f =>
          match form_auth_id f with
          | Some id => Some (negb (streq id "_challenge") && is_null (alt_secret ctx))
          | None => None
          end
      | None => None
      end
  | _, _ => Some true
  end.

Definition login_goto (pc : login_pc) (st : login_state) (ctx : login_context)
           (portal blind_retry : bool) (events : list login_event)
  : login_pc * login_state :=
  (pc,
   {| ls_vpninfo := ls_vpninfo st; ls_ctx := ctx; ls_world := ls_world st;
      ls_portal := portal; ls_blind_retry := blind_retry;
      ls_request_body := ls_request_body st; ls_xml_buf := ls_xml_buf st;
      ls_log := ls_log st; ls_trace := ls_trace st ++ events |}).

(** Lines 658-687: what the loop does with the result of a submission. *)
Definition login_after_submit (result : Z) (st : login_state)
  : login_pc * login_state :=
  if result =? - EACCES then
    match form (ls_ctx st) with
    | None => (At_crash, st)
    | Some f =>
        let ctx :=
          set_form (ls_ctx st)
                   (Some (set_form_opts f (nuke_opt_values (form_opts f)))) in
        if negb (ls_blind_retry st) then
          login_goto At_got_form st ctx (ls_portal st) (ls_blind_retry st) []
        else
          login_goto At_prelogin st ctx (ls_portal st) false []
    end
  else
    match save_username (ls_ctx st) with
    | None => (At_crash, st)
    | Some (ctx, saved) =>
        if result =? - EAGAIN then
          login_goto At_got_form st ctx (ls_portal st) (ls_blind_retry st) saved
        else if ls_portal st && (result =? 0) then
          match may_retry_blindly ctx with
          | None => login_goto At_crash st ctx false (ls_blind_retry st) saved
          | Some true =>
              login_goto At_replay_form st ctx false true (saved ++ [Ev_blind_retry])
          | Some false =>
              login_goto At_prelogin st ctx false (ls_blind_retry st) saved
          end
        else
          login_goto (At_out result) st ctx (ls_portal st) (ls_blind_retry st) saved
    end.

(** Lines 616-657: [replay_form:], up to the result of the submission. *)
Definition login_replay_form (st : login_state) : login_pc * login_state :=
  let '(result, form', w) :=
    do_gen_tokencode (ls_world st) (ls_vpninfo st) (form (ls_ctx st)) in
  let ctx := set_form (ls_ctx st) form' in
  if negb (result =? 0) then
    (At_out result,
     {| ls_vpninfo := set_token_bypassed (ls_vpninfo st) true; ls_ctx := ctx;
        ls_world := w; ls_portal := ls_portal st;
        ls_blind_retry := ls_blind_retry st;
        ls_request_body := ls_request_body st; ls_xml_buf := ls_xml_buf st;
        ls_log := ls_log st ++ [(PRG_ERR, Msg_tokencode_failed)];
        ls_trace := ls_trace st |})
  else
    match form' with
    | None =>
        (At_crash,
         {| ls_vpninfo := ls_vpninfo st; ls_ctx := ctx; ls_world := w;
            ls_portal := ls_portal st; ls_blind_retry := ls_blind_retry st;
            ls_request_body := ls_request_body st; ls_xml_buf := ls_xml_buf st;
            ls_log := ls_log st; ls_trace := ls_trace st |})
    | Some f =>
        let vpninfo := ls_vpninfo st in
        let request_body := login_request_body vpninfo ctx f (ls_request_body st) in
        if negb (buf_error request_body =? 0) then
          (At_out (buf_error request_body),
           {| ls_vpninfo := vpninfo; ls_ctx := ctx; ls_world := w;
              ls_portal := ls_portal st; ls_blind_retry := ls_blind_retry st;
              ls_request_body := request_body; ls_xml_buf := ls_xml_buf st;
              ls_log := ls_log st; ls_trace := ls_trace st |})
        else
          let orig_path := urlpath vpninfo in
          let vpninfo :=
            set_urlpath vpninfo
              (Some (if ls_portal st then "global-protect/getconfig.esp"
                     else "ssl-vpn/login.esp")) in
          let '(result, xml_buf, w) :=
            do_https_request w vpninfo "POST"
              (Some "application/x-www-form-urlencoded") (Some request_body)
              (ls_xml_buf st) HTTP_NO_FLAGS in
          let vpninfo := set_urlpath vpninfo orig_path in
          let trace := ls_trace st ++ [Ev_submit (ls_portal st) (ls_blind_retry st)] in
          if result >=? 0 then
            match gpst_xml_or_error w vpninfo xml_buf
                    (Some (if ls_portal st then parse_portal_xml else login_cb))
                    (Some challenge_cb) ctx with
            | Some (r, w) =>
                login_after_submit (cb_ret r)
                  {| ls_vpninfo := cb_vpninfo r; ls_ctx := cb_data r; ls_world := w;
                     ls_portal := ls_portal st; ls_blind_retry := ls_blind_retry st;
                     ls_request_body := request_body; ls_xml_buf := xml_buf;
                     ls_log := ls_log st ++ cb_log r; ls_trace := trace |}
            | None =>
                (At_crash,
                 {| ls_vpninfo := vpninfo; ls_ctx := ctx; ls_world := w;
                    ls_portal := ls_portal st; ls_blind_retry := ls_blind_retry st;
                    ls_request_body := request_body; ls_xml_buf := xml_buf;
                    ls_log := ls_log st; ls_trace := trace |})
            end
          else
            login_after_submit result
              {| ls_vpninfo := vpninfo; ls_ctx := ctx; ls_world := w;
                 ls_portal := ls_portal st; ls_blind_retry := ls_blind_retry st;
                 ls_request_body := request_body; ls_xml_buf := xml_buf;
                 ls_log := ls_log st; ls_trace := trace |}
    end.

(** One pass from a label of [gpst_login] to the next. *)
Definition gpst_login_step (pc : login_pc) (st : login_state)
  : login_pc * login_state :=
  match pc with
  | At_prelogin => login_prelogin st
  | At_got_form => login_got_form st
  | At_replay_form => login_replay_form st
  | At_out _ | At_crash => (pc, st)
  end.

(** [fuel] passes from label to label; the control point reached is [At_out]
    once the function has returned. *)
Fixpoint gpst_login_run (fuel : nat) (pc : login_pc) (st : login_state)
  : login_pc * login_state :=
  match fuel with
  | O => (pc, st)
  | S fuel' =>
      let '(pc', st') := gpst_login_step pc st in
      gpst_login_run fuel' pc' st'
  end.

(** The entry of [gpst_login]: fresh locals. *)
Definition gpst_login_enter (portal : bool) (st : login_state) : login_state :=
  {| ls_vpninfo := ls_vpninfo st; ls_ctx := ls_ctx st; ls_world := ls_world st;
     ls_portal := portal; ls_blind_retry := false;
     ls_request_body := buf_alloc; ls_xml_buf := None;
     ls_log := ls_log st; ls_trace := ls_trace st |}.

Definition gpst_login (fuel : nat) (portal : bool) (st : login_state)
  : login_pc * login_state :=
  gpst_login_run fuel At_prelogin (gpst_login_enter portal st).

(** ** [gpst_obtain_cookie] *)

(** Lines 706-710: the alternate secret field taken off the path. *)
Definition take_alt_secret (vpninfo : openconnect_info)
  : openconnect_info * cstr :=
  match urlpath vpninfo with
  | Some p =>
      match strrchr_colon p with
      | Some (path, field) => (set_urlpath vpninfo (Some path), Some field)
      | None => (vpninfo, None)
      end
  | None => (vpninfo, None)
  end.

Definition path_is (vpninfo : openconnect_info) (name stem : string) : bool :=
  match urlpath vpninfo with
  | Some p => streq p name || String.prefix stem p
  | None => false
  end.

Definition obtain_cookie_init (w : world) (vpninfo : openconnect_info)
  : login_state :=
  let '(vpninfo, alt) := take_alt_secret vpninfo in
  {| ls_vpninfo := vpninfo;
     ls_ctx := {| username := None; alt_secret := alt;
                  portal_userauthcookie := None;
                  portal_prelogonuserauthcookie := None; form := None |};
     ls_world := w; ls_portal := false; ls_blind_retry := false;
     ls_request_body := buf_alloc; ls_xml_buf := None;
     ls_log := []; ls_trace := [] |}.

Definition login_report (m : progress) (st : login_state) : login_state :=
  {| ls_vpninfo := ls_vpninfo st; ls_ctx := ls_ctx st; ls_world := ls_world st;
     ls_portal := ls_portal st; ls_blind_retry := ls_blind_retry st;
     ls_request_body := ls_request_body st; ls_xml_buf := ls_xml_buf st;
     ls_log := ls_log st ++ [m]; ls_trace := ls_trace st |}.

(** [gpst_obtain_cookie]; each call of [gpst_login] is given [fuel] passes. *)
Definition gpst_obtain_cookie (fuel : nat) (w : world) (vpninfo : openconnect_info)
  : login_pc * login_state :=
  let st := obtain_cookie_init w vpninfo in
  if path_is (ls_vpninfo st) "portal" "global-protect" then
    gpst_login fuel true st
  else if path_is (ls_vpninfo st) "gateway" "ssl-vpn" then
    gpst_login fuel false st
  else
    match gpst_login fuel true st with
    | (At_out result, st1) =>
        if result =? - EEXIST then
          match gpst_login fuel false st1 with
          | (At_out result, st2) =>
              if result =? - EEXIST then
                (At_out result,
                 login_report (PRG_ERR, Msg_neither_portal_nor_gateway) st2)
              else (At_out result, st2)
          | running => running
          end
        else (At_out result, st1)
    | running => running
    end.

(** ** [gpst_bye] *)

Definition gpst_bye (w : world) (vpninfo : openconnect_info) (reason : cstr)
  : Z * openconnect_info * world * list progress :=
  let request_body := buf_append buf_alloc "%s" [Arg_s (cookie vpninfo)] in
  if negb (buf_error request_body =? 0) then
    (buf_error request_body, vpninfo, w, [])
  else
    let orig_path := urlpath vpninfo in
    let vpninfo := set_urlpath vpninfo (Some "ssl-vpn/logout.esp") in
    let w := openconnect_close_https w vpninfo in
    let '(result, xml_buf, w) :=
      do_https_request w vpninfo "POST"
        (Some "application/x-www-form-urlencoded") (Some request_body) None
        HTTP_NO_FLAGS in
    let vpninfo := set_urlpath vpninfo orig_path in
    let '(result, vpninfo, w) :=
      if result >=? 0 then
        match @gpst_xml_or_error unit w vpninfo xml_buf None None tt with
        | Some (r, w) => (cb_ret r, cb_vpninfo r, w)
        | None => (result, vpninfo, w)
        end
      else (result, vpninfo, w) in
    if result <? 0 then (result, vpninfo, w, [(PRG_ERR, Msg_logout_failed)])
    else (result, vpninfo, w, [(PRG_INFO, Msg_logout_successful)]).

(** *** The prelogin form, as the specification words it *)

(** The document carries a SAML request or a SAML method marker. *)
Definition has_saml_marker (xml_node : xmlNode) : bool :=
  existsb (fun x =>
             negb (is_null (xmlnode_get_val x "saml-request"))
             || negb (is_null (xmlnode_get_val x "saml-auth-method")))
          (xml_children xml_node).

(** The session holds one of the three completion signals. *)
Definition has_completion_signal (ctx : login_context) : bool :=
  negb (is_null (portal_userauthcookie ctx))
  || negb (is_null (portal_prelogonuserauthcookie ctx))
  || negb (is_null (alt_secret ctx)).

(** Modelled from the spec: [can_gen_tokencode] is defined in another file
    of the client; the specification lists it as [has_token_generator(session,
    form, field) -> bool].  It returns an [int] that the code tests with [!],
    as it tests its other [int] helpers, which return 0 when they succeed
    ([xmlnode_get_val] at line 90, [do_gen_tokencode] at lines 618-619): a
    return of 0 is the answer that a tokencode can be generated for the
    field. *)
Definition has_token_generator (vpninfo : openconnect_info)
           (form : oc_auth_form) (field : oc_form_opt) : bool :=
  can_gen_tokencode vpninfo form field =? 0.

(** The form as [can_gen_tokencode] sees it at line 185, the type of the
    secret field not yet chosen. *)
Definition prelogin_form_untyped (ctx : login_context) (sc : prelogin_scan)
  : oc_auth_form :=
  {| form_message :=
       Some (or_else (prompt sc) "Please enter your username and password");
     form_auth_id := Some "_login";
     form_action := None;
     form_opts := [prelogin_user_opt ctx sc; prelogin_secret_opt ctx sc] |}.

(** *** The gateway list, as the specification words it *)

(** The last element of a list, or [o] when there is none. *)
Definition or_last {A : Type} (o : option A) (l : list A) : option A :=
  fold_left (fun _ x => Some x) l o.

Definition last_opt {A : Type} (l : list A) : option A := or_last None l.

(** The [list] elements at [gateways/external/list] under a [policy] root,
    in document order. *)
Definition external_lists (x : xmlNode) : list xmlNode :=
  flat_map (fun x2 =>
              if xmlnode_is_named x2 "external"
              then filter (fun x3 => xmlnode_is_named x3 "list") (xml_children x2)
              else [])
           (xml_children x).

Definition gateway_lists (xml_node : xmlNode) : list xmlNode :=
  if xmlnode_is_named xml_node "policy" then
    flat_map (fun x => if xmlnode_is_named x "gateways" then external_lists x else [])
             (xml_children xml_node)
  else [].

Definition descriptions (x : xmlNode) : list string :=
  flat_map (fun x2 => match xmlnode_get_val x2 "description" with
                      | Some l => [l]
                      | None => []
                      end)
           (xml_children x).

(** The choice an [entry] element gives: its [name] attribute and its nested
    description text. *)
Definition entry_choice (x : xmlNode) : oc_choice :=
  {| choice_name := xmlnode_get_prop x "name";
     choice_label := last_opt (descriptions x) |}.

Definition gateway_choices (gateways : xmlNode) : list oc_choice :=
  map entry_choice
      (filter (fun x => xmlnode_is_named x "entry") (xml_children gateways)).

(** *** The login loop, as the specification words it *)

Definition is_blind_retry (e : login_event) : bool :=
  match e with Ev_blind_retry => true | _ => false end.

(** How many times the blind retry fired. *)
Definition blind_retries (trace : list login_event) : nat :=
  length (filter is_blind_retry trace).

Definition is_username_event (e : login_event) : bool :=
  match e with Ev_username _ => true | _ => false end.

(** How many times the session's username was assigned. *)
Definition username_assignments (trace : list login_event) : nat :=
  length (filter is_username_event trace).


(** What holds at every label of [gpst_login]: the retry flag is only set in
    gateway mode, never at the top of the loop, and only with a username
    saved. *)
Definition login_invariant (pc : login_pc) (st : login_state) : Prop :=
  (ls_portal st = true -> ls_blind_retry st = false)
  /\ (pc = At_prelogin -> ls_blind_retry st = false)
  /\ (ls_blind_retry st = true -> username (ls_ctx st) <> None).


(** *** Further vocabulary for the properties *)

(** A text without a colon. *)
Definition no_colon (s : string) : bool :=
  forallb (fun c => negb (Ascii.eqb c ":"%char)) (list_ascii_of_string s).



(** The line [parse_portal_xml] prints for a choice. *)
Definition gateway_line (c : oc_choice) : progress :=
  (PRG_INFO, Msg_gateway (choice_label c) (choice_name c)).

(** What the scan of the policy keeps of the callback data: everything but
    the two portal cookies, and a cookie that changed is never empty. *)
Definition cookie_kept (old new : cstr) : Prop :=
  new = old \/ exists c, new = Some c /\ empty_cookie c = false.

Definition portal_ctx_kept (old new : login_context) : Prop :=
  username new = username old
  /\ alt_secret new = alt_secret old
  /\ form new = form old
  /\ (cookie_kept (portal_userauthcookie old) (portal_userauthcookie new)
      \/ portal_userauthcookie new = None)
  /\ (cookie_kept (portal_prelogonuserauthcookie old)
                  (portal_prelogonuserauthcookie new)
      \/ portal_prelogonuserauthcookie new = None).


(** The state of a login that went through: gateway mode, a username saved
    and a submission to the gateway made. *)
Definition logged_in (st : login_state) : Prop :=
  ls_portal st = false
  /\ username (ls_ctx st) <> None
  /\ exists blind_retry, In (Ev_submit false blind_retry) (ls_trace st).

(** * Properties *)

(** ** The argument walk *)

Lemma arg_index_in_table (argn : nat) :
  (arg_index argn < gp_login_nargs)%nat.
Proof.
  unfold arg_index. destruct (argn <? gp_login_nargs)%nat eqn:H.
  - now apply Nat.ltb_lt in H.
  - unfold gp_login_nargs. simpl. lia.
Qed.

Lemma table_entry (argn : nat) :
  nth_error gp_login_args (arg_index argn) = Some (schema_entry argn).
Proof.
  unfold arg_index, schema_entry.
  destruct (argn <? gp_login_nargs)%nat eqn:H.
  - apply Nat.ltb_lt in H. now apply nth_error_nth'.
  - apply Nat.ltb_ge in H. rewrite (nth_overflow _ _ H). reflexivity.
Qed.

Lemma element_values_skip (xml_node : list xmlNode) :
  element_values (skip_non_elements xml_node) = element_values xml_node.
Proof.
  induction xml_node as [|n l IH]; simpl; [reflexivity|].
  destruct (is_element n) eqn:E; [simpl; now rewrite E | exact IH].
Qed.

Lemma skip_non_elements_head (xml_node : list xmlNode) x next :
  skip_non_elements xml_node = x :: next -> is_element x = true.
Proof.
  induction xml_node as [|n l IH]; simpl; [discriminate|].
  destruct (is_element n) eqn:E; [|exact IH].
  intros H. injection H as -> _. exact E.
Qed.

Lemma lockstep_nil_lt (argn : nat) :
  (argn < gp_login_nargs)%nat ->
  lockstep argn [] = (argn, None) :: lockstep (S argn) [].
Proof.
  intros H. unfold lockstep.
  replace (gp_login_nargs - argn)%nat with (S (gp_login_nargs - S argn)) by lia.
  reflexivity.
Qed.

Lemma lockstep_nil_ge (argn : nat) :
  (gp_login_nargs <= argn)%nat -> lockstep argn [] = [].
Proof.
  intros H. unfold lockstep.
  replace (gp_login_nargs - argn)%nat with 0%nat by lia. reflexivity.
Qed.

Lemma idle_step (argn : nat) (st : login_loop) :
  (gp_login_nargs <= argn)%nat ->
  login_arg_step argn (schema_entry argn) None st = st.
Proof.
  intros H. unfold schema_entry. rewrite (nth_overflow _ _ H). reflexivity.
Qed.

Lemma lockstep_nth (values : list string) : forall a i,
  nth_error (lockstep a values) i =
  if (i <? length values)%nat || (a + i <? gp_login_nargs)%nat
  then Some ((a + i)%nat, nth_error values i)
  else None.
Proof.
  induction values as [|s values IH]; intros a i.
  - cbn [lockstep length]. rewrite nth_error_map, nth_error_seq.
    destruct (Nat.ltb_spec i (gp_login_nargs - a));
      destruct (Nat.ltb_spec (a + i) gp_login_nargs); try lia;
      cbn [option_map Nat.ltb Nat.leb orb]; try reflexivity.
    now destruct i.
  - cbn [lockstep length]. destruct i as [|i].
    + cbn. now rewrite Nat.add_0_r.
    + cbn [nth_error]. rewrite IH.
      change (S i <? S (length values))%nat with (i <? length values)%nat.
      replace (S a + i)%nat with (a + S i)%nat by lia.
      reflexivity.
Qed.

(** The loop is the walk over [lockstep], or [err_out] when an element of
    the list is not an argument. *)
Lemma login_args_loop_lockstep (argn : nat) (xml_node : list xmlNode)
      (st : login_loop) :
  match element_values xml_node with
  | Some values =>
      login_args_loop argn xml_node st
      = Loop_done (fold_left position_step (lockstep argn values) st)
  | None => exists st', login_args_loop argn xml_node st = Loop_err_out st'
  end.
Proof.
  funelim (login_args_loop argn xml_node st).
  - unfold more_to_do in e. destruct (orb_false_elim _ _ e) as [Hn Hx].
    destruct xml_node; [|discriminate]. apply Nat.ltb_ge in Hn.
    cbn [element_values]. now rewrite lockstep_nil_ge.
  - rewrite table_entry in Heq. discriminate.
  - rewrite table_entry in Heq. injection Heq as <-.
    rewrite <- (element_values_skip xml_node), Hskip. cbn [element_values] in *.
    match goal with
    | IH : login_args_loop _ _ _ = Loop_done _ |- _ => rewrite IH
    end.
    destruct (Nat.ltb_spec argn gp_login_nargs) as [Hlt|Hge].
    + rewrite (lockstep_nil_lt argn Hlt). reflexivity.
    + rewrite idle_step by exact Hge.
      rewrite !lockstep_nil_ge by lia. reflexivity.
  - rewrite table_entry in Heq0. injection Heq0 as <-.
    rewrite <- (element_values_skip xml_node), Hskip. cbn [element_values].
    rewrite (skip_non_elements_head _ _ _ Hskip), Heq.
    destruct (element_values next); [|assumption].
    match goal with
    | IH : login_args_loop _ _ _ = Loop_done _ |- _ => rewrite IH
    end.
    reflexivity.
  - rewrite <- (element_values_skip xml_node), Hskip. cbn [element_values].
    rewrite (skip_non_elements_head _ _ _ Hskip), Heq. now exists st.
Qed.

Lemma parse_login_xml_walk (vpninfo : openconnect_info) (xml_node : xmlNode)
      (ctx : login_context) :
  match login_response_values xml_node with
  | Some values =>
      parse_login_xml vpninfo xml_node ctx
      = Some (login_finish vpninfo ctx
                (fold_left position_step (lockstep 0 values) login_loop_init))
  | None =>
      exists log,
        parse_login_xml vpninfo xml_node ctx
        = Some (login_err_out vpninfo ctx log)
  end.
Proof.
  unfold parse_login_xml, login_response_values.
  destruct (application_desc xml_node) as [arguments|]; [|now exists []].
  pose proof (login_args_loop_lockstep 0 arguments login_loop_init) as H.
  destruct (element_values arguments).
  - now rewrite H.
  - destruct H as [st' ->]. now exists (ll_log st').
Qed.

(** The callback data goes through [parse_login_xml] untouched and unread. *)
Lemma parse_login_xml_data_free (vpninfo : openconnect_info)
      (xml_node : xmlNode) (ctx ctx' : login_context) :
  parse_login_xml vpninfo xml_node ctx'
  = option_map (fun r => {| cb_ret := cb_ret r; cb_vpninfo := cb_vpninfo r;
                            cb_data := ctx'; cb_log := cb_log r |})
               (parse_login_xml vpninfo xml_node ctx).
Proof.
  unfold parse_login_xml.
  destruct (application_desc xml_node) as [arguments|]; [|reflexivity].
  destruct (login_args_loop 0 arguments login_loop_init) as [st|st|];
    try reflexivity.
  unfold login_finish. cbn [option_map].
  repeat match goal with |- context [if ?b then _ else _] => destruct b end;
    reflexivity.
Qed.


Lemma lockstep_seq (values : list string) :
  lockstep 0 values =
  map (fun i => (i, nth_error values i))
      (seq 0 (Nat.max gp_login_nargs (length values))).
Proof.
  apply nth_error_ext. intros i.
  rewrite lockstep_nth, nth_error_map, nth_error_seq.
  cbn [Nat.add].
  destruct (Nat.ltb_spec i (length values));
    destruct (Nat.ltb_spec i gp_login_nargs);
    destruct (Nat.ltb_spec i (Nat.max gp_login_nargs (length values)));
    try lia; reflexivity.
Qed.

Lemma schema_entry_surplus (i : nat) :
  (gp_login_nargs <= i)%nat -> schema_entry i = always_unknown.
Proof. intros H. unfold schema_entry. now rewrite (nth_overflow _ _ H). Qed.

Lemma schema_entry_in_table (i : nat) :
  (i < gp_login_nargs)%nat -> nth_error gp_login_args i = Some (schema_entry i).
Proof. intros H. now apply nth_error_nth'. Qed.

(** *** What one position does to the cookie *)

Lemma classify_arg_cookie (argn : nat) (arg : gp_login_arg) (value : cstr)
      (st : login_loop) :
  ll_cookie (classify_arg argn arg value st) = ll_cookie st.
Proof.
  unfold classify_arg.
  destruct (unknown arg), value as [v|]; cbn;
    repeat match goal with |- context [if ?b then _ else _] => destruct b end;
    reflexivity.
Qed.

Lemma position_step_cookie (st : login_loop) (i : nat) (s : option string) :
  ll_cookie (position_step st (i, s)) =
  match s with
  | Some s =>
      if save (schema_entry i) && negb (null_value s)
      then append_opt (ll_cookie st) (opt (schema_entry i))
                      (Some (urldecode_inplace s))
      else ll_cookie st
  | None => ll_cookie st
  end.
Proof.
  unfold position_step, login_arg_step, save_arg, position_value, arg_value.
  cbn [fst snd]. destruct s as [s|].
  - destruct (null_value s), (save (schema_entry i)); cbn;
      now rewrite ?classify_arg_cookie.
  - apply classify_arg_cookie.
Qed.

Lemma skipn_schema (a : nat) :
  (a < gp_login_nargs)%nat ->
  skipn a gp_login_args = schema_entry a :: skipn (S a) gp_login_args.
Proof.
  unfold gp_login_nargs, schema_entry. generalize gp_login_args.
  induction a as [|a IH]; intros l H; destruct l as [|x l]; cbn in *; try lia.
  - reflexivity.
  - apply IH. lia.
Qed.

Lemma walk_cookie (values : list string) : forall a st,
  ll_cookie (fold_left position_step (lockstep a values) st) =
  append_fields (ll_cookie st) (saved_fields (skipn a gp_login_args) values).
Proof.
  induction values as [|s values IH]; intros a st.
  - cbn [lockstep]. replace (saved_fields _ []) with (@nil (cstr * cstr))
      by (now destruct (skipn a gp_login_args)).
    cbn [append_fields fold_left].
    generalize (seq a (gp_login_nargs - a)). intros l. revert st.
    induction l as [|i l IHl]; intros st; [reflexivity|].
    cbn [map fold_left]. rewrite IHl. apply position_step_cookie.
  - cbn [lockstep fold_left]. rewrite IH, position_step_cookie.
    destruct (Nat.ltb_spec a gp_login_nargs) as [Hlt|Hge].
    + rewrite (skipn_schema a Hlt). cbn [saved_fields].
      destruct (save (schema_entry a) && negb (null_value s)); reflexivity.
    + rewrite (schema_entry_surplus a Hge). cbn [always_unknown with_unknown save arg0 andb].
      rewrite !skipn_all2 by (unfold gp_login_nargs in Hge; lia).
      reflexivity.
Qed.

(** *** What one position does to the count of fatal anomalies *)

Lemma schema_entry_consistent (i : nat) : consistent_entry (schema_entry i) = true.
Proof.
  assert (H : forallb consistent_entry gp_login_args = true) by reflexivity.
  rewrite forallb_forall in H.
  destruct (Nat.ltb_spec i gp_login_nargs) as [Hlt|Hge].
  - apply H. unfold schema_entry. now apply nth_In.
  - now rewrite schema_entry_surplus.
Qed.

Lemma position_step_fatal (st : login_loop) (i : nat) (s : option string) :
  ll_fatal_args (position_step st (i, s)) =
  ll_fatal_args st + Z.b2z (violated (schema_entry i) s).
Proof.
  pose proof (schema_entry_consistent i) as Hc.
  unfold position_step, login_arg_step, position_value. cbn [fst snd].
  generalize dependent (schema_entry i). intros arg Hc.
  assert (Hsave : forall v st', ll_fatal_args (save_arg arg v st') = ll_fatal_args st').
  { intros [v|] st'; cbn; [destruct (save arg)|]; reflexivity. }
  rewrite Hsave. unfold consistent_entry in Hc.
  unfold classify_arg, violated, check_fails, arg_value.
  destruct arg as [o sv sh wm em un ck]; cbn in *.
  destruct s as [s|]; [destruct (null_value s)|];
    destruct un, em, wm, ck as [c|], sv, sh; cbn in *; try discriminate;
    try (destruct (streq s c)); cbn; lia.
Qed.

Lemma walk_fatal (rows : list (nat * option string)) : forall st,
  ll_fatal_args (fold_left position_step rows st) =
  ll_fatal_args st
  + Z.of_nat (length (filter (fun row => violated (schema_entry (fst row)) (snd row))
                             rows)).
Proof.
  induction rows as [|[i s] rows IH]; intros st; cbn [fold_left filter length].
  - lia.
  - rewrite IH, position_step_fatal. cbn [fst snd].
    destruct (violated (schema_entry i) s); cbn [length Z.b2z]; lia.
Qed.

Lemma surplus_not_violated (l : list nat) (values : list string) :
  (forall i, In i l -> (gp_login_nargs <= i)%nat) ->
  filter (fun row : nat * option string =>
            violated (schema_entry (fst row)) (snd row))
         (map (fun i => (i, nth_error values i)) l) = [].
Proof.
  induction l as [|i l IH]; intros H; [reflexivity|].
  cbn [map filter fst snd].
  rewrite (schema_entry_surplus i) by (apply H; now left).
  cbn. apply IH. intros j Hj. apply H. now right.
Qed.

Lemma filter_map_swap {A B : Type} (f : A -> B) (p : B -> bool) (l : list A) :
  filter p (map f l) = map f (filter (fun x => p (f x)) l).
Proof.
  induction l as [|x l IH]; [reflexivity|]. cbn.
  destruct (p (f x)); cbn; now rewrite IH.
Qed.

Lemma walk_fatal_count (values : list string) (st : login_loop) :
  ll_fatal_args (fold_left position_step (lockstep 0 values) st) =
  ll_fatal_args st + Z.of_nat (length (violations values)).
Proof.
  rewrite walk_fatal, lockstep_seq. do 2 f_equal.
  replace (Nat.max gp_login_nargs (length values))
    with (gp_login_nargs + (Nat.max gp_login_nargs (length values) - gp_login_nargs))%nat
    by lia.
  rewrite seq_app, map_app, filter_app.
  rewrite (surplus_not_violated (seq (0 + gp_login_nargs) _)).
  - rewrite app_nil_r, filter_map_swap, length_map. reflexivity.
  - intros i Hi. apply in_seq in Hi. lia.
Qed.

(** *** What the walk reports *)

Lemma classify_arg_log (argn : nat) (arg : gp_login_arg) (value : cstr)
      (st : login_loop) (m : progress) :
  In m (ll_log st) -> In m (ll_log (classify_arg argn arg value st)).
Proof.
  intros H. unfold classify_arg.
  destruct (unknown arg), value as [v|]; cbn;
    repeat match goal with |- context [if ?b then _ else _] => destruct b end;
    cbn; try apply in_or_app; auto.
Qed.

Lemma position_step_log (st : login_loop) (row : nat * option string)
      (m : progress) :
  In m (ll_log st) -> In m (ll_log (position_step st row)).
Proof.
  intros H. unfold position_step, login_arg_step, save_arg.
  pose proof (classify_arg_log (fst row) (schema_entry (fst row))
                (position_value (schema_entry (fst row)) (snd row)) st m H).
  destruct (position_value _ _); [destruct (save _)|]; assumption.
Qed.

Lemma walk_log (rows : list (nat * option string)) (m : progress) : forall st,
  In m (ll_log st) -> In m (ll_log (fold_left position_step rows st)).
Proof.
  induction rows as [|row rows IH]; intros st H; [exact H|].
  cbn [fold_left]. apply IH. now apply position_step_log.
Qed.

Lemma walk_log_at (rows : list (nat * option string)) (i : nat)
      (row : nat * option string) (m : progress) (st : login_loop) :
  nth_error rows i = Some row ->
  (forall st', In m (ll_log (position_step st' row))) ->
  In m (ll_log (fold_left position_step rows st)).
Proof.
  intros Hrow Hm. apply nth_error_split in Hrow as (l1 & l2 & -> & _).
  rewrite fold_left_app. cbn [fold_left]. apply walk_log, Hm.
Qed.

Lemma login_finish_log (vpninfo : openconnect_info) (ctx : login_context)
      (st : login_loop) (m : progress) :
  In m (ll_log st) -> In m (cb_log (login_finish vpninfo ctx st)).
Proof.
  intros H. unfold login_finish.
  assert (In m (if ll_unknown_args st =? 0 then ll_log st
                else ll_log st ++ [(PRG_ERR, Msg_please_report (ll_unknown_args st)
                                                              (ll_fatal_args st))])).
  { destruct (ll_unknown_args st =? 0); [exact H | apply in_or_app; now left]. }
  repeat match goal with |- context [if ?b then _ else _] => destruct b end;
    cbn; assumption.
Qed.

(** *** The outcome of a well-formed response *)

Lemma walk_assembled (vpninfo : openconnect_info) (values : list string) :
  append_opt (ll_cookie (fold_left position_step (lockstep 0 values) login_loop_init))
             (Some "computer") (localname vpninfo)
  = assembled_cookie vpninfo values.
Proof.
  rewrite walk_cookie. unfold assembled_cookie, append_fields.
  rewrite fold_left_app. reflexivity.
Qed.

Lemma login_finish_outcome (vpninfo : openconnect_info) (ctx : login_context)
      (values : list string) :
  let r := login_finish vpninfo ctx
             (fold_left position_step (lockstep 0 values) login_loop_init) in
  let assembled := assembled_cookie vpninfo values in
  cb_data r = ctx /\
  (violations values <> [] -> cb_ret r = - EPERM /\ cb_vpninfo r = vpninfo) /\
  (violations values = [] ->
   cb_ret r = buf_error assembled /\
   (buf_error assembled = 0 ->
    cb_vpninfo r = set_cookie vpninfo (buf_data assembled)) /\
   (buf_error assembled <> 0 -> cb_vpninfo r = vpninfo)).
Proof.
  cbv zeta. unfold login_finish.
  rewrite walk_assembled, walk_fatal_count. cbn [login_loop_init ll_fatal_args].
  generalize (assembled_cookie vpninfo values). intros assembled.
  destruct (violations values) as [|i l] eqn:Hv; cbn [length].
  - change (0 + Z.of_nat 0 =? 0) with true. cbn [negb].
    destruct (Z.eqb_spec (buf_error assembled) 0) as [E|E];
      cbn [cb_ret cb_vpninfo cb_data buf_free];
      repeat split; try congruence; intros; congruence.
  - replace (0 + Z.of_nat (S (length l)) =? 0) with false
      by (symmetry; apply Z.eqb_neq; lia).
    cbn [negb cb_ret cb_vpninfo cb_data]. repeat split; congruence.
Qed.

Lemma position_step_missing (st : login_loop) (i : nat) :
  position_step st (i, None) = missing_position st i.
Proof.
  unfold position_step, missing_position, login_arg_step, classify_arg, save_arg,
    check_fails.
  cbn [fst snd position_value]. generalize (schema_entry i). intros arg.
  destruct (unknown arg), (check arg), (err_missing arg), (warn_missing arg);
    reflexivity.
Qed.

Lemma position_step_surplus (st : login_loop) (i : nat) (s : string) :
  (gp_login_nargs <= i)%nat ->
  position_step st (i, Some s) = surplus_position st (i, s).
Proof.
  intros H. unfold position_step, surplus_position. cbn [fst snd].
  rewrite (schema_entry_surplus i H). unfold position_value, arg_value.
  destruct (null_value s); reflexivity.
Qed.

Lemma missing_walk (l : list nat) : forall st,
  fold_left position_step (map (fun i => (i, @None string)) l) st
  = fold_left missing_position l st.
Proof.
  induction l as [|i l IH]; intros st; [reflexivity|].
  cbn [map fold_left]. now rewrite position_step_missing, IH.
Qed.

Lemma surplus_walk (values : list string) : forall a st,
  (gp_login_nargs <= a)%nat ->
  fold_left position_step (lockstep a values) st
  = fold_left surplus_position (combine (seq a (length values)) values) st.
Proof.
  induction values as [|s values IH]; intros a st Ha.
  - cbn [lockstep length seq combine fold_left].
    replace (gp_login_nargs - a)%nat with 0%nat by lia. reflexivity.
  - cbn [lockstep length seq combine fold_left].
    rewrite (position_step_surplus st a s Ha). apply IH. lia.
Qed.

Lemma combine_seq_In {A : Type} (l : list A) : forall a i x,
  nth_error l i = Some x -> In ((a + i)%nat, x) (combine (seq a (length l)) l).
Proof.
  induction l as [|y l IH]; intros a i x H; [now destruct i|].
  cbn [length seq combine]. destruct i as [|i].
  - injection H as ->. left. now rewrite Nat.add_0_r.
  - right. replace (a + S i)%nat with (S a + i)%nat by lia. now apply IH.
Qed.

Lemma walk_three_parts (n : nat) : forall values a st,
  (a + n = gp_login_nargs)%nat ->
  fold_left position_step (lockstep a values) st
  = fold_left surplus_position
      (combine (seq gp_login_nargs (length values - n)) (skipn n values))
      (fold_left missing_position
         (seq (a + length values) (n - length values))
         (fold_left position_step
            (map (fun row => (fst row, Some (snd row)))
                 (combine (seq a n) (firstn n values)))
            st)).
Proof.
  induction n as [|n IH]; intros values a st Ha.
  - cbn [seq combine firstn skipn map fold_left Nat.sub].
    rewrite Nat.sub_0_r, <- Ha, Nat.add_0_r. apply surplus_walk. lia.
  - destruct values as [|s values].
    + cbn [lockstep length firstn skipn]. rewrite !combine_nil.
      cbn [map fold_left]. rewrite Nat.add_0_r, Nat.sub_0_r.
      replace (gp_login_nargs - a)%nat with (S n) by lia.
      apply missing_walk.
    + cbn [lockstep length firstn skipn seq combine map fold_left Nat.sub fst snd].
      rewrite (IH values (S a)) by lia.
      now replace (S a + length values)%nat with (a + S (length values))%nat by lia.
Qed.

(** C1, as amended: the argument loop of [parse_login_xml] walks the schema
    table and the argument list in lock-step by position, as long as either
    has entries left, and never reads outside the table.  The whole walk is:
    the positions that have both an entry and an argument; then each schema
    entry past the end of the argument list, evaluated against its policy
    with no value ([missing_position]); then each argument past the end of
    the schema, under entry 0, the always-unknown policy
    ([surplus_position]): counted and reported as unexpected when its content
    is present, and passed over without a report when its content is empty,
    ["(null)"] or ["-1"]. *)
Theorem login_args_loop_in_lockstep (xml_node : list xmlNode) (st : login_loop) :
  match element_values xml_node with
  | Some values =>
      login_args_loop 0 xml_node st
      = Loop_done (fold_left position_step (lockstep 0 values) st)
      /\ login_args_loop 0 xml_node st
         = Loop_done
             (fold_left surplus_position (surplus_positions values)
                (fold_left missing_position (missing_positions values)
                   (fold_left position_step (supplied_positions values) st)))
  | None => exists st', login_args_loop 0 xml_node st = Loop_err_out st'
  end
  /\ (forall argn,
        (arg_index argn < gp_login_nargs)%nat
        /\ nth_error gp_login_args (arg_index argn) = Some (schema_entry argn)
        /\ login_args_loop argn xml_node st <> Loop_out_of_bounds)
  /\ (forall values i,
        (length values <= i < gp_login_nargs)%nat ->
        nth_error (lockstep 0 values) i = Some (i, None)
        /\ nth_error gp_login_args i = Some (schema_entry i)
        /\ In i (missing_positions values)
        /\ forall st', position_step st' (i, None) = missing_position st' i)
  /\ (forall values i s,
        (gp_login_nargs <= i)%nat -> nth_error values i = Some s ->
        nth_error (lockstep 0 values) i = Some (i, Some s)
        /\ nth_error gp_login_args (arg_index i) = nth_error gp_login_args 0
        /\ schema_entry i = always_unknown
        /\ In (i, s) (surplus_positions values)
        /\ (forall st',
              position_step st' (i, Some s) = surplus_position st' (i, s))
        /\ (forall st',
              null_value s = false ->
              surplus_position st' (i, s)
              = count_unexpected 0 (PRG_ERR, Msg_unexpected_arg i s) st')
        /\ (forall st', null_value s = true -> surplus_position st' (i, s) = st')).
Proof.
  split; [|split; [|split]].
  - pose proof (login_args_loop_lockstep 0 xml_node st) as H.
    destruct (element_values xml_node) as [values|]; [|exact H].
    split; [exact H|]. rewrite H. f_equal.
    unfold surplus_positions, missing_positions, supplied_positions.
    apply (walk_three_parts gp_login_nargs values 0 st). reflexivity.
  - intros argn. split; [apply arg_index_in_table|]. split; [apply table_entry|].
    pose proof (login_args_loop_lockstep argn xml_node st) as H.
    destruct (element_values xml_node); [rewrite H | destruct H as [st' ->]];
      discriminate.
  - intros values i [Hlen Hlt]. split; [|split; [|split]].
    + rewrite lockstep_nth. cbn [Nat.add].
      apply Nat.ltb_lt in Hlt. rewrite Hlt, orb_true_r.
      f_equal. f_equal. apply nth_error_None. exact Hlen.
    + now apply schema_entry_in_table.
    + unfold missing_positions. apply in_seq. lia.
    + intros st'. apply position_step_missing.
  - intros values i s Hge Hs.
    assert (Hi : (i < length values)%nat)
      by (apply nth_error_Some; congruence).
    split; [|split; [|split; [|split; [|split; [|split]]]]].
    + rewrite lockstep_nth. cbn [Nat.add].
      apply Nat.ltb_lt in Hi. rewrite Hi. cbn [orb]. now rewrite Hs.
    + unfold arg_index. apply Nat.ltb_ge in Hge. now rewrite Hge.
    + now apply schema_entry_surplus.
    + unfold surplus_positions. rewrite <- (length_skipn gp_login_nargs values).
      replace i with (gp_login_nargs + (i - gp_login_nargs))%nat at 1 by lia.
      apply combine_seq_In. rewrite nth_error_skipn.
      now replace (gp_login_nargs + (i - gp_login_nargs))%nat with i by lia.
    + intros st'. now apply position_step_surplus.
    + intros st' Hnull. unfold surplus_position. cbn [fst snd]. now rewrite Hnull.
    + intros st' Hnull. unfold surplus_position. cbn [fst snd]. now rewrite Hnull.
Qed.

(** C2: an argument whose content is empty, ["(null)"] or ["-1"] is absent;
    the cookie of a well-formed login response is made of the fields with the
    save policy whose value is present, URL-decoded and appended as
    name=value in schema order, followed by [computer=<localname>]. *)
Theorem parse_login_xml_cookie (vpninfo : openconnect_info) (xml_node : xmlNode)
        (ctx : login_context) (values : list string) :
  login_response_values xml_node = Some values ->
  (forall arg s,
      arg_value arg s = None <-> s = "" \/ s = "(null)" \/ s = "-1")
  /\ exists r,
      parse_login_xml vpninfo xml_node ctx = Some r
      /\ (cb_ret r = 0 <->
          violations values = []
          /\ buf_error (assembled_cookie vpninfo values) = 0)
      /\ (cb_ret r = 0 ->
          cookie (cb_vpninfo r) = buf_data (assembled_cookie vpninfo values)).
Proof.
  intros Hshape. split.
  - intros arg s. unfold arg_value, null_value, streq.
    destruct (String.eqb_spec s "");
      [subst; cbn; split; [now left | reflexivity]|].
    destruct (String.eqb_spec s "(null)");
      [subst; cbn; split; [now (right; left) | reflexivity]|].
    destruct (String.eqb_spec s "-1");
      [subst; cbn; split; [now (right; right) | reflexivity]|].
    cbn. destruct (save arg); split; try discriminate; intros [|[|]]; contradiction.
  - pose proof (parse_login_xml_walk vpninfo xml_node ctx) as Hwalk.
    rewrite Hshape in Hwalk. rewrite Hwalk. eexists. split; [reflexivity|].
    destruct (login_finish_outcome vpninfo ctx values) as (_ & Hfatal & Hok).
    destruct (violations values) as [|i l].
    + destruct (Hok eq_refl) as (Hret & Hset & _). rewrite Hret. split.
      * split; [intros E; now split | now intros [_ E]].
      * intros E. now rewrite (Hset E).
    + destruct Hfatal as [Hret _]; [discriminate|]. rewrite Hret. split.
      * split; [discriminate | intros [? _]; discriminate].
      * discriminate.
Qed.

(** C3: when a well-formed login response violates a schema entry with the
    [err_missing] policy (its value is absent, or differs from the exact
    value asked for), [parse_login_xml] returns [-EPERM] and leaves the
    session, its cookie included, as it was; a connection type other than
    ["tunnel"] is such a violation.  With no such violation the outcome is
    that of the assembled buffer, whatever else was unexpected. *)
Theorem parse_login_xml_fatal (vpninfo : openconnect_info) (xml_node : xmlNode)
        (ctx : login_context) (values : list string) :
  login_response_values xml_node = Some values ->
  exists r,
    parse_login_xml vpninfo xml_node ctx = Some r
    /\ (forall i arg,
          nth_error gp_login_args i = Some arg ->
          violated arg (nth_error values i) = true ->
          cb_ret r = - EPERM /\ cb_vpninfo r = vpninfo)
    /\ (nth_error values 12 <> Some "tunnel" ->
        cb_ret r = - EPERM /\ cb_vpninfo r = vpninfo)
    /\ ((forall i arg,
           nth_error gp_login_args i = Some arg ->
           violated arg (nth_error values i) = false) ->
        cb_ret r = buf_error (assembled_cookie vpninfo values)
        /\ (buf_error (assembled_cookie vpninfo values) = 0 ->
            cb_ret r = 0
            /\ cb_vpninfo r
               = set_cookie vpninfo (buf_data (assembled_cookie vpninfo values)))).
Proof.
  intros Hshape. pose proof (parse_login_xml_walk vpninfo xml_node ctx) as Hwalk.
  rewrite Hshape in Hwalk. rewrite Hwalk.
  eexists. split; [reflexivity|].
  destruct (login_finish_outcome vpninfo ctx values) as (_ & Hfatal & Hok).
  assert (Hin : forall i arg,
             nth_error gp_login_args i = Some arg ->
             violated arg (nth_error values i) = true ->
             violations values <> []).
  { intros i arg Harg Hv Hnil.
    assert (Hi : (i < gp_login_nargs)%nat)
      by (apply nth_error_Some; congruence).
    assert (In i (violations values)) as Hmem.
    { apply filter_In. split; [apply in_seq; lia|].
      rewrite (schema_entry_in_table i Hi) in Harg. injection Harg as ->.
      exact Hv. }
    rewrite Hnil in Hmem. exact Hmem. }
  split; [|split].
  - intros i arg Harg Hv. apply Hfatal. exact (Hin i arg Harg Hv).
  - intros Htunnel. apply Hfatal.
    apply (Hin 12%nat (schema_entry 12) eq_refl).
    change (violated (schema_entry 12) (nth_error values 12))
      with (match nth_error values 12 with
            | None => true
            | Some s => null_value s || negb (streq s "tunnel")
            end).
    destruct (nth_error values 12) as [s|]; [|reflexivity].
    unfold streq. destruct (String.eqb_spec s "tunnel"); [congruence|].
    apply orb_true_r.
  - intros Hnone.
    assert (Hnil : violations values = []).
    { unfold violations. destruct (filter _ _) as [|i l] eqn:Hf; [reflexivity|].
      assert (Hmem : In i (i :: l)) by now left.
      rewrite <- Hf in Hmem. apply filter_In in Hmem as [Hseq Hv].
      apply in_seq in Hseq. cbn [Nat.add] in Hseq.
      rewrite (Hnone i (schema_entry i)) in Hv; [discriminate|].
      apply schema_entry_in_table. lia. }
    destruct (Hok Hnil) as (Hret & Hset & _). split; [exact Hret|].
    intros E. split; [congruence | now apply Hset].
Qed.

Lemma saved_fields_keys (args : list gp_login_arg) : forall values k,
  In k (map fst (saved_fields args values)) ->
  exists arg, In arg args /\ save arg = true /\ opt arg = k.
Proof.
  induction args as [|arg args IH]; intros values k H; [destruct H|].
  destruct values as [|s values]; [destruct H|]. cbn [saved_fields] in H.
  destruct (save arg) eqn:Hs; cbn [andb] in H.
  - destruct (negb (null_value s)).
    + destruct H as [H|H].
      * exists arg. repeat split; [now left | exact Hs | exact H].
      * destruct (IH _ _ H) as (a & Ha & Hr). exists a. split; [now right | exact Hr].
    + destruct (IH _ _ H) as (a & Ha & Hr). exists a. split; [now right | exact Hr].
  - destruct (IH _ _ H) as (a & Ha & Hr). exists a. split; [now right | exact Hr].
Qed.

Lemma shown_not_saved (k : string) (values : list string) :
  forallb (fun arg => negb (save arg && match opt arg with
                                         | Some o => streq o k
                                         | None => false
                                         end)) gp_login_args = true ->
  ~ In (Some k) (map fst (saved_fields gp_login_args values)).
Proof.
  intros Hall Hin. apply saved_fields_keys in Hin as (arg & Ha & Hs & Ho).
  rewrite forallb_forall in Hall. specialize (Hall arg Ha).
  rewrite Hs, Ho in Hall. unfold streq in Hall. now rewrite String.eqb_refl in Hall.
Qed.

(** C10: [parse_login_xml] neither reads nor writes its callback data: the
    data comes back as it went in and nothing else of the result depends on
    it.  A value at position 16 (portal-userauthcookie) or 17
    (portal-prelogonuserauthcookie) is reported at level [PRG_INFO] and is
    neither saved into the cookie nor stored in the session context.  When
    the parser returns 0 the session differs from the one it was given in
    its cookie only, and otherwise not at all. *)
Theorem parse_login_xml_frame (vpninfo : openconnect_info) (xml_node : xmlNode)
        (ctx : login_context) :
  exists r,
    parse_login_xml vpninfo xml_node ctx = Some r
    /\ cb_data r = ctx
    /\ (forall ctx',
          exists r', parse_login_xml vpninfo xml_node ctx' = Some r'
                     /\ cb_data r' = ctx'
                     /\ cb_ret r' = cb_ret r
                     /\ cb_vpninfo r' = cb_vpninfo r
                     /\ cb_log r' = cb_log r)
    /\ (cb_ret r = 0 -> cb_vpninfo r = set_cookie vpninfo (cookie (cb_vpninfo r)))
    /\ (cb_ret r <> 0 -> cb_vpninfo r = vpninfo)
    /\ (forall values,
          login_response_values xml_node = Some values ->
          (forall s, nth_error values 16 = Some s -> null_value s = false ->
                     In (PRG_INFO, Msg_arg_returned (Some "portal-userauthcookie") s)
                        (cb_log r))
          /\ (forall s, nth_error values 17 = Some s -> null_value s = false ->
                        In (PRG_INFO,
                            Msg_arg_returned (Some "portal-prelogonuserauthcookie") s)
                           (cb_log r))
          /\ ~ In (Some "portal-userauthcookie")
                  (map fst (saved_fields gp_login_args values))
          /\ ~ In (Some "portal-prelogonuserauthcookie")
                  (map fst (saved_fields gp_login_args values))
          /\ portal_userauthcookie (cb_data r) = portal_userauthcookie ctx
          /\ portal_prelogonuserauthcookie (cb_data r)
             = portal_prelogonuserauthcookie ctx).
Proof.
  pose proof (parse_login_xml_walk vpninfo xml_node ctx) as Hwalk.
  assert (Hfree : forall r ctx',
             parse_login_xml vpninfo xml_node ctx = Some r ->
             exists r', parse_login_xml vpninfo xml_node ctx' = Some r'
                        /\ cb_data r' = ctx'
                        /\ cb_ret r' = cb_ret r
                        /\ cb_vpninfo r' = cb_vpninfo r
                        /\ cb_log r' = cb_log r).
  { intros r ctx' Hr. rewrite (parse_login_xml_data_free vpninfo xml_node ctx ctx'), Hr.
    eexists. repeat split; reflexivity. }
  destruct (login_response_values xml_node) as [values|] eqn:Hshape.
  - rewrite Hwalk. eexists. split; [reflexivity|].
    destruct (login_finish_outcome vpninfo ctx values) as (Hd & Hfatal & Hok).
    split; [exact Hd|]. split; [|split; [|split; [|]]].
    + intros ctx'. apply Hfree. exact Hwalk.
    + intros Hret. destruct (violations values) as [|i l].
      * destruct (Hok eq_refl) as (Hr & Hset & _).
        rewrite Hset by congruence. reflexivity.
      * destruct Hfatal as [Hr _]; [discriminate|]. rewrite Hr in Hret. discriminate.
    + intros Hret. destruct (violations values) as [|i l].
      * destruct (Hok eq_refl) as (Hr & _ & Hkeep). apply Hkeep. congruence.
      * now destruct Hfatal as [_ Hv].
    + intros values' Hv. injection Hv as <-.
      assert (Hrow : forall i s, (i < gp_login_nargs)%nat ->
                nth_error values i = Some s ->
                nth_error (lockstep 0 values) i = Some (i, Some s)).
      { intros i s Hi Hs. rewrite lockstep_nth. cbn [Nat.add].
        apply Nat.ltb_lt in Hi. rewrite Hi, orb_true_r. now rewrite Hs. }
      repeat split.
      * intros s Hs Hnull. apply login_finish_log.
        apply (walk_log_at _ 16 _ _ _ (Hrow 16%nat s ltac:(cbv; lia) Hs)).
        intros st'. unfold position_step. cbn [fst snd position_value].
        unfold arg_value. rewrite Hnull.
        cbn. apply in_or_app. right. now left.
      * intros s Hs Hnull. apply login_finish_log.
        apply (walk_log_at _ 17 _ _ _ (Hrow 17%nat s ltac:(cbv; lia) Hs)).
        intros st'. unfold position_step. cbn [fst snd position_value].
        unfold arg_value. rewrite Hnull.
        cbn. apply in_or_app. right. now left.
      * now apply shown_not_saved.
      * now apply shown_not_saved.
      * now rewrite Hd.
      * now rewrite Hd.
  - destruct Hwalk as [log Hwalk]. rewrite Hwalk. eexists. split; [reflexivity|].
    cbn [login_err_out cb_data cb_ret cb_vpninfo cb_log].
    split; [reflexivity|]. split; [|split; [|split; [|]]].
    + intros ctx'. apply (Hfree _ ctx' Hwalk).
    + discriminate.
    + reflexivity.
    + discriminate.
Qed.

(** ** The prelogin form *)

Lemma get_val_into_some (x : xmlNode) (name : string) (var : cstr) :
  is_null (get_val_into x name var)
  = is_null (xmlnode_get_val x name) && is_null var.
Proof. unfold get_val_into. now destruct (xmlnode_get_val x name), var. Qed.

Lemma scan_prelogin_marker (xml_node : list xmlNode) : forall sc0 sc,
  scan_prelogin xml_node sc0 = inr sc ->
  negb (is_null (saml_method sc) && is_null (saml_path sc))
  = negb (is_null (saml_method sc0) && is_null (saml_path sc0))
    || existsb (fun x =>
                  negb (is_null (xmlnode_get_val x "saml-request"))
                  || negb (is_null (xmlnode_get_val x "saml-auth-method")))
               xml_node.
Proof.
  induction xml_node as [|x next IH]; intros sc0 sc H; cbn [scan_prelogin] in H.
  - injection H as <-. cbn. now rewrite orb_false_r.
  - cbn [existsb]. destruct (xmlnode_get_val x "saml-request") as [s|] eqn:Hreq.
    + destruct (openconnect_base64_decode s) as [path|]; [|discriminate].
      rewrite (IH _ _ H). cbn [saml_method saml_path is_null negb orb andb].
      rewrite andb_false_r.
      destruct (is_null (saml_method sc0) && is_null (saml_path sc0));
        reflexivity.
    + rewrite (IH _ _ H). cbn [saml_method saml_path is_null negb orb].
      rewrite get_val_into_some.
      destruct (is_null (xmlnode_get_val x "saml-auth-method")),
               (is_null (saml_method sc0)), (is_null (saml_path sc0)); reflexivity.
Qed.

Lemma saml_gate_open (ctx : login_context) (sc : prelogin_scan) :
  is_null (saml_method sc) && is_null (saml_path sc) = false ->
  match saml_gate ctx sc with
  | inl _ => has_completion_signal ctx = true
  | inr log =>
      has_completion_signal ctx = false
      /\ log = [(PRG_ERR,
                 if match saml_method sc with
                    | Some m => streq m "REDIRECT"
                    | None => false
                    end
                 then Msg_saml_required_via (saml_method sc) (saml_path sc)
                 else Msg_saml_required_external (saml_method sc));
                (PRG_ERR, Msg_saml_append_field_name)]
  end.
Proof.
  unfold saml_gate, has_completion_signal. intros Hm.
  destruct (saml_method sc) as [m|], (saml_path sc) as [pth|];
    try discriminate;
    destruct (portal_userauthcookie ctx), (portal_prelogonuserauthcookie ctx),
             (alt_secret ctx); cbn; try reflexivity;
    split; try reflexivity; destruct (streq m "REDIRECT"); reflexivity.
Qed.

(** C6, as amended: for a prelogin response whose SAML requests decode as
    base64 and that carries a SAML request or a SAML method marker,
    [parse_prelogin_xml] answers [-EPERM] exactly when the session holds none
    of [portal_userauthcookie], [portal_prelogonuserauthcookie] and
    [alt_secret]; it then reports the method, with the decoded request when
    the method is REDIRECT, and leaves the session as it was.  With one of
    the three present it builds the credential form and returns 0. *)
Theorem parse_prelogin_xml_saml_gate (vpninfo : openconnect_info)
        (xml_node : xmlNode) (ctx : login_context) (sc : prelogin_scan) :
  xmlnode_is_named xml_node "prelogin-response" = true ->
  scan_prelogin (xml_children xml_node) prelogin_scan_init = inr sc ->
  has_saml_marker xml_node = true ->
  let r := parse_prelogin_xml vpninfo xml_node ctx in
  (cb_ret r = - EPERM <-> has_completion_signal ctx = false)
  /\ (has_completion_signal ctx = false ->
      cb_data r = ctx /\ cb_vpninfo r = vpninfo
      /\ cb_log r
         = [(PRG_ERR,
             if match saml_method sc with
                | Some m => streq m "REDIRECT"
                | None => false
                end
             then Msg_saml_required_via (saml_method sc) (saml_path sc)
             else Msg_saml_required_external (saml_method sc));
            (PRG_ERR, Msg_saml_append_field_name)])
  /\ (has_completion_signal ctx = true ->
      cb_ret r = 0
      /\ form (cb_data r) = Some (prelogin_form vpninfo ctx sc)).
Proof.
  intros Hroot Hscan Hmarker r. subst r. unfold parse_prelogin_xml.
  rewrite Hroot, Hscan. cbn [negb].
  pose proof (scan_prelogin_marker _ _ _ Hscan) as Hm.
  unfold has_saml_marker in Hmarker. rewrite Hmarker, orb_true_r in Hm.
  apply negb_true_iff in Hm.
  pose proof (saml_gate_open ctx sc Hm) as Hgate.
  destruct (saml_gate ctx sc) as [log|log].
  - rewrite Hgate. cbn [cb_ret cb_data cb_vpninfo cb_log].
    repeat split; try discriminate; reflexivity.
  - destruct Hgate as [Hsig ->]. rewrite Hsig.
    cbn [cb_ret cb_data cb_vpninfo cb_log].
    repeat split; try discriminate; reflexivity.
Qed.

(** C7, as amended: in a form that [parse_prelogin_xml] builds, the secret
    field is a token field exactly when [can_gen_tokencode] returns 0 for it
    (a tokencode can be generated), no alternate secret is set and the server
    sent a password label other than ["Password"]; in every other case it is
    a password field. *)
Theorem parse_prelogin_xml_secret_kind (vpninfo : openconnect_info)
        (xml_node : xmlNode) (ctx : login_context) :
  xmlnode_is_named xml_node "prelogin-response" = true ->
  cb_ret (parse_prelogin_xml vpninfo xml_node ctx) = 0 ->
  exists sc f user secret,
    scan_prelogin (xml_children xml_node) prelogin_scan_init = inr sc
    /\ form (cb_data (parse_prelogin_xml vpninfo xml_node ctx)) = Some f
    /\ form_opts f = [user; secret]
    /\ (opt_type secret = OC_FORM_OPT_TOKEN <->
        can_gen_tokencode vpninfo (prelogin_form_untyped ctx sc)
                          (prelogin_secret_opt ctx sc) = 0
        /\ alt_secret ctx = None
        /\ exists l, password_label sc = Some l /\ l <> "Password")
    /\ (opt_type secret = OC_FORM_OPT_TOKEN <->
        has_token_generator vpninfo (prelogin_form_untyped ctx sc)
                            (prelogin_secret_opt ctx sc) = true
        /\ alt_secret ctx = None
        /\ exists l, password_label sc = Some l /\ l <> "Password")
    /\ (opt_type secret <> OC_FORM_OPT_TOKEN ->
        opt_type secret = OC_FORM_OPT_PASSWORD).
Proof.
  unfold parse_prelogin_xml. intros Hroot Hret. rewrite Hroot in *.
  cbn [negb] in *.
  destruct (scan_prelogin (xml_children xml_node) prelogin_scan_init) as [s|sc];
    [cbn in Hret; discriminate|].
  destruct (saml_gate ctx sc) as [log|log]; [|cbn in Hret; discriminate].
  cbn [cb_data set_username set_form form].
  exists sc. eexists. eexists. eexists. split; [reflexivity|].
  split; [reflexivity|]. split; [reflexivity|].
  cbn [opt_type set_opt_type]. unfold prelogin_secret_type, has_token_generator.
  fold (prelogin_form_untyped ctx sc).
  set (generator := can_gen_tokencode vpninfo (prelogin_form_untyped ctx sc)
                                      (prelogin_secret_opt ctx sc)).
  assert (Hcond : (generator =? 0) && is_null (alt_secret ctx)
                  && match password_label sc with
                     | Some l => negb (streq l "Password")
                     | None => false
                     end = true
                  <-> (generator =? 0) = true /\ alt_secret ctx = None
                      /\ exists l, password_label sc = Some l /\ l <> "Password").
  { rewrite !andb_true_iff. unfold streq.
    split.
    - intros [[Hg Ha] Hl]. split; [exact Hg|]. split.
      + now destruct (alt_secret ctx).
      + destruct (password_label sc) as [l|]; [|discriminate].
        exists l. split; [reflexivity|].
        destruct (String.eqb_spec l "Password"); [discriminate | assumption].
    - intros (Hg & Ha & l & Hl & Hne). rewrite Ha, Hl. repeat split; [exact Hg|].
      destruct (String.eqb_spec l "Password"); [contradiction | reflexivity]. }
  assert (Hzero : (generator =? 0) = true /\ alt_secret ctx = None
                  /\ (exists l, password_label sc = Some l /\ l <> "Password")
                  <-> generator = 0 /\ alt_secret ctx = None
                      /\ exists l, password_label sc = Some l /\ l <> "Password")
    by now rewrite Z.eqb_eq.
  destruct ((generator =? 0) && is_null (alt_secret ctx)
            && match password_label sc with
               | Some l => negb (streq l "Password")
               | None => false
               end).
  - split; [|split; [|intros H; now contradiction H]].
    + split; [intros _; apply Hzero; now apply Hcond | reflexivity].
    + split; [intros _; now apply Hcond | reflexivity].
  - split; [|split; [|reflexivity]].
    + split; [discriminate|]. intros H. apply Hzero, Hcond in H. discriminate.
    + split; [discriminate | intros H; apply Hcond in H; discriminate].
Qed.

(** ** The gateway list of a portal response *)

Lemma or_last_app {A : Type} (o : option A) (l1 l2 : list A) :
  or_last o (l1 ++ l2) = or_last (or_last o l1) l2.
Proof. apply fold_left_app. Qed.

Lemma or_last_nil_inv {A : Type} (l : list A) : last_opt l = None -> l = [].
Proof.
  destruct l as [|x l]; [reflexivity|]. unfold last_opt, or_last. cbn.
  generalize x. induction l as [|y l IH]; intros z H; [discriminate|].
  cbn in H. now apply IH in H.
Qed.

Lemma scan_list_last (l : list xmlNode) : forall g,
  fold_left (fun g x3 => if xmlnode_is_named x3 "list" then Some x3 else g) l g
  = or_last g (filter (fun x3 => xmlnode_is_named x3 "list") l).
Proof.
  induction l as [|x l IH]; intros g; [reflexivity|]. cbn [fold_left filter].
  rewrite IH. destruct (xmlnode_is_named x "list"); reflexivity.
Qed.

Lemma scan_external_last (l : list xmlNode) : forall g,
  fold_left scan_external l g
  = or_last g (flat_map (fun x2 =>
                           if xmlnode_is_named x2 "external"
                           then filter (fun x3 => xmlnode_is_named x3 "list")
                                       (xml_children x2)
                           else []) l).
Proof.
  induction l as [|x l IH]; intros g; [reflexivity|].
  cbn [fold_left flat_map]. rewrite IH, or_last_app. unfold scan_external.
  destruct (xmlnode_is_named x "external"); [now rewrite scan_list_last | reflexivity].
Qed.

Lemma scan_hip_gateways (l : list xmlNode) : forall sc,
  ps_gateways (fold_left scan_hip l sc) = ps_gateways sc.
Proof.
  induction l as [|x l IH]; intros sc; [reflexivity|]. cbn [fold_left].
  rewrite IH. unfold scan_hip.
  destruct (xmlnode_get_val x "hip-report-interval"); [|reflexivity].
  destruct (negb (trojan_interval (ps_vpninfo sc) =? 0)); reflexivity.
Qed.

Lemma scan_policy_gateways (l : list xmlNode) : forall sc,
  ps_gateways (fold_left scan_policy_child l sc)
  = or_last (ps_gateways sc)
            (flat_map (fun x => if xmlnode_is_named x "gateways"
                                then external_lists x else []) l).
Proof.
  induction l as [|x l IH]; intros sc; [reflexivity|].
  cbn [fold_left flat_map]. rewrite IH, or_last_app. f_equal.
  unfold scan_policy_child.
  destruct (xmlnode_is_named x "gateways").
  - cbn [ps_gateways]. apply scan_external_last.
  - destruct (xmlnode_is_named x "hip-collection");
      [apply scan_hip_gateways | reflexivity].
Qed.

Lemma scan_portal_gateways (vpninfo : openconnect_info) (xml_node : xmlNode)
      (ctx : login_context) :
  ps_gateways (scan_portal vpninfo xml_node ctx) = last_opt (gateway_lists xml_node).
Proof.
  unfold scan_portal, gateway_lists.
  destruct (xmlnode_is_named xml_node "policy"); [|reflexivity].
  apply scan_policy_gateways.
Qed.

Lemma scan_description_label (write : bool) (name : cstr) (l : list xmlNode) :
  forall acc,
  fst (fold_left (scan_description write name) l acc)
  = or_last (fst acc)
            (flat_map (fun x2 => match xmlnode_get_val x2 "description" with
                                 | Some l => [l]
                                 | None => []
                                 end) l).
Proof.
  induction l as [|x l IH]; intros acc; [reflexivity|].
  cbn [fold_left flat_map]. rewrite IH, or_last_app. f_equal.
  unfold scan_description.
  destruct (xmlnode_get_val x "description"); reflexivity.
Qed.

Lemma scan_entry_choices (write : bool) (l : list xmlNode) : forall gl,
  gl_choices (fold_left (scan_entry write) l gl)
  = gl_choices gl
    ++ map entry_choice (filter (fun x => xmlnode_is_named x "entry") l).
Proof.
  induction l as [|x l IH]; intros gl; cbn [fold_left filter map].
  - now rewrite app_nil_r.
  - rewrite IH. unfold scan_entry.
    destruct (xmlnode_is_named x "entry"); [|reflexivity].
    pose proof (scan_description_label write (xmlnode_get_prop x "name")
                  (xml_children x) (None, gl_buf gl)) as Hl.
    destruct (fold_left (scan_description write (xmlnode_get_prop x "name"))
                        (xml_children x) (None, gl_buf gl)) as [label buf].
    cbn [fst] in Hl. cbn [gl_choices map]. rewrite <- app_assoc. cbn [app].
    unfold entry_choice, last_opt, descriptions. now rewrite Hl.
Qed.

Lemma gateway_entries_choices (vpninfo : openconnect_info) (sc : portal_scan)
      (gateways : xmlNode) :
  gl_choices (gateway_entries vpninfo sc gateways) = gateway_choices gateways.
Proof. unfold gateway_entries. now rewrite scan_entry_choices. Qed.


(** ** Logout *)

Lemma set_urlpath_restore (vpninfo : openconnect_info) (p : cstr) :
  set_urlpath (set_urlpath vpninfo p) (urlpath vpninfo) = vpninfo.
Proof. now destruct vpninfo. Qed.

(** C8, as amended: when the logout request goes through and the body that
    comes back is not accepted ([gpst_xml_or_error] returns a negative
    value), [gpst_bye] reports that the logout failed and returns that
    negative value to its caller; the session, its cookie included, is as it
    was. *)
Theorem gpst_bye_failed_logout (w : world) (vpninfo : openconnect_info)
        (reason : cstr) (result : Z) (xml_buf : cstr) (w1 w2 : world)
        (r : cb_result unit) :
  let request_body := buf_append buf_alloc "%s" [Arg_s (cookie vpninfo)] in
  let sent := set_urlpath vpninfo (Some "ssl-vpn/logout.esp") in
  buf_error request_body = 0 ->
  do_https_request (openconnect_close_https w sent) sent "POST"
                   (Some "application/x-www-form-urlencoded")
                   (Some request_body) None HTTP_NO_FLAGS
  = (result, xml_buf, w1) ->
  0 <= result ->
  gpst_xml_or_error w1 vpninfo xml_buf None None tt = Some (r, w2) ->
  cb_ret r < 0 ->
  gpst_bye w vpninfo reason
  = (cb_ret r, vpninfo, w2, [(PRG_ERR, Msg_logout_failed)])
  /\ cookie (snd (fst (fst (gpst_bye w vpninfo reason)))) = cookie vpninfo.
Proof.
  intros request_body sent Hbuf Hreq Hres Hclass He.
  assert (Hv : cb_vpninfo r = vpninfo).
  { unfold gpst_xml_or_error in Hclass.
    destruct (gpst_classify xml_buf); now injection Hclass as <- _. }
  assert (Hbye : gpst_bye w vpninfo reason
                 = (cb_ret r, vpninfo, w2, [(PRG_ERR, Msg_logout_failed)])).
  { unfold gpst_bye. fold request_body. rewrite Hbuf. cbn [Z.eqb negb].
    fold sent. rewrite Hreq. apply Z.geb_le in Hres. rewrite Hres.
    unfold sent. rewrite set_urlpath_restore, Hclass.
    apply Z.ltb_lt in He. rewrite He, Hv. reflexivity. }
  split; [exact Hbye | now rewrite Hbye].
Qed.

(** ** The login loop *)


Lemma save_username_events (ctx ctx' : login_context) (saved : list login_event) :
  save_username ctx = Some (ctx', saved) ->
  blind_retries saved = 0%nat
  /\ username ctx' <> None
  /\ (forall u, username ctx = Some u -> username ctx' = Some u).
Proof.
  unfold save_username. destruct (username ctx) as [u|] eqn:Hu.
  - intros H. injection H as <- <-. rewrite Hu.
    repeat split; [discriminate | intros u' E; exact E].
  - destruct (form ctx) as [f|]; [|discriminate].
    destruct (form_opts f) as [|o rest]; [discriminate|].
    destruct (opt_value o) as [v|]; [|discriminate].
    intros H. injection H as <- <-. cbn.
    repeat split; discriminate.
Qed.


Ltac break_step :=
  repeat (cbn [fst snd ls_vpninfo ls_ctx ls_world ls_portal ls_blind_retry
               ls_log ls_trace];
          match goal with
          | |- context [match ?x with _ => _ end] =>
              lazymatch x with
              | login_after_submit _ _ => fail
              | _ => destruct x eqn:?
              end
          end).






(** *** The username *)

Lemma parse_login_xml_data (vpninfo : openconnect_info) (xml_node : xmlNode)
      (ctx : login_context) (r : cb_result login_context) :
  parse_login_xml vpninfo xml_node ctx = Some r -> cb_data r = ctx.
Proof.
  rewrite (parse_login_xml_data_free vpninfo xml_node ctx ctx).
  destruct (parse_login_xml vpninfo xml_node ctx); [|discriminate].
  intros H. now injection H as <-.
Qed.

Lemma gateway_response_username (w : world) (vpninfo : openconnect_info)
      (response : cstr) (ctx : login_context) (r : cb_result login_context)
      (w' : world) :
  gpst_xml_or_error w vpninfo response (Some login_cb) (Some challenge_cb) ctx
  = Some (r, w') ->
  username (cb_data r) = username ctx.
Proof.
  unfold gpst_xml_or_error, login_cb, challenge_cb.
  destruct (gpst_classify response) as [e|root|prompt inputStr].
  - intros H. now injection H as <- _.
  - destruct (parse_login_xml vpninfo root ctx) as [r0|] eqn:Hp; [|discriminate].
    intros H. injection H as <- _. now rewrite (parse_login_xml_data _ _ _ _ Hp).
  - destruct (form ctx) as [f|]; [|discriminate].
    destruct (form_opts f) as [|o [|o2 rest]]; try discriminate.
    intros H. now injection H as <- _.
Qed.

Lemma login_after_submit_invariant (result : Z) (st : login_state) :
  (ls_portal st = true -> ls_blind_retry st = false) ->
  (ls_blind_retry st = true -> username (ls_ctx st) <> None) ->
  login_invariant (fst (login_after_submit result st))
                  (snd (login_after_submit result st))
  /\ (fst (login_after_submit result st) = At_prelogin ->
      username (ls_ctx (snd (login_after_submit result st))) <> None).
Proof.
  intros H1 H3. unfold login_after_submit, login_invariant.
  destruct (result =? - EACCES).
  - destruct (form (ls_ctx st)) as [f|];
      [|cbn [fst snd]; repeat split; try discriminate; assumption].
    destruct (ls_blind_retry st) eqn:Hb;
      cbn [negb login_goto fst snd ls_portal ls_blind_retry ls_ctx set_form
           username];
      repeat split; try discriminate; try assumption; try reflexivity;
      try (intros; exact (H3 eq_refl)).
  - destruct (save_username (ls_ctx st)) as [[ctx saved]|] eqn:Hs;
      [|cbn [fst snd]; repeat split; try discriminate; assumption].
    apply save_username_events in Hs as (_ & Hu & _).
    destruct (result =? - EAGAIN);
      [cbn [login_goto fst snd ls_portal ls_blind_retry ls_ctx];
       repeat split; try discriminate; try assumption; intros; exact Hu|].
    destruct (ls_portal st && (result =? 0)) eqn:Hp.
    + apply andb_true_iff in Hp as [Hp _]. specialize (H1 Hp).
      destruct (may_retry_blindly ctx) as [[|]|];
        cbn [login_goto fst snd ls_portal ls_blind_retry ls_ctx];
        repeat split; try discriminate; try assumption; intros;
        try assumption; exact Hu.
    + cbn [login_goto fst snd ls_portal ls_blind_retry ls_ctx].
      repeat split; try discriminate; try assumption; intros; exact Hu.
Qed.

Lemma gpst_login_step_invariant (pc : login_pc) (st : login_state) :
  login_invariant pc st ->
  login_invariant (fst (gpst_login_step pc st)) (snd (gpst_login_step pc st))
  /\ (fst (gpst_login_step pc st) = At_prelogin ->
      username (ls_ctx (snd (gpst_login_step pc st))) <> None).
Proof.
  intros (H1 & H2 & H3). destruct pc; cbn [gpst_login_step].
  - specialize (H2 eq_refl). unfold login_prelogin, login_invariant.
    break_step; cbn [fst snd ls_portal ls_blind_retry ls_ctx];
      repeat split; try discriminate; try assumption; congruence.
  - unfold login_got_form, login_invariant.
    break_step; cbn [fst snd ls_portal ls_blind_retry ls_ctx set_form username];
      repeat split; try discriminate; assumption.
  - unfold login_replay_form.
    break_step;
      try (unfold login_invariant;
           cbn [fst snd ls_portal ls_blind_retry ls_ctx set_form username];
           repeat split; try discriminate; assumption).
    all: apply login_after_submit_invariant;
      cbn [ls_portal ls_blind_retry ls_ctx set_form username];
      try assumption; try congruence.
    all: intros Hb; try (rewrite (H1 eq_refl) in Hb; discriminate).
    all: try (destruct (ls_portal st) eqn:Hp;
              [rewrite (H1 eq_refl) in Hb; discriminate|]).
    all: match goal with
         | H : gpst_xml_or_error _ _ _ _ _ _ = Some _ |- _ =>
             rewrite (gateway_response_username _ _ _ _ _ _ H)
         end; cbn [set_form username]; exact (H3 Hb).
  - cbn [fst snd]. split; [repeat split; assumption | discriminate].
  - cbn [fst snd]. split; [repeat split; assumption | discriminate].
Qed.

Lemma gpst_login_run_invariant (fuel : nat) : forall pc st,
  login_invariant pc st ->
  login_invariant (fst (gpst_login_run fuel pc st)) (snd (gpst_login_run fuel pc st)).
Proof.
  induction fuel as [|fuel IH]; intros pc st H; cbn [gpst_login_run]; [exact H|].
  pose proof (gpst_login_step_invariant pc st H) as [Hs _].
  destruct (gpst_login_step pc st) as [pc' st']. now apply IH.
Qed.

Lemma gpst_login_enter_invariant (portal : bool) (st : login_state) :
  login_invariant At_prelogin (gpst_login_enter portal st).
Proof. repeat split; try reflexivity; discriminate. Qed.

Lemma prelogin_identity (vpninfo : openconnect_info) (xml_node : xmlNode)
      (ctx : login_context) :
  xmlnode_is_named xml_node "prelogin-response" = true ->
  cb_ret (parse_prelogin_xml vpninfo xml_node ctx) = 0 ->
  exists f user rest,
    form (cb_data (parse_prelogin_xml vpninfo xml_node ctx)) = Some f
    /\ form_opts f = user :: rest
    /\ opt_value user = username ctx
    /\ opt_type user = match username ctx with
                       | Some _ => OC_FORM_OPT_HIDDEN
                       | None => OC_FORM_OPT_TEXT
                       end
    /\ username (cb_data (parse_prelogin_xml vpninfo xml_node ctx)) = None.
Proof.
  unfold parse_prelogin_xml. intros Hroot Hret. rewrite Hroot in *.
  cbn [negb] in *.
  destruct (scan_prelogin (xml_children xml_node) prelogin_scan_init) as [s|sc];
    [cbn in Hret; discriminate|].
  destruct (saml_gate ctx sc) as [log|log]; [|cbn in Hret; discriminate].
  cbn [cb_data set_username set_form form username].
  eexists. eexists. eexists. repeat split; reflexivity.
Qed.

(** C9, as amended: the loop assigns the session's username while it is
    unset, from the identity field of the form, after a submission that
    succeeds or is answered with a challenge, and never after [-EACCES]; a
    username that is set is not overwritten.
    When the prelogin form builder builds a form with the username set, the
    identity field is hidden and filled with it, and the username moves out
    of the session; with no username the field is a text field.  Every pass
    of a login loop that goes back to the prelogin request does so with the
    username set. *)
Theorem gpst_login_username (result : Z) (st : login_state) :
  (result = 0 \/ result = - EAGAIN ->
   forall f o rest u,
     username (ls_ctx st) = None ->
     form (ls_ctx st) = Some f -> form_opts f = o :: rest ->
     opt_value o = Some u ->
     username (ls_ctx (snd (login_after_submit result st))) = Some u)
  /\ username (ls_ctx (snd (login_after_submit (- EACCES) st)))
     = username (ls_ctx st)
  /\ (forall u,
        username (ls_ctx st) = Some u ->
        username (ls_ctx (snd (login_after_submit result st))) = Some u)
  /\ (forall vpninfo xml_node ctx,
        xmlnode_is_named xml_node "prelogin-response" = true ->
        cb_ret (parse_prelogin_xml vpninfo xml_node ctx) = 0 ->
        exists f user rest,
          form (cb_data (parse_prelogin_xml vpninfo xml_node ctx)) = Some f
          /\ form_opts f = user :: rest
          /\ opt_value user = username ctx
          /\ opt_type user = match username ctx with
                             | Some _ => OC_FORM_OPT_HIDDEN
                             | None => OC_FORM_OPT_TEXT
                             end
          /\ username (cb_data (parse_prelogin_xml vpninfo xml_node ctx)) = None)
  /\ (forall fuel portal st0,
        let reached := gpst_login fuel portal st0 in
        fst (gpst_login_step (fst reached) (snd reached)) = At_prelogin ->
        username (ls_ctx (snd (gpst_login_step (fst reached) (snd reached))))
        <> None).
Proof.
  split; [|split; [|split; [|split]]].
  - intros Hres f o rest u Hu Hf Ho Hv. unfold login_after_submit.
    replace (result =? - EACCES) with false
      by (now destruct Hres as [-> | ->]).
    unfold save_username. rewrite Hu, Hf, Ho, Hv.
    destruct (result =? - EAGAIN); [reflexivity|].
    destruct (ls_portal st && (result =? 0)); [|reflexivity].
    destruct (may_retry_blindly _) as [[|]|]; reflexivity.
  - unfold login_after_submit. rewrite Z.eqb_refl.
    destruct (form (ls_ctx st)); [|reflexivity].
    destruct (negb (ls_blind_retry st)); reflexivity.
  - intros u Hu. unfold login_after_submit.
    destruct (result =? - EACCES).
    + destruct (form (ls_ctx st)); [|exact Hu].
      destruct (negb (ls_blind_retry st)); exact Hu.
    + unfold save_username. rewrite Hu.
      destruct (result =? - EAGAIN); [exact Hu|].
      destruct (ls_portal st && (result =? 0)); [|exact Hu].
      destruct (may_retry_blindly _) as [[|]|]; exact Hu.
  - intros vpninfo xml_node ctx. apply prelogin_identity.
  - intros fuel portal st0 reached. subst reached. unfold gpst_login.
    apply gpst_login_step_invariant, gpst_login_run_invariant,
      gpst_login_enter_invariant.
Qed.

(** * Further properties *)

(** ** The login response *)

Lemma element_values_none (l : list xmlNode) :
  element_values l = None <->
  exists x, In x l /\ is_element x = true
            /\ xmlnode_get_val x "argument" = None.
Proof.
  induction l as [|n l IH]; cbn [element_values].
  - split; [discriminate | intros (x & [] & _)].
  - destruct (is_element n) eqn:He.
    + destruct (xmlnode_get_val n "argument") as [s|] eqn:Hv.
      * destruct (element_values l) as [vs|].
        -- split; [discriminate|]. intros (x & [-> | Hin] & Hx & Hn);
             [congruence|].
           assert (Some vs = None) by (apply (proj2 IH); now exists x).
           discriminate.
        -- split; [|reflexivity]. intros _.
           destruct (proj1 IH eq_refl) as (x & Hin & Hx).
           exists x. split; [now right | exact Hx].
      * split; [|reflexivity]. intros _. exists n.
        split; [now left | now split].
    + rewrite IH. split; intros (x & Hin & Hx & Hn).
      * exists x. split; [now right | now split].
      * destruct Hin as [-> | Hin]; [congruence|]. now exists x.
Qed.

(** X1: a login response of another shape -- a root that is not [jnlp], no
    [application-desc] as first element child, or an element among the
    arguments that is not an [argument] -- is answered with [-EINVAL], and
    neither the session nor the callback data changes. *)
Theorem parse_login_xml_malformed (vpninfo : openconnect_info)
        (xml_node : xmlNode) (ctx : login_context) :
  xmlnode_is_named xml_node "jnlp" = false
  \/ skip_non_elements (xml_children xml_node) = []
  \/ (exists app rest,
         skip_non_elements (xml_children xml_node) = app :: rest
         /\ (xmlnode_is_named app "application-desc" = false
             \/ exists x, In x (xml_children app) /\ is_element x = true
                          /\ xmlnode_get_val x "argument" = None)) ->
  exists r,
    parse_login_xml vpninfo xml_node ctx = Some r
    /\ cb_ret r = - EINVAL /\ cb_vpninfo r = vpninfo /\ cb_data r = ctx.
Proof.
  intros Hshape.
  assert (Hnone : login_response_values xml_node = None).
  { unfold login_response_values, application_desc.
    destruct Hshape as [Hroot | [Hskip | (app & rest & Hskip & Happ)]].
    - now rewrite Hroot.
    - rewrite Hskip. now destruct (negb _).
    - rewrite Hskip. destruct (negb (xmlnode_is_named xml_node "jnlp"));
        [reflexivity|].
      destruct Happ as [Happ | Hx]; [now rewrite Happ|].
      destruct (negb (xmlnode_is_named app "application-desc")); [reflexivity|].
      now apply element_values_none. }
  pose proof (parse_login_xml_walk vpninfo xml_node ctx) as Hwalk.
  rewrite Hnone in Hwalk. destruct Hwalk as [log ->].
  eexists. repeat split; reflexivity.
Qed.

Lemma element_values_elements (l : list xmlNode) :
  element_values (filter is_element l) = element_values l.
Proof.
  induction l as [|n l IH]; [reflexivity|]. cbn [filter element_values].
  destruct (is_element n) eqn:He; [|exact IH].
  cbn [element_values]. now rewrite He, IH.
Qed.

(** X2: positions are counted over element nodes only.  Text and comment
    nodes between the arguments change nothing, and two well-formed
    responses with the same argument contents are parsed alike. *)
Theorem parse_login_xml_elements_only (vpninfo : openconnect_info)
        (xml_node xml_node' : xmlNode) (ctx : login_context)
        (values : list string) :
  login_response_values xml_node = Some values ->
  login_response_values xml_node' = Some values ->
  parse_login_xml vpninfo xml_node ctx = parse_login_xml vpninfo xml_node' ctx
  /\ (forall l st,
        element_values l = Some values ->
        login_args_loop 0 (filter is_element l) st = login_args_loop 0 l st).
Proof.
  intros H1 H2. split.
  - pose proof (parse_login_xml_walk vpninfo xml_node ctx) as W1.
    pose proof (parse_login_xml_walk vpninfo xml_node' ctx) as W2.
    rewrite H1 in W1. rewrite H2 in W2. now rewrite W1, W2.
  - intros l st Hl.
    pose proof (login_args_loop_lockstep 0 l st) as L1.
    pose proof (login_args_loop_lockstep 0 (filter is_element l) st) as L2.
    rewrite element_values_elements in L2. rewrite Hl in L1, L2.
    now rewrite L1, L2.
Qed.

Lemma position_step_counts (st : login_loop) (row : nat * option string) :
  0 <= ll_fatal_args st <= ll_unknown_args st ->
  0 <= ll_fatal_args (position_step st row)
    <= ll_unknown_args (position_step st row).
Proof.
  intros H. unfold position_step, login_arg_step.
  generalize (schema_entry (fst row)). intros arg.
  generalize (position_value arg (snd row)). intros value.
  assert (Hc : 0 <= ll_fatal_args (classify_arg (fst row) arg value st)
               <= ll_unknown_args (classify_arg (fst row) arg value st)).
  { unfold classify_arg.
    destruct (unknown arg), value as [v|], (err_missing arg); cbn;
      repeat match goal with |- context [if ?b then _ else _] => destruct b end;
      cbn; lia. }
  unfold save_arg. destruct value; [destruct (save arg)|]; exact Hc.
Qed.

Lemma walk_counts (rows : list (nat * option string)) : forall st,
  0 <= ll_fatal_args st <= ll_unknown_args st ->
  0 <= ll_fatal_args (fold_left position_step rows st)
    <= ll_unknown_args (fold_left position_step rows st).
Proof.
  induction rows as [|row rows IH]; intros st H; [exact H|].
  cbn [fold_left]. now apply IH, position_step_counts.
Qed.

(** X3: the count of fatal values never exceeds the count of unexpected
    values, so a response rejected for a violated [err_missing] entry always
    ends its diagnostics with the report line, which gives the number of
    violations as the number of fatal values. *)
Theorem parse_login_xml_report (vpninfo : openconnect_info) (xml_node : xmlNode)
        (ctx : login_context) (values : list string) :
  login_response_values xml_node = Some values ->
  violations values <> [] ->
  exists r log unexpected,
    parse_login_xml vpninfo xml_node ctx = Some r
    /\ cb_ret r = - EPERM
    /\ cb_log r
       = log ++ [(PRG_ERR,
                  Msg_please_report unexpected
                                    (Z.of_nat (length (violations values))))]
    /\ 0 < Z.of_nat (length (violations values)) <= unexpected.
Proof.
  intros Hshape Hv.
  pose proof (parse_login_xml_walk vpninfo xml_node ctx) as Hwalk.
  rewrite Hshape in Hwalk. rewrite Hwalk.
  set (st := fold_left position_step (lockstep 0 values) login_loop_init).
  assert (Hf : ll_fatal_args st = Z.of_nat (length (violations values)))
    by (unfold st; now rewrite walk_fatal_count).
  assert (Hc : 0 <= ll_fatal_args st <= ll_unknown_args st)
    by (apply walk_counts; cbn; lia).
  assert (Hpos : 0 < Z.of_nat (length (violations values)))
    by (destruct (violations values); [contradiction | cbn [length]; lia]).
  exists (login_finish vpninfo ctx st), (ll_log st), (ll_unknown_args st).
  split; [reflexivity|]. unfold login_finish.
  replace (ll_unknown_args st =? 0) with false
    by (symmetry; apply Z.eqb_neq; lia).
  replace (ll_fatal_args st =? 0) with false
    by (symmetry; apply Z.eqb_neq; lia).
  cbn [negb cb_ret cb_log]. rewrite Hf.
  repeat split; try reflexivity; lia.
Qed.

(** X4: a well-formed response with fewer than fifteen arguments lacks the
    client version at position 14 and is rejected with [-EPERM]; the session
    stays as it was. *)
Theorem parse_login_xml_short (vpninfo : openconnect_info) (xml_node : xmlNode)
        (ctx : login_context) (values : list string) :
  login_response_values xml_node = Some values ->
  (length values < 15)%nat ->
  exists r,
    parse_login_xml vpninfo xml_node ctx = Some r
    /\ cb_ret r = - EPERM /\ cb_vpninfo r = vpninfo.
Proof.
  intros Hshape Hlen.
  pose proof (parse_login_xml_walk vpninfo xml_node ctx) as Hwalk.
  rewrite Hshape in Hwalk. rewrite Hwalk. eexists. split; [reflexivity|].
  apply (login_finish_outcome vpninfo ctx values).
  assert (Hin : In 14%nat (violations values)).
  { apply filter_In. split; [apply in_seq; cbv; lia|].
    replace (nth_error values 14) with (@None string)
      by (symmetry; apply nth_error_None; lia).
    reflexivity. }
  intros Hnil. rewrite Hnil in Hin. exact Hin.
Qed.

(** X5: [parse_login_xml] can be repeated: parsing the same response
    again, in the session and with the callback data the first parse left,
    gives the same result, the same cookie and the same diagnostics. *)
Theorem parse_login_xml_again (vpninfo : openconnect_info) (xml_node : xmlNode)
        (ctx : login_context) (r : cb_result login_context) :
  parse_login_xml vpninfo xml_node ctx = Some r ->
  parse_login_xml (cb_vpninfo r) xml_node (cb_data r) = Some r.
Proof.
  unfold parse_login_xml.
  destruct (application_desc xml_node) as [arguments|];
    [|intros H; now injection H as <-].
  destruct (login_args_loop 0 arguments login_loop_init) as [st|st|];
    [|intros H; now injection H as <- | discriminate].
  intros H. injection H as <-. f_equal. unfold login_finish.
  destruct (negb (ll_fatal_args st =? 0)); [reflexivity|].
  destruct (buf_error (append_opt (ll_cookie st) (Some "computer")
                                  (localname vpninfo)) =? 0) eqn:Hb.
  - cbn [cb_vpninfo cb_data set_cookie localname]. now rewrite Hb.
  - cbn [cb_vpninfo cb_data]. now rewrite Hb.
Qed.

(** ** The prelogin form and the challenge form *)

(** X6: [parse_prelogin_xml] returns 0, [-EINVAL] or [-EPERM]; it never
    changes the session, the alternate secret or the portal cookies, and
    when it does not return 0 it leaves the callback data as it was.  A root
    that is not [prelogin-response] is accepted: the result is 0, nothing is
    reported and no form is built. *)
Theorem parse_prelogin_xml_frame (vpninfo : openconnect_info)
        (xml_node : xmlNode) (ctx : login_context) :
  let r := parse_prelogin_xml vpninfo xml_node ctx in
  (cb_ret r = 0 \/ cb_ret r = - EINVAL \/ cb_ret r = - EPERM)
  /\ cb_vpninfo r = vpninfo
  /\ alt_secret (cb_data r) = alt_secret ctx
  /\ portal_userauthcookie (cb_data r) = portal_userauthcookie ctx
  /\ portal_prelogonuserauthcookie (cb_data r)
     = portal_prelogonuserauthcookie ctx
  /\ (cb_ret r <> 0 -> cb_data r = ctx)
  /\ (xmlnode_is_named xml_node "prelogin-response" = false ->
      cb_ret r = 0 /\ cb_data r = ctx /\ cb_log r = []).
Proof.
  intros r. subst r. unfold parse_prelogin_xml.
  destruct (xmlnode_is_named xml_node "prelogin-response"); cbn [negb].
  - destruct (scan_prelogin (xml_children xml_node) prelogin_scan_init) as [s|sc];
      [|destruct (saml_gate ctx sc) as [log|log]];
      cbn [cb_ret cb_vpninfo cb_data cb_log set_username set_form alt_secret
           portal_userauthcookie portal_prelogonuserauthcookie];
      repeat split; auto; try discriminate; try congruence;
        intros; congruence.
  - cbn [cb_ret cb_vpninfo cb_data cb_log]. repeat split; auto.
Qed.

Lemma scan_prelogin_plain (l : list xmlNode) : forall sc0,
  existsb (fun x =>
             negb (is_null (xmlnode_get_val x "saml-request"))
             || negb (is_null (xmlnode_get_val x "saml-auth-method"))) l = false ->
  exists sc,
    scan_prelogin l sc0 = inr sc
    /\ saml_method sc = saml_method sc0 /\ saml_path sc = saml_path sc0.
Proof.
  induction l as [|x l IH]; intros sc0 H; cbn [scan_prelogin].
  - now exists sc0.
  - cbn [existsb] in H. apply orb_false_elim in H as [Hx Hl].
    apply orb_false_elim in Hx as [Hreq Hmeth].
    destruct (xmlnode_get_val x "saml-request") as [s|] eqn:Er; [discriminate|].
    destruct (IH {| prompt := get_val_into x "authentication-message" (prompt sc0);
                    username_label := get_val_into x "username-label"
                                                   (username_label sc0);
                    password_label := get_val_into x "password-label"
                                                   (password_label sc0);
                    saml_method := get_val_into x "saml-auth-method"
                                                (saml_method sc0);
                    saml_path := saml_path sc0 |} Hl) as (sc & Hs & Hm & Hp).
    exists sc. split; [exact Hs|]. split; [|exact Hp].
    rewrite Hm. cbn [saml_method]. unfold get_val_into.
    now destruct (xmlnode_get_val x "saml-auth-method").
Qed.

(** X7: a [prelogin-response] without SAML markers always yields a form,
    whatever else it holds: the result is 0, the only thing reported is the
    form, and the form has the two fields [user] and the secret, named after
    the alternate secret or ["passwd"], the secret without a value. *)
Theorem parse_prelogin_xml_plain (vpninfo : openconnect_info)
        (xml_node : xmlNode) (ctx : login_context) :
  xmlnode_is_named xml_node "prelogin-response" = true ->
  has_saml_marker xml_node = false ->
  let r := parse_prelogin_xml vpninfo xml_node ctx in
  exists f user secret,
    cb_ret r = 0
    /\ form (cb_data r) = Some f
    /\ cb_log r = [(PRG_TRACE, Msg_prelogin_form f)]
    /\ form_auth_id f = Some "_login" /\ form_action f = None
    /\ form_opts f = [user; secret]
    /\ opt_name user = Some "user"
    /\ opt_name secret = Some (or_else (alt_secret ctx) "passwd")
    /\ opt_value secret = None.
Proof.
  intros Hroot Hmarker r. subst r. unfold parse_prelogin_xml.
  rewrite Hroot. cbn [negb].
  destruct (scan_prelogin_plain (xml_children xml_node) prelogin_scan_init Hmarker)
    as (sc & -> & Hm & Hp).
  unfold saml_gate. rewrite Hm, Hp. cbn [prelogin_scan_init saml_method saml_path].
  cbn [cb_ret cb_data cb_log set_username set_form form app].
  eexists. eexists. eexists. repeat split; reflexivity.
Qed.

Lemma scan_prelogin_undecodable (l : list xmlNode) : forall sc0,
  (exists s, scan_prelogin l sc0 = inl s) <->
  exists x s, In x l /\ xmlnode_get_val x "saml-request" = Some s
              /\ openconnect_base64_decode s = None.
Proof.
  induction l as [|x l IH]; intros sc0; cbn [scan_prelogin].
  - split; [intros [s H]; discriminate | intros (x & s & [] & _)].
  - destruct (xmlnode_get_val x "saml-request") as [s|] eqn:Er.
    + destruct (openconnect_base64_decode s) as [path|] eqn:Ed.
      * rewrite IH. split; intros (y & t & Hin & Hy).
        -- exists y, t. split; [now right | exact Hy].
        -- destruct Hin as [-> | Hin]; [|now exists y, t].
           destruct Hy as [Hy1 Hy2]. congruence.
      * split; [|intros _; now exists s]. intros _.
        exists x, s. split; [now left | now split].
    + rewrite IH. split; intros (y & t & Hin & Hy).
      * exists y, t. split; [now right | exact Hy].
      * destruct Hin as [-> | Hin]; [|now exists y, t].
        destruct Hy as [Hy1 _]. congruence.
Qed.

(** X8: [parse_prelogin_xml] answers a [prelogin-response] with [-EINVAL]
    exactly when one of its SAML requests does not decode as base64; the
    request is the one thing reported. *)
Theorem parse_prelogin_xml_undecodable (vpninfo : openconnect_info)
        (xml_node : xmlNode) (ctx : login_context) :
  xmlnode_is_named xml_node "prelogin-response" = true ->
  let r := parse_prelogin_xml vpninfo xml_node ctx in
  (cb_ret r = - EINVAL <->
   exists x s, In x (xml_children xml_node)
               /\ xmlnode_get_val x "saml-request" = Some s
               /\ openconnect_base64_decode s = None)
  /\ (cb_ret r = - EINVAL ->
      exists s, cb_log r = [(PRG_ERR, Msg_bad_base64 s)]
                /\ openconnect_base64_decode s = None).
Proof.
  intros Hroot r. subst r.
  pose proof (scan_prelogin_undecodable (xml_children xml_node) prelogin_scan_init)
    as Hscan.
  unfold parse_prelogin_xml. rewrite Hroot. cbn [negb].
  destruct (scan_prelogin (xml_children xml_node) prelogin_scan_init)
    as [s|sc] eqn:Es.
  - cbn [cb_ret cb_log]. split.
    + split; [intros _; apply Hscan; now exists s | reflexivity].
    + intros _. exists s. split; [reflexivity|].
      clear Hscan. revert Es. generalize prelogin_scan_init.
      induction (xml_children xml_node) as [|x l IH]; intros sc0 Es;
        cbn [scan_prelogin] in Es; [discriminate|].
      destruct (xmlnode_get_val x "saml-request") as [t|].
      * destruct (openconnect_base64_decode t) eqn:Ed; [now apply IH in Es|].
        now injection Es as <-.
      * now apply IH in Es.
  - assert (Hno : ~ exists x s, In x (xml_children xml_node)
                                /\ xmlnode_get_val x "saml-request" = Some s
                                /\ openconnect_base64_decode s = None).
    { intros H. apply Hscan in H as [s H]. discriminate. }
    destruct (saml_gate ctx sc) as [log|log]; cbn [cb_ret];
      (split; [split; [discriminate | intros H; now contradiction Hno]
              | discriminate]).
Qed.

Lemma challenge_cb_form (vpninfo : openconnect_info) (prompt inputStr : string)
      (ctx : login_context) (f : oc_auth_form) (user secret : oc_form_opt)
      (rest : list oc_form_opt) :
  form ctx = Some f ->
  form_opts f = user :: secret :: rest ->
  exists r f' secret',
    challenge_cb vpninfo prompt inputStr ctx = Some r
    /\ cb_ret r = - EAGAIN /\ cb_vpninfo r = vpninfo
    /\ cb_data r = set_form ctx (Some f')
    /\ cb_log r = [(PRG_TRACE, Msg_challenge_form f' inputStr)]
    /\ form_message f' = Some prompt /\ form_action f' = Some inputStr
    /\ form_auth_id f' = Some "_challenge"
    /\ form_opts f' = set_opt_type user OC_FORM_OPT_HIDDEN :: secret' :: rest
    /\ opt_name secret' = opt_name secret
    /\ opt_label secret' = Some "Challenge: "
    /\ opt_value secret' = None
    /\ opt_choices secret' = opt_choices secret
    /\ (opt_type secret' = OC_FORM_OPT_TOKEN
        \/ opt_type secret' = OC_FORM_OPT_PASSWORD)
    /\ (opt_type secret <> OC_FORM_OPT_PASSWORD ->
        opt_type secret' = OC_FORM_OPT_PASSWORD)
    /\ ((forall g o, can_gen_tokencode vpninfo g o = 0) ->
        opt_type secret = OC_FORM_OPT_PASSWORD ->
        opt_type secret' = OC_FORM_OPT_TOKEN)
    /\ ((forall g o, can_gen_tokencode vpninfo g o <> 0) ->
        opt_type secret' = OC_FORM_OPT_PASSWORD).
Proof.
  intros Hf Hopts. unfold challenge_cb. rewrite Hf, Hopts.
  do 3 eexists. split; [reflexivity|].
  cbn [cb_ret cb_vpninfo cb_data cb_log form_message form_action form_auth_id
       form_opts].
  do 8 (split; [reflexivity|]).
  unfold challenge_secret_type.
  replace (opt_type (set_opt_label (set_opt_value secret None) None))
    with (opt_type secret) by now destruct secret.
  set (answer := can_gen_tokencode vpninfo _ _).
  assert (Hanswer : (forall g o, can_gen_tokencode vpninfo g o = 0) -> answer = 0)
    by (intros H; apply H).
  assert (Hrefuse : (forall g o, can_gen_tokencode vpninfo g o <> 0) -> answer <> 0)
    by (intros H; apply H).
  clearbody answer.
  destruct secret as [type name label value choices].
  cbn [set_opt_label set_opt_type set_opt_value opt_name opt_label opt_value
       opt_choices opt_type].
  do 4 (split; [reflexivity|]).
  set (pw := match type with OC_FORM_OPT_PASSWORD => true | _ => false end).
  assert (Hpw : pw = true <-> type = OC_FORM_OPT_PASSWORD)
    by (subst pw; destruct type; split; congruence).
  destruct (Z.eqb_spec answer 0) as [E|E]; destruct pw; cbn [andb].
  - split; [now left|]. split; [intros Hne; now contradiction Hne; apply Hpw|].
    split; [reflexivity|]. intros H. now contradiction (Hrefuse H).
  - split; [now right|]. split; [reflexivity|]. split; [|reflexivity].
    intros _ Ht. apply Hpw in Ht. discriminate.
  - split; [now right|]. split; [reflexivity|]. split; [|reflexivity].
    intros H. now contradiction (E (Hanswer H)).
  - split; [now right|]. split; [reflexivity|]. split; [|reflexivity].
    intros H. now contradiction (E (Hanswer H)).
Qed.

(** X9: whatever [can_gen_tokencode] answers, every challenge returns
    [-EAGAIN], keeps the session, hides the user field, clears the value of
    the secret, labels it ["Challenge: "], keeps the other fields and the
    rest of the callback data, and sets message, action and auth_id from its
    arguments; two challenges in a row each do so.  The secret comes out as a
    token or a password field.  When [can_gen_tokencode] returns 0 for the
    session, a password secret becomes a token field and the next challenge
    makes it a password field again; when it never returns 0, the secret is a
    password field after every challenge. *)
Theorem challenge_cb_twice (vpninfo : openconnect_info)
        (prompt1 input1 prompt2 input2 : string) (ctx : login_context)
        (f : oc_auth_form) (user secret : oc_form_opt) (rest : list oc_form_opt) :
  form ctx = Some f ->
  form_opts f = user :: secret :: rest ->
  exists r1 r2 f1 f2 secret1 secret2,
    challenge_cb vpninfo prompt1 input1 ctx = Some r1
    /\ challenge_cb vpninfo prompt2 input2 (cb_data r1) = Some r2
    /\ cb_ret r1 = - EAGAIN /\ cb_ret r2 = - EAGAIN
    /\ cb_vpninfo r1 = vpninfo /\ cb_vpninfo r2 = vpninfo
    /\ cb_data r1 = set_form ctx (Some f1)
    /\ cb_data r2 = set_form ctx (Some f2)
    /\ form_opts f1 = set_opt_type user OC_FORM_OPT_HIDDEN :: secret1 :: rest
    /\ form_opts f2 = set_opt_type user OC_FORM_OPT_HIDDEN :: secret2 :: rest
    /\ opt_value secret1 = None /\ opt_value secret2 = None
    /\ opt_name secret1 = opt_name secret /\ opt_name secret2 = opt_name secret
    /\ opt_label secret1 = Some "Challenge: "
    /\ opt_label secret2 = Some "Challenge: "
    /\ form_message f1 = Some prompt1 /\ form_action f1 = Some input1
    /\ form_message f2 = Some prompt2 /\ form_action f2 = Some input2
    /\ form_auth_id f1 = Some "_challenge" /\ form_auth_id f2 = Some "_challenge"
    /\ (opt_type secret1 = OC_FORM_OPT_TOKEN
        \/ opt_type secret1 = OC_FORM_OPT_PASSWORD)
    /\ (opt_type secret2 = OC_FORM_OPT_TOKEN
        \/ opt_type secret2 = OC_FORM_OPT_PASSWORD)
    /\ ((forall g o, can_gen_tokencode vpninfo g o = 0) ->
        opt_type secret = OC_FORM_OPT_PASSWORD ->
        opt_type secret1 = OC_FORM_OPT_TOKEN
        /\ opt_type secret2 = OC_FORM_OPT_PASSWORD)
    /\ ((forall g o, can_gen_tokencode vpninfo g o = 0) ->
        opt_type secret <> OC_FORM_OPT_PASSWORD ->
        opt_type secret1 = OC_FORM_OPT_PASSWORD
        /\ opt_type secret2 = OC_FORM_OPT_TOKEN)
    /\ ((forall g o, can_gen_tokencode vpninfo g o <> 0) ->
        opt_type secret1 = OC_FORM_OPT_PASSWORD
        /\ opt_type secret2 = OC_FORM_OPT_PASSWORD).
Proof.
  intros Hf Hopts.
  destruct (challenge_cb_form vpninfo prompt1 input1 ctx f user secret rest
              Hf Hopts)
    as (r1 & f1 & secret1 & Hr1 & Hret1 & Hv1 & Hd1 & _ & Hm1 & Ha1 & Hi1
        & Ho1 & Hn1 & Hl1 & Hval1 & _ & Hk1 & Hp1 & Hz1 & Hnz1).
  assert (Hf1 : form (cb_data r1) = Some f1) by now rewrite Hd1.
  assert (Hopts1 : form_opts f1
                   = set_opt_type (set_opt_type user OC_FORM_OPT_HIDDEN)
                                  OC_FORM_OPT_HIDDEN :: secret1 :: rest)
    by (rewrite Ho1; now destruct user).
  destruct (challenge_cb_form vpninfo prompt2 input2 (cb_data r1) f1
              (set_opt_type user OC_FORM_OPT_HIDDEN) secret1 rest Hf1 Ho1)
    as (r2 & f2 & secret2 & Hr2 & Hret2 & Hv2 & Hd2 & _ & Hm2 & Ha2 & Hi2
        & Ho2 & Hn2 & Hl2 & Hval2 & _ & Hk2 & Hp2 & Hz2 & Hnz2).
  clear Hopts1.
  exists r1, r2, f1, f2, secret1, secret2.
  split; [exact Hr1|]. split; [exact Hr2|]. split; [exact Hret1|].
  split; [exact Hret2|]. split; [exact Hv1|]. split; [exact Hv2|].
  split; [exact Hd1|].
  split; [rewrite Hd2, Hd1; now destruct ctx|].
  split; [exact Ho1|].
  split; [rewrite Ho2; now destruct user|].
  split; [exact Hval1|]. split; [exact Hval2|]. split; [exact Hn1|].
  split; [now rewrite Hn2|]. split; [exact Hl1|]. split; [exact Hl2|].
  split; [exact Hm1|]. split; [exact Ha1|]. split; [exact Hm2|].
  split; [exact Ha2|]. split; [exact Hi1|]. split; [exact Hi2|].
  split; [exact Hk1|]. split; [exact Hk2|].
  split; [|split].
  - intros Hzero Hpw. pose proof (Hz1 Hzero Hpw) as Ht1.
    split; [exact Ht1|]. apply Hp2. rewrite Ht1. discriminate.
  - intros Hzero Hpw. pose proof (Hp1 Hpw) as Ht1.
    split; [exact Ht1|]. now apply Hz2.
  - intros Hrefuse. split; [now apply Hnz1 | now apply Hnz2].
Qed.

(** X10: a form built by [parse_prelogin_xml] is one [challenge_cb] can
    work on: it has its two fields, so the challenge that follows never
    dereferences a null pointer.  The challenge form keeps the names of both
    fields, hides the user field with the username that was in the callback
    data, and asks for the secret under ["Challenge: "]. *)
Theorem challenge_cb_after_prelogin (vpninfo vpninfo' : openconnect_info)
        (xml_node : xmlNode) (ctx : login_context) (prompt inputStr : string) :
  xmlnode_is_named xml_node "prelogin-response" = true ->
  cb_ret (parse_prelogin_xml vpninfo xml_node ctx) = 0 ->
  exists r f user secret,
    challenge_cb vpninfo' prompt inputStr
                 (cb_data (parse_prelogin_xml vpninfo xml_node ctx)) = Some r
    /\ cb_ret r = - EAGAIN
    /\ form (cb_data r) = Some f
    /\ form_opts f = [user; secret]
    /\ opt_name user = Some "user"
    /\ opt_type user = OC_FORM_OPT_HIDDEN
    /\ opt_value user = username ctx
    /\ opt_name secret = Some (or_else (alt_secret ctx) "passwd")
    /\ opt_label secret = Some "Challenge: "
    /\ opt_value secret = None
    /\ username (cb_data r) = None.
Proof.
  intros Hroot. unfold parse_prelogin_xml. rewrite Hroot. cbn [negb].
  destruct (scan_prelogin (xml_children xml_node) prelogin_scan_init) as [s|sc];
    [discriminate|].
  destruct (saml_gate ctx sc) as [log|log]; [|discriminate]. intros _.
  cbn [cb_data]. unfold challenge_cb, prelogin_form.
  cbn [form set_username set_form form_opts].
  do 4 eexists. split; [reflexivity|]. repeat split; reflexivity.
Qed.

(** ** The portal configuration *)

Lemma scan_hip_frame (l : list xmlNode) : forall sc,
  ps_ctx (fold_left scan_hip l sc) = ps_ctx sc
  /\ ps_vpninfo (fold_left scan_hip l sc)
     = set_trojan_interval (ps_vpninfo sc)
         (trojan_interval (ps_vpninfo (fold_left scan_hip l sc)))
  /\ (trojan_interval (ps_vpninfo sc) <> 0 ->
      ps_vpninfo (fold_left scan_hip l sc) = ps_vpninfo sc).
Proof.
  induction l as [|x l IH]; intros sc; cbn [fold_left].
  - repeat split; auto. now destruct (ps_vpninfo sc).
  - destruct (IH (scan_hip sc x)) as (Hc & Hv & Hk). unfold scan_hip in *.
    destruct (xmlnode_get_val x "hip-report-interval") as [h|]; [|now repeat split].
    destruct (trojan_interval (ps_vpninfo sc) =? 0) eqn:Ez; cbn [negb] in *;
      cbn [ps_ctx ps_vpninfo] in *.
    + split; [exact Hc|]. split.
      * rewrite Hv at 1. now destruct (ps_vpninfo sc).
      * intros Hne. apply Z.eqb_eq in Ez. contradiction.
    + split; [exact Hc|]. split; [exact Hv|]. intros Hne. now apply Hk.
Qed.

Lemma scan_cookie_kept (x : xmlNode) (name : string) (old : cstr) :
  cookie_kept old (scan_cookie x name old) \/ scan_cookie x name old = None.
Proof.
  unfold scan_cookie, cookie_kept.
  destruct (xmlnode_get_val x name) as [c|]; [|now left; left].
  destruct (empty_cookie c) eqn:E; [now right|].
  left. right. now exists c.
Qed.

Lemma cookie_kept_trans (a b c : cstr) :
  cookie_kept a b \/ b = None ->
  cookie_kept b c \/ c = None ->
  cookie_kept a c \/ c = None.
Proof.
  unfold cookie_kept. intros [[-> | (x & -> & Hx)] | ->] [[-> | (y & -> & Hy)] | ->];
    try (now right); try (now left; left).
  - left. right. now exists y.
  - left. right. now exists x.
  - left. right. now exists y.
  - left. right. now exists y.
Qed.

Lemma portal_ctx_kept_refl (ctx : login_context) : portal_ctx_kept ctx ctx.
Proof. unfold portal_ctx_kept, cookie_kept. repeat split; now left; left. Qed.

Lemma portal_ctx_kept_trans (a b c : login_context) :
  portal_ctx_kept a b -> portal_ctx_kept b c -> portal_ctx_kept a c.
Proof.
  intros (Hu & Ha & Hf & Hp & Hq) (Hu' & Ha' & Hf' & Hp' & Hq').
  unfold portal_ctx_kept. repeat split; try congruence.
  - exact (cookie_kept_trans _ _ _ Hp Hp').
  - exact (cookie_kept_trans _ _ _ Hq Hq').
Qed.

Lemma scan_policy_child_frame (sc : portal_scan) (x : xmlNode) :
  portal_ctx_kept (ps_ctx sc) (ps_ctx (scan_policy_child sc x))
  /\ ps_vpninfo (scan_policy_child sc x)
     = set_trojan_interval (ps_vpninfo sc)
         (trojan_interval (ps_vpninfo (scan_policy_child sc x)))
  /\ (trojan_interval (ps_vpninfo sc) <> 0 ->
      ps_vpninfo (scan_policy_child sc x) = ps_vpninfo sc).
Proof.
  unfold scan_policy_child.
  destruct (xmlnode_is_named x "gateways").
  - cbn [ps_ctx ps_vpninfo]. split; [apply portal_ctx_kept_refl|].
    split; [now destruct (ps_vpninfo sc) | reflexivity].
  - destruct (xmlnode_is_named x "hip-collection").
    + destruct (scan_hip_frame (xml_children x) sc) as (Hc & Hv & Hk).
      rewrite Hc. split; [apply portal_ctx_kept_refl|]. now split.
    + cbn [ps_ctx ps_vpninfo]. split.
      * unfold portal_ctx_kept.
        cbn [set_portal_userauthcookie set_portal_prelogonuserauthcookie
             username alt_secret form portal_userauthcookie
             portal_prelogonuserauthcookie].
        repeat split; apply scan_cookie_kept.
      * split; [now destruct (ps_vpninfo sc) | reflexivity].
Qed.

Lemma scan_policy_frame (l : list xmlNode) : forall sc,
  portal_ctx_kept (ps_ctx sc) (ps_ctx (fold_left scan_policy_child l sc))
  /\ ps_vpninfo (fold_left scan_policy_child l sc)
     = set_trojan_interval (ps_vpninfo sc)
         (trojan_interval (ps_vpninfo (fold_left scan_policy_child l sc)))
  /\ (trojan_interval (ps_vpninfo sc) <> 0 ->
      ps_vpninfo (fold_left scan_policy_child l sc) = ps_vpninfo sc).
Proof.
  induction l as [|x l IH]; intros sc; cbn [fold_left].
  - split; [apply portal_ctx_kept_refl|].
    split; [now destruct (ps_vpninfo sc) | reflexivity].
  - destruct (IH (scan_policy_child sc x)) as (Hc & Hv & Hk).
    destruct (scan_policy_child_frame sc x) as (Hc1 & Hv1 & Hk1).
    split; [exact (portal_ctx_kept_trans _ _ _ Hc1 Hc)|]. split.
    + rewrite Hv at 1. rewrite Hv1. now destruct (ps_vpninfo sc).
    + intros Hne. rewrite Hk; rewrite Hk1; auto.
Qed.

Lemma scan_portal_frame (vpninfo : openconnect_info) (xml_node : xmlNode)
      (ctx : login_context) :
  portal_ctx_kept ctx (ps_ctx (scan_portal vpninfo xml_node ctx))
  /\ ps_vpninfo (scan_portal vpninfo xml_node ctx)
     = set_trojan_interval vpninfo
         (trojan_interval (ps_vpninfo (scan_portal vpninfo xml_node ctx)))
  /\ (trojan_interval vpninfo <> 0 ->
      ps_vpninfo (scan_portal vpninfo xml_node ctx) = vpninfo).
Proof.
  unfold scan_portal. destruct (xmlnode_is_named xml_node "policy").
  - apply (scan_policy_frame (xml_children xml_node)
             {| ps_gateways := None; ps_portal := None; ps_hip_interval := None;
                ps_vpninfo := vpninfo; ps_ctx := ctx; ps_log := [] |}).
  - cbn [ps_ctx ps_vpninfo]. split; [apply portal_ctx_kept_refl|].
    split; [now destruct vpninfo | reflexivity].
Qed.

Lemma portal_select_data (w w' : world) (vpninfo : openconnect_info)
      (ctx : login_context) (log : list progress) (f : oc_auth_form)
      (r : cb_result login_context) :
  portal_select w vpninfo ctx log f = Some (r, w') ->
  cb_data r = ctx /\ cb_log r = log.
Proof.
  unfold portal_select, portal_out.
  destruct (process_auth_form w vpninfo (Some f)) as [[[result v1] f1] w1].
  destruct ((result =? OC_FORM_RESULT_CANCELLED) || (result <? 0)).
  - intros [= <- _]. now split.
  - destruct (handle_redirect w1 _) as [[result2 v2] w2].
    intros [= <- _]. now split.
Qed.

Lemma portal_present_data (w w' : world) (vpninfo : openconnect_info)
      (ctx : login_context) (gl : gateway_list) (r : cb_result login_context) :
  portal_present w vpninfo ctx gl = Some (r, w') ->
  cb_data r = ctx
  /\ cb_log r = gl_log gl
               ++ match gl_choices gl with
                  | [] => [(PRG_ERR, Msg_no_gateways)]
                  | _ => []
                  end.
Proof.
  unfold portal_present, portal_out.
  destruct (gl_choices gl) as [|first rest].
  - intros [= <- _]. now split.
  - rewrite app_nil_r.
    destruct (match authgroup vpninfo with
              | Some _ => Some vpninfo
              | None => match choice_name first with
                        | Some n => Some (set_authgroup vpninfo (Some n))
                        | None => None
                        end
              end) as [v|]; [|discriminate].
    destruct (has_write_new_config v); [|apply portal_select_data].
    destruct (negb (buf_error _ =? 0)); [intros [= <- _]; now split|].
    destruct (write_new_config w _) as [result w1].
    destruct (negb (result =? 0)); [intros [= <- _]; now split|].
    apply portal_select_data.
Qed.

(** X11: whatever the portal answers, [parse_portal_xml] leaves the
    username, the alternate secret and the form of the callback data as they
    were.  Each of the two portal cookies afterwards is the one held before,
    or a value from the document that is neither the empty text nor
    ["empty"], or it is cleared. *)
Theorem parse_portal_xml_context (w w' : world) (vpninfo : openconnect_info)
        (xml_node : xmlNode) (ctx : login_context)
        (r : cb_result login_context) :
  parse_portal_xml w vpninfo xml_node ctx = Some (r, w') ->
  username (cb_data r) = username ctx
  /\ alt_secret (cb_data r) = alt_secret ctx
  /\ form (cb_data r) = form ctx
  /\ (forall c, portal_userauthcookie (cb_data r) = Some c ->
                portal_userauthcookie ctx = Some c
                \/ (c <> "" /\ c <> "empty"))
  /\ (forall c, portal_prelogonuserauthcookie (cb_data r) = Some c ->
                portal_prelogonuserauthcookie ctx = Some c
                \/ (c <> "" /\ c <> "empty")).
Proof.
  intros H.
  assert (Hd : cb_data r = ps_ctx (scan_portal vpninfo xml_node ctx)).
  { unfold parse_portal_xml in H.
    destruct (ps_gateways (scan_portal vpninfo xml_node ctx)).
    - now apply portal_present_data in H.
    - unfold portal_out in H. now injection H as <- _. }
  destruct (scan_portal_frame vpninfo xml_node ctx) as ((Hu & Ha & Hf & Hp & Hq) & _).
  rewrite Hd.
  assert (Hcookie : forall old new c,
             cookie_kept old new \/ new = None -> new = Some c ->
             old = Some c \/ (c <> "" /\ c <> "empty")).
  { intros old new c [[-> | (c' & -> & He)] | ->] Hc; [now left| |discriminate].
    injection Hc as ->. right. unfold empty_cookie in He.
    apply orb_false_elim in He as [He1 He2].
    unfold streq in *.
    split; intros ->; [now rewrite String.eqb_refl in He1
                      | now rewrite String.eqb_refl in He2]. }
  repeat split; auto; intros c Hc; eapply Hcookie; eauto.
Qed.

(** X12: the scan of the portal's policy changes nothing of the session
    but the HIP report interval, and an interval that is already set (not
    zero) is never replaced by the portal's. *)
Theorem scan_portal_hip_interval (vpninfo : openconnect_info)
        (xml_node : xmlNode) (ctx : login_context) :
  let vpninfo' := ps_vpninfo (scan_portal vpninfo xml_node ctx) in
  vpninfo' = set_trojan_interval vpninfo (trojan_interval vpninfo')
  /\ (trojan_interval vpninfo <> 0 -> vpninfo' = vpninfo).
Proof. intros v. subst v. apply scan_portal_frame. Qed.

Lemma scan_entry_log (write : bool) (l : list xmlNode) : forall gl,
  gl_log (fold_left (scan_entry write) l gl)
  = gl_log gl
    ++ map gateway_line
           (map entry_choice (filter (fun x => xmlnode_is_named x "entry") l)).
Proof.
  induction l as [|x l IH]; intros gl; cbn [fold_left filter map].
  - now rewrite app_nil_r.
  - rewrite IH. unfold scan_entry.
    destruct (xmlnode_is_named x "entry"); [|reflexivity].
    pose proof (scan_description_label write (xmlnode_get_prop x "name")
                  (xml_children x) (None, gl_buf gl)) as Hl.
    destruct (fold_left (scan_description write (xmlnode_get_prop x "name"))
                        (xml_children x) (None, gl_buf gl)) as [label buf].
    cbn [fst] in Hl. cbn [gl_log map]. rewrite <- app_assoc. cbn [app].
    unfold gateway_line, entry_choice, last_opt, descriptions.
    cbn [choice_label choice_name]. now rewrite Hl.
Qed.

(** X13: when the portal's configuration has a gateway list,
    [parse_portal_xml] announces as many gateways as it offers choices, and
    prints one line for each choice, in the order of the choices, right
    after the announcement; when there is no choice the next and last line
    is the complaint that no gateway is listed. *)
Theorem parse_portal_xml_report (w w' : world) (vpninfo : openconnect_info)
        (xml_node : xmlNode) (ctx : login_context) (gateways : xmlNode)
        (r : cb_result login_context) :
  last_opt (gateway_lists xml_node) = Some gateways ->
  parse_portal_xml w vpninfo xml_node ctx = Some (r, w') ->
  cb_log r
  = ps_log (scan_portal vpninfo xml_node ctx)
    ++ (PRG_INFO,
        Msg_gateways_available (Z.of_nat (length (gateway_choices gateways))))
    :: map gateway_line (gateway_choices gateways)
    ++ match gateway_choices gateways with
       | [] => [(PRG_ERR, Msg_no_gateways)]
       | _ => []
       end.
Proof.
  intros Hg H. unfold parse_portal_xml in H.
  rewrite scan_portal_gateways, Hg in H.
  apply portal_present_data in H as [_ ->].
  rewrite gateway_entries_choices. unfold gateway_entries.
  rewrite scan_entry_log. cbn [gl_log]. unfold gateway_choices, count_entries.
  rewrite length_map, <- !app_assoc. reflexivity.
Qed.

(** X14: [parse_portal_xml] runs into a null pointer in one case only: the
    session names no gateway ([authgroup] is null) and the first entry of
    the gateway list has no [name] attribute, which line 537 hands to
    [strdup]. *)
Theorem parse_portal_xml_null_name (w : world) (vpninfo : openconnect_info)
        (xml_node : xmlNode) (ctx : login_context) :
  parse_portal_xml w vpninfo xml_node ctx = None <->
  authgroup vpninfo = None
  /\ exists gateways first rest,
       last_opt (gateway_lists xml_node) = Some gateways
       /\ gateway_choices gateways = first :: rest
       /\ choice_name first = None.
Proof.
  unfold parse_portal_xml. rewrite scan_portal_gateways.
  destruct (scan_portal_frame vpninfo xml_node ctx) as (_ & Hv & _).
  assert (Ha : authgroup (ps_vpninfo (scan_portal vpninfo xml_node ctx))
               = authgroup vpninfo) by now rewrite Hv.
  destruct (last_opt (gateway_lists xml_node)) as [gateways|].
  - unfold portal_present. rewrite gateway_entries_choices, Ha.
    destruct (gateway_choices gateways) as [|first rest] eqn:Ec.
    + split; [discriminate|]. intros (_ & g & f & l & [= <-] & Hc & _).
      congruence.
    + destruct (authgroup vpninfo) as [a|].
      * split; [|intros [? _]; discriminate].
        destruct (has_write_new_config _); unfold portal_select, portal_out.
        -- destruct (negb (buf_error _ =? 0)); [discriminate|].
           destruct (write_new_config w _) as [result w1].
           destruct (negb (result =? 0)); [discriminate|].
           destruct (process_auth_form w1 _ _) as [[[r1 v1] f1] w2].
           destruct ((r1 =? OC_FORM_RESULT_CANCELLED) || (r1 <? 0)); [discriminate|].
           destruct (handle_redirect w2 _) as [[r2 v2] w3]. discriminate.
        -- destruct (process_auth_form w _ _) as [[[r1 v1] f1] w2].
           destruct ((r1 =? OC_FORM_RESULT_CANCELLED) || (r1 <? 0)); [discriminate|].
           destruct (handle_redirect w2 _) as [[r2 v2] w3]. discriminate.
      * destruct (choice_name first) as [n|] eqn:En.
        -- split; [|intros (_ & g & f & l & [= <-] & Hc & Hn); congruence].
           destruct (has_write_new_config _); unfold portal_select, portal_out.
           ++ destruct (negb (buf_error _ =? 0)); [discriminate|].
              destruct (write_new_config w _) as [result w1].
              destruct (negb (result =? 0)); [discriminate|].
              destruct (process_auth_form w1 _ _) as [[[r1 v1] f1] w2].
              destruct ((r1 =? OC_FORM_RESULT_CANCELLED) || (r1 <? 0)); [discriminate|].
              destruct (handle_redirect w2 _) as [[r2 v2] w3]. discriminate.
           ++ destruct (process_auth_form w _ _) as [[[r1 v1] f1] w2].
              destruct ((r1 =? OC_FORM_RESULT_CANCELLED) || (r1 <? 0)); [discriminate|].
              destruct (handle_redirect w2 _) as [[r2 v2] w3]. discriminate.
        -- split; [|reflexivity]. intros _. split; [reflexivity|].
           now exists gateways, first, rest.
  - unfold portal_out. split; [discriminate|].
    intros (_ & g & f & l & Hg & _). discriminate.
Qed.

(** ** The login loop, further *)










Lemma login_after_submit_success (result : Z) (st : login_state) :
  fst (login_after_submit result st) = At_out 0 ->
  ls_portal st = false
  /\ ls_portal (snd (login_after_submit result st)) = false
  /\ username (ls_ctx (snd (login_after_submit result st))) <> None
  /\ exists saved,
       ls_trace (snd (login_after_submit result st)) = ls_trace st ++ saved.
Proof.
  unfold login_after_submit.
  destruct (result =? - EACCES).
  - destruct (form (ls_ctx st)); [|discriminate].
    destruct (negb (ls_blind_retry st)); discriminate.
  - destruct (save_username (ls_ctx st)) as [[ctx saved]|] eqn:Hs; [|discriminate].
    apply save_username_events in Hs as (_ & Hu & _).
    destruct (result =? - EAGAIN); [discriminate|].
    destruct (ls_portal st) eqn:Hp; cbn [andb].
    + destruct (result =? 0) eqn:Hr.
      * destruct (may_retry_blindly ctx) as [[|]|]; discriminate.
      * cbn [login_goto fst]. intros [= E]. rewrite E in Hr. discriminate.
    + cbn [login_goto fst snd ls_portal ls_ctx ls_trace]. intros _.
      repeat split; try assumption. now exists saved.
Qed.

Ltac result_not_zero :=
  repeat match goal with
         | H : (_ =? _) = false |- _ => apply Z.eqb_neq in H
         | H : negb (_ =? _) = true |- _ => apply negb_true_iff in H
         | H : (_ >=? _) = false |- _ => rewrite Z.geb_leb in H; apply Z.leb_gt in H
         end;
  lia.

Lemma gpst_login_step_success (pc : login_pc) (st : login_state) :
  pc <> At_out 0 ->
  fst (gpst_login_step pc st) = At_out 0 ->
  logged_in (snd (gpst_login_step pc st)).
Proof.
  intros Hpc. destruct pc; cbn [gpst_login_step fst snd];
    try (intros E; congruence).
  - unfold login_prelogin. break_step; cbn [fst]; try discriminate;
      intros [= E]; result_not_zero.
  - unfold login_got_form. break_step; cbn [fst]; try discriminate;
      intros [= E]; result_not_zero.
  - unfold login_replay_form. break_step; cbn [fst]; try discriminate;
      try (intros [= E]; result_not_zero).
    all: match goal with
         | |- fst (login_after_submit ?r ?s) = _ -> _ =>
             intros E;
             destruct (login_after_submit_success r s E)
               as (Hp & Hq & Hu & saved & Ht);
             cbn [ls_portal ls_trace] in Hp, Ht;
             split; [exact Hq|]; split; [exact Hu|];
             try discriminate Hp;
             exists (ls_blind_retry st); rewrite Ht; try rewrite Hp;
             apply in_or_app; left; apply in_or_app; right; now left
         end.
Qed.

Lemma gpst_login_run_success (fuel : nat) : forall pc st,
  (pc = At_out 0 -> logged_in st) ->
  fst (gpst_login_run fuel pc st) = At_out 0 ->
  logged_in (snd (gpst_login_run fuel pc st)).
Proof.
  induction fuel as [|fuel IH]; intros pc st H; cbn [gpst_login_run fst snd];
    [exact H|].
  assert (Hdec : pc = At_out 0 \/ pc <> At_out 0).
  { destruct pc; try (right; discriminate).
    destruct (Z.eq_dec result 0) as [-> | Hne]; [now left|].
    right. intros [= E]. contradiction. }
  destruct Hdec as [-> | Hne].
  - cbn [gpst_login_step]. apply IH. exact H.
  - pose proof (gpst_login_step_success pc st Hne) as Hs.
    destruct (gpst_login_step pc st) as [pc' st']. cbn [fst snd] in Hs.
    apply IH. intros ->. now apply Hs.
Qed.

Lemma gpst_login_logged_in (fuel : nat) (portal : bool) (st : login_state) :
  fst (gpst_login fuel portal st) = At_out 0 ->
  logged_in (snd (gpst_login fuel portal st)).
Proof. unfold gpst_login. apply gpst_login_run_success. discriminate. Qed.

(** X16: [gpst_login] returns 0 in gateway mode only, also when it was
    called in portal mode: by then it has submitted a form to the gateway's
    login endpoint and a username is saved in the callback data. *)
Theorem gpst_login_success (fuel : nat) (portal : bool) (st st' : login_state) :
  gpst_login fuel portal st = (At_out 0, st') ->
  ls_portal st' = false
  /\ username (ls_ctx st') <> None
  /\ exists blind_retry, In (Ev_submit false blind_retry) (ls_trace st').
Proof.
  intros H. pose proof (gpst_login_logged_in fuel portal st) as L.
  rewrite H in L. exact (L eq_refl).
Qed.

Lemma prelogin_response_alt_secret (w w' : world) (vpninfo : openconnect_info)
      (response : cstr) (ctx : login_context) (r : cb_result login_context) :
  gpst_xml_or_error w vpninfo response (Some prelogin_cb) None ctx = Some (r, w') ->
  alt_secret (cb_data r) = alt_secret ctx.
Proof.
  unfold gpst_xml_or_error, prelogin_cb.
  destruct (gpst_classify response) as [e|root|p i]; intros [= <- _];
    try reflexivity.
  unfold parse_prelogin_xml.
  destruct (negb (xmlnode_is_named root "prelogin-response")); [reflexivity|].
  destruct (scan_prelogin (xml_children root) prelogin_scan_init); [reflexivity|].
  now destruct (saml_gate ctx p).
Qed.

Lemma submit_response_alt_secret (portal : bool) (w w' : world)
      (vpninfo : openconnect_info) (response : cstr) (ctx : login_context)
      (r : cb_result login_context) :
  gpst_xml_or_error w vpninfo response
    (Some (if portal then parse_portal_xml else login_cb)) (Some challenge_cb) ctx
  = Some (r, w') ->
  alt_secret (cb_data r) = alt_secret ctx.
Proof.
  unfold gpst_xml_or_error.
  destruct (gpst_classify response) as [e|root|p i].
  - now intros [= <- _].
  - destruct portal.
    + intros H.
      assert (Hd : cb_data r = ps_ctx (scan_portal vpninfo root ctx)).
      { unfold parse_portal_xml in H.
        destruct (ps_gateways (scan_portal vpninfo root ctx)).
        - now apply portal_present_data in H.
        - unfold portal_out in H. now injection H as <- _. }
      rewrite Hd. apply (scan_portal_frame vpninfo root ctx).
    + unfold login_cb.
      destruct (parse_login_xml vpninfo root ctx) as [r0|] eqn:Hp; [|discriminate].
      intros [= <- _]. now rewrite (parse_login_xml_data _ _ _ _ Hp).
  - unfold challenge_cb.
    destruct (form ctx) as [f|]; [|discriminate].
    destruct (form_opts f) as [|o [|o2 rest]]; try discriminate.
    now intros [= <- _].
Qed.

Lemma login_after_submit_alt_secret (result : Z) (st : login_state) :
  alt_secret (ls_ctx (snd (login_after_submit result st)))
  = alt_secret (ls_ctx st).
Proof.
  unfold login_after_submit.
  destruct (result =? - EACCES).
  - destruct (form (ls_ctx st)); [|reflexivity].
    now destruct (negb (ls_blind_retry st)).
  - destruct (save_username (ls_ctx st)) as [[ctx saved]|] eqn:Hs; [|reflexivity].
    assert (Ha : alt_secret ctx = alt_secret (ls_ctx st)).
    { unfold save_username in Hs.
      destruct (username (ls_ctx st)); [now injection Hs as <- _|].
      destruct (form (ls_ctx st)) as [f|]; [|discriminate].
      destruct (form_opts f) as [|o rest]; [discriminate|].
      destruct (opt_value o); [|discriminate]. now injection Hs as <- _. }
    destruct (result =? - EAGAIN); [exact Ha|].
    destruct (ls_portal st && (result =? 0)); [|exact Ha].
    now destruct (may_retry_blindly ctx) as [[|]|].
Qed.

Lemma gpst_login_step_alt_secret (pc : login_pc) (st : login_state) :
  alt_secret (ls_ctx (snd (gpst_login_step pc st))) = alt_secret (ls_ctx st).
Proof.
  destruct pc; cbn [gpst_login_step snd]; try reflexivity.
  - unfold login_prelogin. break_step; cbn [snd ls_ctx]; try reflexivity.
    match goal with
    | H : gpst_xml_or_error _ _ _ _ _ _ = Some _ |- _ =>
        exact (prelogin_response_alt_secret _ _ _ _ _ _ H)
    end.
  - unfold login_got_form. break_step. reflexivity.
  - unfold login_replay_form. break_step;
      cbn [snd ls_ctx set_form alt_secret]; try reflexivity.
    all: rewrite login_after_submit_alt_secret;
      cbn [ls_ctx set_form alt_secret]; try reflexivity.
    all: match goal with
         | H : gpst_xml_or_error _ _ _ _ _ _ = Some _ |- _ =>
             first [ exact (submit_response_alt_secret _ _ _ _ _ _ _ H)
                   | exact (submit_response_alt_secret true _ _ _ _ _ _ H)
                   | exact (submit_response_alt_secret false _ _ _ _ _ _ H) ]
         end.
Qed.

Lemma gpst_login_run_alt_secret (fuel : nat) : forall pc st,
  alt_secret (ls_ctx (snd (gpst_login_run fuel pc st))) = alt_secret (ls_ctx st).
Proof.
  induction fuel as [|fuel IH]; intros pc st; cbn [gpst_login_run snd];
    [reflexivity|].
  pose proof (gpst_login_step_alt_secret pc st) as Hs.
  destruct (gpst_login_step pc st) as [pc' st']. cbn [snd] in Hs.
  now rewrite IH.
Qed.

(** ** [gpst_obtain_cookie], further *)

Lemma strrchr_colon_no_colon (s : string) :
  strrchr_colon s = None <-> no_colon s = true.
Proof.
  unfold no_colon. induction s as [|c s IH];
    cbn [strrchr_colon list_ascii_of_string forallb]; [now split|].
  destruct (strrchr_colon s) as [[a b]|].
  - split; [discriminate|]. intros H. apply andb_true_iff in H as [_ H].
    apply IH in H. discriminate.
  - destruct (Ascii.eqb c ":"%char); cbn [negb andb]; [now split|].
    split; [intros _; now apply IH | reflexivity].
Qed.

Lemma strrchr_colon_split (s : string) : forall a b,
  strrchr_colon s = Some (a, b) ->
  s = (a ++ ":" ++ b)%string /\ no_colon b = true.
Proof.
  induction s as [|c s IH]; intros a b; cbn [strrchr_colon]; [discriminate|].
  destruct (strrchr_colon s) as [[a' b']|] eqn:Es.
  - intros [= <- <-]. destruct (IH a' b' eq_refl) as [-> Hb]. now split.
  - destruct (Ascii.eqb_spec c ":"%char) as [-> | Hne]; [|discriminate].
    intros [= <- <-]. split; [reflexivity | now apply strrchr_colon_no_colon].
Qed.

Lemma strrchr_colon_last (a b : string) :
  no_colon b = true -> strrchr_colon (a ++ ":" ++ b) = Some (a, b).
Proof.
  intros Hb. apply strrchr_colon_no_colon in Hb.
  induction a as [|c a IH]; cbn [String.append strrchr_colon].
  - now rewrite Hb.
  - cbn [String.append] in IH. now rewrite IH.
Qed.

(** X18: [gpst_obtain_cookie] splits the path at its last colon.  A path
    [a:b] where [b] has no colon leaves the path [a] in the session and
    [b] as the alternate secret; a path without a colon is left alone and
    gives no alternate secret.  The callback data starts with nothing else
    set. *)
Theorem obtain_cookie_init_split (w : world) (vpninfo : openconnect_info)
        (p : string) :
  urlpath vpninfo = Some p ->
  let st := obtain_cookie_init w vpninfo in
  (forall a b, p = (a ++ ":" ++ b)%string -> no_colon b = true ->
               ls_vpninfo st = set_urlpath vpninfo (Some a)
               /\ alt_secret (ls_ctx st) = Some b)
  /\ (no_colon p = true ->
      ls_vpninfo st = vpninfo /\ alt_secret (ls_ctx st) = None)
  /\ (forall b, alt_secret (ls_ctx st) = Some b ->
                no_colon b = true
                /\ exists a, p = (a ++ ":" ++ b)%string
                             /\ urlpath (ls_vpninfo st) = Some a)
  /\ username (ls_ctx st) = None /\ form (ls_ctx st) = None
  /\ portal_userauthcookie (ls_ctx st) = None
  /\ portal_prelogonuserauthcookie (ls_ctx st) = None.
Proof.
  intros Hp st. subst st. unfold obtain_cookie_init, take_alt_secret.
  rewrite Hp. split; [|split; [|split]].
  - intros a b -> Hb. rewrite (strrchr_colon_last a b Hb).
    cbn [ls_vpninfo ls_ctx alt_secret]. now split.
  - intros Hn. apply strrchr_colon_no_colon in Hn. rewrite Hn.
    cbn [ls_vpninfo ls_ctx alt_secret]. now split.
  - intros b. destruct (strrchr_colon p) as [[a b']|] eqn:Es;
      cbn [ls_vpninfo ls_ctx alt_secret]; [|discriminate].
    intros [= ->]. destruct (strrchr_colon_split p a b Es) as [-> Hb].
    split; [exact Hb|]. now exists a.
  - now destruct (strrchr_colon p) as [[a b]|].
Qed.

Lemma obtain_cookie_init_state (w : world) (vpninfo : openconnect_info) :
  ls_vpninfo (obtain_cookie_init w vpninfo) = fst (take_alt_secret vpninfo)
  /\ alt_secret (ls_ctx (obtain_cookie_init w vpninfo))
     = snd (take_alt_secret vpninfo)
  /\ ls_trace (obtain_cookie_init w vpninfo) = [].
Proof.
  unfold obtain_cookie_init. now destruct (take_alt_secret vpninfo).
Qed.


(** X20: the alternate secret is fixed for the whole of
    [gpst_obtain_cookie]: no response of the server, no form and no pass of
    the login loop changes it.  At the end it is still the field name taken
    off the path.  When [gpst_obtain_cookie] returns 0 the login is in
    gateway mode, with a username saved and a form submitted to the
    gateway. *)
Theorem gpst_obtain_cookie_outcome (fuel : nat) (w : world)
        (vpninfo : openconnect_info) :
  let out := gpst_obtain_cookie fuel w vpninfo in
  alt_secret (ls_ctx (snd out)) = snd (take_alt_secret vpninfo)
  /\ (fst out = At_out 0 ->
      ls_portal (snd out) = false
      /\ username (ls_ctx (snd out)) <> None
      /\ exists blind_retry, In (Ev_submit false blind_retry) (ls_trace (snd out))).
Proof.
  intros out. subst out. unfold gpst_obtain_cookie.
  destruct (obtain_cookie_init_state w vpninfo) as (_ & Ha & _).
  set (st := obtain_cookie_init w vpninfo) in *.
  assert (Hlogin : forall portal st0,
             alt_secret (ls_ctx (snd (gpst_login fuel portal st0)))
             = alt_secret (ls_ctx st0)).
  { intros portal st0. unfold gpst_login. now rewrite gpst_login_run_alt_secret. }
  destruct (path_is (ls_vpninfo st) "portal" "global-protect");
    [split; [now rewrite Hlogin | apply gpst_login_logged_in]|].
  destruct (path_is (ls_vpninfo st) "gateway" "ssl-vpn");
    [split; [now rewrite Hlogin | apply gpst_login_logged_in]|].
  pose proof (Hlogin true st) as H1.
  pose proof (gpst_login_logged_in fuel true st) as L1.
  destruct (gpst_login fuel true st) as [pc1 st1]. cbn [fst snd] in H1, L1.
  destruct pc1; cbn [fst snd]; try (split; [congruence | exact L1]).
  destruct (result =? - EEXIST) eqn:E1; cbn [fst snd];
    [|split; [congruence | exact L1]].
  pose proof (Hlogin false st1) as H2.
  pose proof (gpst_login_logged_in fuel false st1) as L2.
  destruct (gpst_login fuel false st1) as [pc2 st2]. cbn [fst snd] in H2, L2.
  destruct pc2; cbn [fst snd]; try (split; [congruence | exact L2]).
  destruct (result0 =? - EEXIST) eqn:E2; cbn [fst snd login_report ls_ctx];
    [|split; [congruence | exact L2]].
  split; [congruence|]. apply Z.eqb_eq in E2. intros [= E]. rewrite E in E2.
  discriminate.
Qed.

End GlobalProtect.

Arguments ls_vpninfo {world}.
Arguments ls_ctx {world}.
Arguments ls_world {world}.
Arguments ls_portal {world}.
Arguments ls_blind_retry {world}.
Arguments ls_log {world}.
Arguments ls_trace {world}.

(** * The model on concrete sessions

    The theorems above, applied to the sample helpers, and the runs on which
    the specification and the code part ways. *)

Module Run.

Import Sample.

#[local] Abbreviation parse_login :=
  (parse_login_xml xmlnode_is_named xmlnode_get_val urldecode_inplace
                   append_opt buf_alloc).

#[local] Abbreviation parse_prelogin :=
  (parse_prelogin_xml xmlnode_is_named xmlnode_get_val
                      openconnect_base64_decode can_gen_tokencode).

#[local] Abbreviation parse_portal :=
  (parse_portal_xml xmlnode_is_named xmlnode_get_val buf_alloc world
                    xmlnode_get_prop atoi buf_append buf_append_xmlescaped
                    write_new_config process_auth_form handle_redirect).

#[local] Abbreviation obtain_cookie :=
  (gpst_obtain_cookie xmlnode_is_named xmlnode_get_val urldecode_inplace
                      append_opt buf_alloc openconnect_base64_decode
                      can_gen_tokencode world xmlnode_get_prop atoi buf_append
                      buf_append_xmlescaped write_new_config process_auth_form
                      handle_redirect do_https_request do_gen_tokencode
                      nuke_opt_values append_form_opts buf_truncate
                      gpst_classify).

#[local] Abbreviation bye :=
  (gpst_bye buf_alloc world buf_append do_https_request
            openconnect_close_https gpst_classify).

(** The specification's login scenario: the cookie holds every saved field
    and [computer], and omits the password expiration. *)
Example scenario_cookie :
  option_map (fun r => (cb_ret r, cookie (cb_vpninfo r)))
             (parse_login vpninfo0 scenario_login ctx0)
  = Some (0, Some "authcookie=abc123&portal=Acme&user=alice&domain=corp&preferred-ip=10.0.0.5&computer=laptop").
Proof. reflexivity. Qed.

(** The specification's portal scenario: two gateways, in document order. *)
Example scenario_gateways :
  gateway_choices xmlnode_is_named xmlnode_get_val xmlnode_get_prop
                  (elem "list" ""
                        [gateway_entry "gw1.example.com" "East"; text " ";
                         gateway_entry "gw2.example.com:8443" "West"])
  = [{| choice_name := Some "gw1.example.com"; choice_label := Some "East" |};
     {| choice_name := Some "gw2.example.com:8443"; choice_label := Some "West" |}].
Proof. reflexivity. Qed.

#[local] Abbreviation args_loop :=
  (login_args_loop xmlnode_get_val urldecode_inplace append_opt).

Lemma login_args_loop_in_lockstep_witness :
  (exists st,
      args_loop 0 (map argument ["x"; "abc123"]) (login_loop_init buf_alloc)
      = Loop_done st
      /\ ll_unknown_args st = 8 /\ ll_fatal_args st = 3
      /\ In (PRG_ERR, Msg_arg_missing (Some "user")) (ll_log st)
      /\ In (PRG_ERR, Msg_arg_mismatch (Some "clientVer") None "4100")
            (ll_log st))
  /\ (exists st,
        args_loop 0 (map argument long_login) (login_loop_init buf_alloc)
        = Loop_done st
        /\ ll_unknown_args st = 1
        /\ In (PRG_ERR, Msg_unexpected_arg 21 "extra") (ll_log st)).
Proof.
  split.
  - pose proof (login_args_loop_in_lockstep
                  xmlnode_get_val urldecode_inplace append_opt
                  (map argument ["x"; "abc123"])
                  (login_loop_init buf_alloc)) as (Hwalk & _).
    change (element_values xmlnode_get_val (map argument ["x"; "abc123"]))
      with (Some ["x"; "abc123"]) in Hwalk.
    destruct Hwalk as [_ Hwalk]. eexists. split; [exact Hwalk|].
    split; [reflexivity|]. split; [reflexivity|].
    split; vm_compute; repeat (first [left; reflexivity | right]).
  - pose proof (login_args_loop_in_lockstep
                  xmlnode_get_val urldecode_inplace append_opt
                  (map argument long_login)
                  (login_loop_init buf_alloc)) as (Hwalk & _).
    change (element_values xmlnode_get_val (map argument long_login))
      with (Some long_login) in Hwalk.
    destruct Hwalk as [_ Hwalk]. eexists. split; [exact Hwalk|].
    split; [reflexivity|].
    vm_compute; repeat (first [left; reflexivity | right]).
Defined.

Lemma parse_login_xml_cookie_witness :
  login_response_values xmlnode_is_named xmlnode_get_val scenario_login
  = Some scenario_args
  /\ exists r,
      parse_login vpninfo0 scenario_login ctx0 = Some r
      /\ (cb_ret r = 0 ->
          cookie (cb_vpninfo r)
          = buf_data (assembled_cookie urldecode_inplace append_opt buf_alloc
                                       vpninfo0 scenario_args)).
Proof.
  split; [reflexivity|].
  destruct (parse_login_xml_cookie
              xmlnode_is_named xmlnode_get_val urldecode_inplace append_opt
              buf_alloc vpninfo0 scenario_login ctx0 scenario_args eq_refl)
    as (_ & r & Hr & _ & Hcookie).
  exists r. split; [exact Hr | exact Hcookie].
Defined.

Lemma parse_login_xml_fatal_witness :
  exists r,
    parse_login vpninfo0 ssl_login ctx0 = Some r
    /\ cb_ret r = - EPERM /\ cb_vpninfo r = vpninfo0.
Proof.
  destruct (parse_login_xml_fatal
              xmlnode_is_named xmlnode_get_val urldecode_inplace append_opt
              buf_alloc vpninfo0 ssl_login ctx0
              [""; "abc123"; "deadbeef"; "Acme"; "alice"; "LDAP-auth"; "vsys1";
               "corp"; ""; ""; ""; ""; "ssl"; "-1"; "4100"; "10.0.0.5"]
              eq_refl)
    as (r & Hr & _ & Htunnel & _).
  exists r. split; [exact Hr|]. apply Htunnel. discriminate.
Defined.

Lemma parse_login_xml_frame_witness :
  exists r,
    parse_login vpninfo0 (jnlp (map argument long_login)) ctx_alice = Some r
    /\ cb_data r = ctx_alice
    /\ In (PRG_INFO, Msg_arg_returned (Some "portal-userauthcookie") "pc1")
          (cb_log r)
    /\ portal_userauthcookie (cb_data r) = None.
Proof.
  destruct (parse_login_xml_frame
              xmlnode_is_named xmlnode_get_val urldecode_inplace append_opt
              buf_alloc vpninfo0 (jnlp (map argument long_login)) ctx_alice)
    as (r & Hr & Hdata & _ & _ & _ & Hshown).
  destruct (Hshown long_login eq_refl) as (H16 & _ & _ & _ & Hkept & _).
  exists r. split; [exact Hr|]. split; [exact Hdata|].
  split; [apply H16; reflexivity | exact Hkept].
Defined.

Lemma parse_prelogin_xml_saml_gate_witness :
  cb_ret (parse_prelogin vpninfo0 saml_prelogin ctx0) = - EPERM
  /\ cb_log (parse_prelogin vpninfo0 saml_prelogin ctx0)
     = [(PRG_ERR, Msg_saml_required_via
                    (Some "REDIRECT")
                    (Some "aHR0cHM6Ly9pZHAuZXhhbXBsZS5jb20v"));
        (PRG_ERR, Msg_saml_append_field_name)]
  /\ cb_ret (parse_prelogin vpninfo0 saml_prelogin ctx_alt_secret) = 0.
Proof.
  destruct (parse_prelogin_xml_saml_gate
              xmlnode_is_named xmlnode_get_val openconnect_base64_decode
              can_gen_tokencode vpninfo0 saml_prelogin ctx0
              {| prompt := None; username_label := None; password_label := None;
                 saml_method := Some "REDIRECT";
                 saml_path := Some "aHR0cHM6Ly9pZHAuZXhhbXBsZS5jb20v" |}
              eq_refl eq_refl eq_refl)
    as (Hdenied & Hreport & _).
  destruct (parse_prelogin_xml_saml_gate
              xmlnode_is_named xmlnode_get_val openconnect_base64_decode
              can_gen_tokencode vpninfo0 saml_prelogin ctx_alt_secret
              {| prompt := None; username_label := None; password_label := None;
                 saml_method := Some "REDIRECT";
                 saml_path := Some "aHR0cHM6Ly9pZHAuZXhhbXBsZS5jb20v" |}
              eq_refl eq_refl eq_refl)
    as (_ & _ & Hbuilt).
  split; [apply Hdenied; reflexivity|].
  split; [apply (Hreport eq_refl) | apply (Hbuilt eq_refl)].
Defined.

Lemma parse_prelogin_xml_secret_kind_witness :
  exists f user secret,
    form (cb_data (parse_prelogin vpninfo0 token_prelogin ctx0)) = Some f
    /\ form_opts f = [user; secret]
    /\ opt_type secret = OC_FORM_OPT_TOKEN.
Proof.
  destruct (parse_prelogin_xml_secret_kind
              xmlnode_is_named xmlnode_get_val openconnect_base64_decode
              can_gen_tokencode vpninfo0 token_prelogin ctx0 eq_refl eq_refl)
    as (sc & f & user & secret & Hscan & Hf & Hopts & Htoken & _).
  exists f, user, secret. split; [exact Hf|]. split; [exact Hopts|].
  cbv in Hscan. injection Hscan as <-.
  apply Htoken. split; [reflexivity|]. split; [reflexivity|].
  exists "Passcode". split; [reflexivity | discriminate].
Defined.


Lemma gpst_bye_failed_logout_witness :
  bye junk_logout_script vpninfo_connected None
  = (- EINVAL, vpninfo_connected, [], [(PRG_ERR, Msg_logout_failed)]).
Proof.
  apply (gpst_bye_failed_logout
           buf_alloc world buf_append do_https_request openconnect_close_https
           gpst_classify junk_logout_script vpninfo_connected None
           0 (Some "<html>junk") [] []
           {| cb_ret := - EINVAL; cb_vpninfo := vpninfo_connected;
              cb_data := tt; cb_log := [] |}).
  - reflexivity.
  - reflexivity.
  - cbv. discriminate.
  - reflexivity.
  - reflexivity.
Defined.


Lemma gpst_login_username_witness :
  username
    (ls_ctx
       (snd (login_after_submit world nuke_opt_values (- EAGAIN)
               {| ls_vpninfo := vpninfo0;
                  ls_ctx := set_form ctx0
                              (Some (set_form_opts (portal_form [])
                                       [set_opt_value (portal_select_opt [])
                                                      (Some "alice")]));
                  ls_world := rejected_retry_script;
                  ls_portal := false; ls_blind_retry := false;
                  ls_request_body := buf_alloc; ls_xml_buf := None;
                  ls_log := []; ls_trace := [] |})))
  = Some "alice".
Proof.
  apply (proj1 (gpst_login_username
                  xmlnode_is_named xmlnode_get_val urldecode_inplace append_opt
                  buf_alloc openconnect_base64_decode can_gen_tokencode world
                  xmlnode_get_prop atoi buf_append buf_append_xmlescaped
                  write_new_config process_auth_form handle_redirect
                  do_https_request do_gen_tokencode nuke_opt_values
                  append_form_opts buf_truncate gpst_classify
                  (- EAGAIN)
                  {| ls_vpninfo := vpninfo0;
                     ls_ctx := set_form ctx0
                                 (Some (set_form_opts (portal_form [])
                                          [set_opt_value (portal_select_opt [])
                                                         (Some "alice")]));
                     ls_world := rejected_retry_script;
                     ls_portal := false; ls_blind_retry := false;
                     ls_request_body := buf_alloc; ls_xml_buf := None;
                     ls_log := []; ls_trace := [] |}))
    with (f := set_form_opts (portal_form [])
                 [set_opt_value (portal_select_opt []) (Some "alice")])
         (o := set_opt_value (portal_select_opt []) (Some "alice"))
         (rest := []);
    try reflexivity.
  now right.
Defined.

(** C1, against the claim as stated: an argument past the end of the schema
    whose content is ["-1"] is not classified as unexpected; it passes
    without a count and without a report, and the response is accepted as if
    the argument were not there. *)
Lemma surplus_null_argument_passes :
  gp_login_nargs = 21%nat
  /\ nth_error (scenario_args ++ ["-1"]) 21 = Some "-1"
  /\ args_loop 0 (map argument (scenario_args ++ ["-1"])) (login_loop_init buf_alloc)
     = args_loop 0 (map argument scenario_args) (login_loop_init buf_alloc)
  /\ parse_login vpninfo0 (jnlp (map argument (scenario_args ++ ["-1"]))) ctx0
     = parse_login vpninfo0 scenario_login ctx0
  /\ option_map (fun r => (cb_ret r, map fst (cb_log r)))
                (parse_login vpninfo0
                             (jnlp (map argument (scenario_args ++ ["-1"]))) ctx0)
     = Some (0, [PRG_INFO]).
Proof. vm_compute. repeat split. Qed.

(** C7, against the claim as stated: with a token generator that answers for
    the field, no alternate secret and the label ["Passcode"], the secret is
    a token field; with no token generator, and the rest the same, it is a
    password field. *)
Lemma token_field_follows_generator :
  has_token_generator can_gen_tokencode vpninfo0
    (prelogin_form_untyped ctx0
       {| prompt := None; username_label := Some "User ID";
          password_label := Some "Passcode";
          saml_method := None; saml_path := None |})
    (prelogin_secret_opt ctx0
       {| prompt := None; username_label := Some "User ID";
          password_label := Some "Passcode";
          saml_method := None; saml_path := None |}) = true
  /\ option_map (fun f => map opt_type (form_opts f))
                (form (cb_data (parse_prelogin vpninfo0 token_prelogin ctx0)))
     = Some [OC_FORM_OPT_TEXT; OC_FORM_OPT_TOKEN]
  /\ has_token_generator cannot_gen_tokencode vpninfo0
       (prelogin_form_untyped ctx0
          {| prompt := None; username_label := Some "User ID";
             password_label := Some "Passcode";
             saml_method := None; saml_path := None |})
       (prelogin_secret_opt ctx0
          {| prompt := None; username_label := Some "User ID";
             password_label := Some "Passcode";
             saml_method := None; saml_path := None |}) = false
  /\ alt_secret ctx0 = None
  /\ option_map (fun f => map opt_type (form_opts f))
                (form (cb_data (parse_prelogin_xml
                                  xmlnode_is_named xmlnode_get_val
                                  openconnect_base64_decode cannot_gen_tokencode
                                  vpninfo0 token_prelogin ctx0)))
     = Some [OC_FORM_OPT_TEXT; OC_FORM_OPT_PASSWORD].
Proof. vm_compute. repeat split. Qed.


(** C6, against the claim as stated: a SAML request that does not decode as
    base64 is answered with [-EINVAL], whether or not the session holds a
    completion signal, and no form is built. *)
Lemma undecodable_saml_request :
  has_saml_marker xmlnode_get_val bad_saml_prelogin = true
  /\ has_completion_signal ctx0 = false
  /\ cb_ret (parse_prelogin vpninfo0 bad_saml_prelogin ctx0) = - EINVAL
  /\ cb_ret (parse_prelogin vpninfo0 bad_saml_prelogin ctx0) <> - EPERM
  /\ has_completion_signal ctx_alt_secret = true
  /\ cb_ret (parse_prelogin vpninfo0 bad_saml_prelogin ctx_alt_secret) = - EINVAL
  /\ form (cb_data (parse_prelogin vpninfo0 bad_saml_prelogin ctx_alt_secret))
     = None.
Proof. vm_compute. repeat split. discriminate. Qed.

(** C8, against the claim as stated: a logout answered with junk returns the
    negative value to the caller, not a success status. *)
Lemma failed_logout_returns_error :
  gpst_classify (Some "<html>junk") = Resp_error (- EINVAL)
  /\ fst (fst (fst (bye junk_logout_script vpninfo_connected None))) = - EINVAL
  /\ ~ 0 <= fst (fst (fst (bye junk_logout_script vpninfo_connected None)))
  /\ snd (bye junk_logout_script vpninfo_connected None)
     = [(PRG_ERR, Msg_logout_failed)].
Proof. vm_compute. repeat split. intros H. apply H. reflexivity. Qed.

(** C9, against the claim as stated: in one call the username is assigned
    twice; and it is assigned when the gateway answers with a challenge,
    before any login has succeeded. *)
Lemma username_assigned_again_and_on_challenge :
  username_assignments
    (ls_trace (snd (obtain_cookie 20 rejected_retry_script vpninfo0))) = 2%nat
  /\ gpst_classify (Some "challenge")
     = Resp_challenge "Enter the code" "continuation"
  /\ firstn 4 (ls_trace (snd (obtain_cookie 20 challenge_script vpninfo_gateway)))
     = [Ev_prelogin false;
        Ev_collect (Some (prelogin_form can_gen_tokencode vpninfo_gateway ctx0
                            {| prompt := None;
                               username_label := Some "User ID";
                               password_label := Some "Password";
                               saml_method := None; saml_path := None |}));
        Ev_submit false false;
        Ev_username "alice"]
  /\ username_assignments
       (ls_trace (snd (obtain_cookie 3 challenge_script vpninfo_gateway))) = 1%nat
  /\ fst (obtain_cookie 3 challenge_script vpninfo_gateway) = At_got_form.
Proof. vm_compute. repeat split. Qed.

#[local] Abbreviation login :=
  (gpst_login xmlnode_is_named xmlnode_get_val urldecode_inplace append_opt
              buf_alloc openconnect_base64_decode can_gen_tokencode world
              xmlnode_get_prop atoi buf_append buf_append_xmlescaped
              write_new_config process_auth_form handle_redirect
              do_https_request do_gen_tokencode nuke_opt_values
              append_form_opts buf_truncate gpst_classify).

#[local] Abbreviation login_run :=
  (gpst_login_run xmlnode_is_named xmlnode_get_val urldecode_inplace append_opt
                  buf_alloc openconnect_base64_decode can_gen_tokencode world
                  xmlnode_get_prop atoi buf_append buf_append_xmlescaped
                  write_new_config process_auth_form handle_redirect
                  do_https_request do_gen_tokencode nuke_opt_values
                  append_form_opts buf_truncate gpst_classify).

#[local] Abbreviation challenge := (challenge_cb can_gen_tokencode).

#[local] Abbreviation cookie_init := (obtain_cookie_init buf_alloc world).

Lemma parse_login_xml_malformed_witness :
  exists r,
    parse_login vpninfo0 (elem "html" "" []) ctx_alice = Some r
    /\ cb_ret r = - EINVAL /\ cb_vpninfo r = vpninfo0 /\ cb_data r = ctx_alice.
Proof.
  apply (parse_login_xml_malformed
           xmlnode_is_named xmlnode_get_val urldecode_inplace append_opt
           buf_alloc vpninfo0 (elem "html" "" []) ctx_alice).
  left. reflexivity.
Defined.

Lemma parse_login_xml_elements_only_witness :
  parse_login vpninfo0 scenario_login ctx0 = parse_login vpninfo0 bare_login ctx0.
Proof.
  apply (parse_login_xml_elements_only
           xmlnode_is_named xmlnode_get_val urldecode_inplace append_opt
           buf_alloc vpninfo0 scenario_login bare_login ctx0 scenario_args);
    reflexivity.
Defined.

Lemma parse_login_xml_report_witness :
  exists r log unexpected,
    parse_login vpninfo0 ssl_login ctx0 = Some r
    /\ cb_ret r = - EPERM
    /\ cb_log r = log ++ [(PRG_ERR, Msg_please_report unexpected 1)].
Proof.
  destruct (parse_login_xml_report
              xmlnode_is_named xmlnode_get_val urldecode_inplace append_opt
              buf_alloc vpninfo0 ssl_login ctx0
              [""; "abc123"; "deadbeef"; "Acme"; "alice"; "LDAP-auth"; "vsys1";
               "corp"; ""; ""; ""; ""; "ssl"; "-1"; "4100"; "10.0.0.5"])
    as (r & log & unexpected & Hr & Hret & Hlog & _).
  - reflexivity.
  - vm_compute. discriminate.
  - exists r, log, unexpected. split; [exact Hr|]. split; [exact Hret|].
    exact Hlog.
Defined.

Lemma parse_login_xml_short_witness :
  exists r,
    parse_login vpninfo0 (jnlp (map argument ["x"; "abc123"])) ctx0 = Some r
    /\ cb_ret r = - EPERM /\ cb_vpninfo r = vpninfo0.
Proof.
  apply (parse_login_xml_short
           xmlnode_is_named xmlnode_get_val urldecode_inplace append_opt
           buf_alloc vpninfo0 (jnlp (map argument ["x"; "abc123"])) ctx0
           ["x"; "abc123"]).
  - reflexivity.
  - cbv. lia.
Defined.

Lemma parse_login_xml_again_witness :
  exists r,
    parse_login vpninfo0 scenario_login ctx0 = Some r
    /\ parse_login (cb_vpninfo r) scenario_login (cb_data r) = Some r.
Proof.
  destruct (parse_login vpninfo0 scenario_login ctx0) as [r|] eqn:E.
  - exists r. split; [reflexivity|].
    exact (parse_login_xml_again
             xmlnode_is_named xmlnode_get_val urldecode_inplace append_opt
             buf_alloc vpninfo0 scenario_login ctx0 r E).
  - vm_compute in E. discriminate E.
Defined.

Lemma parse_prelogin_xml_frame_witness :
  cb_ret (parse_prelogin vpninfo0 (elem "html" "" []) ctx_alice) = 0
  /\ cb_data (parse_prelogin vpninfo0 (elem "html" "" []) ctx_alice) = ctx_alice
  /\ cb_log (parse_prelogin vpninfo0 (elem "html" "" []) ctx_alice) = [].
Proof.
  destruct (parse_prelogin_xml_frame
              xmlnode_is_named xmlnode_get_val openconnect_base64_decode
              can_gen_tokencode vpninfo0 (elem "html" "" []) ctx_alice)
    as (_ & _ & _ & _ & _ & _ & Hroot).
  apply Hroot. reflexivity.
Defined.

Lemma parse_prelogin_xml_plain_witness :
  exists f user secret,
    cb_ret (parse_prelogin vpninfo0 plain_prelogin ctx_alt_secret) = 0
    /\ form (cb_data (parse_prelogin vpninfo0 plain_prelogin ctx_alt_secret))
       = Some f
    /\ form_opts f = [user; secret]
    /\ opt_name secret = Some "prelogin-cookie".
Proof.
  destruct (parse_prelogin_xml_plain
              xmlnode_is_named xmlnode_get_val openconnect_base64_decode
              can_gen_tokencode vpninfo0 plain_prelogin ctx_alt_secret
              eq_refl eq_refl)
    as (f & user & secret & Hret & Hf & _ & _ & _ & Hopts & _ & Hname & _).
  exists f, user, secret. split; [exact Hret|]. split; [exact Hf|].
  split; [exact Hopts | exact Hname].
Defined.

Lemma parse_prelogin_xml_undecodable_witness :
  cb_ret (parse_prelogin vpninfo0 bad_saml_prelogin ctx_alt_secret) = - EINVAL.
Proof.
  apply (proj1 (parse_prelogin_xml_undecodable
                  xmlnode_is_named xmlnode_get_val openconnect_base64_decode
                  can_gen_tokencode vpninfo0 bad_saml_prelogin ctx_alt_secret
                  eq_refl)).
  exists (elem "saml-request" "!!!" []), "!!!".
  split; [right; left; reflexivity | split; reflexivity].
Defined.

Lemma challenge_cb_twice_witness :
  exists r1 r2 f2 user secret,
    challenge vpninfo0 "Enter the code" "step1"
              (cb_data (parse_prelogin vpninfo0 plain_prelogin ctx_alice))
    = Some r1
    /\ challenge vpninfo0 "Enter the next code" "step2" (cb_data r1) = Some r2
    /\ form (cb_data r2) = Some f2
    /\ form_opts f2 = [user; secret]
    /\ opt_type secret = OC_FORM_OPT_PASSWORD.
Proof.
  destruct (challenge_cb_twice
              can_gen_tokencode vpninfo0 "Enter the code" "step1"
              "Enter the next code" "step2"
              (cb_data (parse_prelogin vpninfo0 plain_prelogin ctx_alice))
              (prelogin_form can_gen_tokencode vpninfo0 ctx_alice
                 {| prompt := None; username_label := Some "User ID";
                    password_label := Some "Password";
                    saml_method := None; saml_path := None |})
              (prelogin_user_opt ctx_alice
                 {| prompt := None; username_label := Some "User ID";
                    password_label := Some "Password";
                    saml_method := None; saml_path := None |})
              (set_opt_type
                 (prelogin_secret_opt ctx_alice
                    {| prompt := None; username_label := Some "User ID";
                       password_label := Some "Password";
                       saml_method := None; saml_path := None |})
                 OC_FORM_OPT_PASSWORD)
              [] eq_refl eq_refl)
    as (r1 & r2 & f1 & f2 & s1 & s2 & H1 & H2 & _ & _ & _ & _ & _ & Hd & _
        & Hopts & _ & _ & _ & _ & _ & _ & _ & _ & _ & _ & _ & _ & _ & _
        & Halternate & _).
  exists r1, r2, f2, (set_opt_type
                        (prelogin_user_opt ctx_alice
                           {| prompt := None; username_label := Some "User ID";
                              password_label := Some "Password";
                              saml_method := None; saml_path := None |})
                        OC_FORM_OPT_HIDDEN), s2.
  split; [exact H1|]. split; [exact H2|]. split; [now rewrite Hd|].
  split; [exact Hopts|].
  apply (Halternate (fun _ _ => eq_refl) eq_refl).
Defined.

Lemma challenge_cb_after_prelogin_witness :
  exists r f user secret,
    challenge vpninfo0 "Enter the code" "step1"
              (cb_data (parse_prelogin vpninfo0 plain_prelogin ctx_alice))
    = Some r
    /\ form (cb_data r) = Some f
    /\ form_opts f = [user; secret]
    /\ opt_value user = Some "alice"
    /\ opt_label secret = Some "Challenge: ".
Proof.
  destruct (challenge_cb_after_prelogin
              xmlnode_is_named xmlnode_get_val openconnect_base64_decode
              can_gen_tokencode vpninfo0 vpninfo0 plain_prelogin ctx_alice
              "Enter the code" "step1" eq_refl eq_refl)
    as (r & f & user & secret & Hr & _ & Hf & Hopts & _ & _ & Huser & _ & Hlabel
        & _).
  exists r, f, user, secret. split; [exact Hr|]. split; [exact Hf|].
  split; [exact Hopts|]. split; [exact Huser | exact Hlabel].
Defined.

Lemma parse_portal_xml_context_witness :
  exists r w',
    parse_portal [] vpninfo0 (policy "c00k1e") ctx_alt_secret = Some (r, w')
    /\ username (cb_data r) = None
    /\ alt_secret (cb_data r) = Some "prelogin-cookie"
    /\ form (cb_data r) = None.
Proof.
  destruct (parse_portal [] vpninfo0 (policy "c00k1e") ctx_alt_secret)
    as [[r w']|] eqn:E.
  - exists r, w'. split; [reflexivity|].
    destruct (parse_portal_xml_context
                xmlnode_is_named xmlnode_get_val buf_alloc world xmlnode_get_prop
                atoi buf_append buf_append_xmlescaped write_new_config
                process_auth_form handle_redirect [] w' vpninfo0
                (policy "c00k1e") ctx_alt_secret r E)
      as (Hu & Ha & Hf & _).
    split; [exact Hu|]. split; [exact Ha | exact Hf].
  - vm_compute in E. discriminate E.
Defined.

Lemma scan_portal_hip_interval_witness :
  ps_vpninfo (scan_portal xmlnode_is_named xmlnode_get_val atoi
                          vpninfo_hip hip_policy ctx0)
  = vpninfo_hip.
Proof.
  apply (proj2 (scan_portal_hip_interval
                  xmlnode_is_named xmlnode_get_val atoi vpninfo_hip hip_policy
                  ctx0)).
  vm_compute. discriminate.
Defined.

Lemma parse_portal_xml_report_witness :
  exists r w',
    parse_portal [] vpninfo0 (policy "empty") ctx0 = Some (r, w')
    /\ cb_log r
       = [(PRG_INFO, Msg_gateways_available 2);
          (PRG_INFO, Msg_gateway (Some "East") (Some "gw1.example.com"));
          (PRG_INFO, Msg_gateway (Some "West") (Some "gw2.example.com:8443"))].
Proof.
  destruct (parse_portal [] vpninfo0 (policy "empty") ctx0) as [[r w']|] eqn:E.
  - exists r, w'. split; [reflexivity|].
    exact (parse_portal_xml_report
             xmlnode_is_named xmlnode_get_val buf_alloc world xmlnode_get_prop
             atoi buf_append buf_append_xmlescaped write_new_config
             process_auth_form handle_redirect [] w' vpninfo0 (policy "empty")
             ctx0
             (elem "list" ""
                   [gateway_entry "gw1.example.com" "East"; text " ";
                    gateway_entry "gw2.example.com:8443" "West"])
             r eq_refl E).
  - vm_compute in E. discriminate E.
Defined.

Lemma parse_portal_xml_null_name_witness :
  parse_portal [] vpninfo0 nameless_policy ctx0 = None.
Proof.
  apply (proj2 (parse_portal_xml_null_name
                  xmlnode_is_named xmlnode_get_val buf_alloc world
                  xmlnode_get_prop atoi buf_append buf_append_xmlescaped
                  write_new_config process_auth_form handle_redirect
                  [] vpninfo0 nameless_policy ctx0)).
  split; [reflexivity|].
  exists (elem "list" "" [elem "entry" "" [elem "description" "East" []]]),
         {| choice_name := None; choice_label := Some "East" |}, [].
  repeat split; reflexivity.
Defined.


Lemma gpst_login_success_witness :
  ls_portal (snd (login 20 true (cookie_init rejected_retry_script vpninfo0)))
  = false
  /\ username (ls_ctx (snd (login 20 true
                               (cookie_init rejected_retry_script vpninfo0))))
     <> None.
Proof.
  destruct (gpst_login_success
              xmlnode_is_named xmlnode_get_val urldecode_inplace append_opt
              buf_alloc openconnect_base64_decode can_gen_tokencode world
              xmlnode_get_prop atoi buf_append buf_append_xmlescaped
              write_new_config process_auth_form handle_redirect
              do_https_request do_gen_tokencode nuke_opt_values
              append_form_opts buf_truncate gpst_classify
              20%nat true (cookie_init rejected_retry_script vpninfo0)
              (snd (login 20 true (cookie_init rejected_retry_script vpninfo0))))
    as (Hp & Hu & _).
  - vm_compute. reflexivity.
  - split; [exact Hp | exact Hu].
Defined.

Lemma obtain_cookie_init_split_witness :
  ls_vpninfo (cookie_init [] vpninfo_field) = set_urlpath vpninfo_field (Some "gateway")
  /\ alt_secret (ls_ctx (cookie_init [] vpninfo_field)) = Some "prelogin-cookie".
Proof.
  destruct (obtain_cookie_init_split
              buf_alloc world [] vpninfo_field "gateway:prelogin-cookie" eq_refl)
    as (Hsplit & _).
  apply (Hsplit "gateway" "prelogin-cookie"); reflexivity.
Defined.


Lemma gpst_obtain_cookie_outcome_witness :
  alt_secret (ls_ctx (snd (obtain_cookie 20 gateway_script vpninfo_field)))
  = Some "prelogin-cookie"
  /\ ls_portal (snd (obtain_cookie 20 gateway_script vpninfo_field)) = false.
Proof.
  destruct (gpst_obtain_cookie_outcome
              xmlnode_is_named xmlnode_get_val urldecode_inplace append_opt
              buf_alloc openconnect_base64_decode can_gen_tokencode world
              xmlnode_get_prop atoi buf_append buf_append_xmlescaped
              write_new_config process_auth_form handle_redirect
              do_https_request do_gen_tokencode nuke_opt_values
              append_form_opts buf_truncate gpst_classify
              20%nat gateway_script vpninfo_field)
    as (Ha & Hout).
  split; [exact Ha|]. apply Hout. vm_compute. reflexivity.
Defined.

End Run.
